(** * System monitor dashboard (app.py): store accessors, statistics and view assembly

    A shallow embedding of the query and view layer of [app.py]:

    - the SQLite store [log.db] with its two tables, and the three accessors
      [get_system_logs], [get_alerts_log] and [get_statistics];
    - the part of [dashboard_page] that turns the accessors' results into
      the elements handed to Streamlit (metrics, tables, charts, messages);
    - the time-boxed memoisation that [@st.cache_data(ttl=10)] and
      [st.cache_data.clear()] ask of Streamlit;
    - one run of the script: the session state and its initialisation, the
      theme, [sidebar_navigation], [settings_page], [about_page] and [main],
      with the widgets' values as inputs of the run and [st.rerun()] as the
      way a run is cut short.

    A REAL cell holds an IEEE binary64 number (Rocq's primitive floats) or
    NULL, which Python reads as [None]; [id] is the INTEGER PRIMARY KEY, a
    [Z]; TEXT cells and Python strs are byte strings.  A Python exception
    is a value of [exn]; code that may raise returns a [result]. *)

From Stdlib Require Import ZArith String Ascii List Floats Uint63 QArith Lqa.
From stdpp Require Import base option strings list gmap sorting pretty.

Set Warnings "-inexact-float,-register-all".

Local Open Scope string_scope.
Local Open Scope Z_scope.
Local Open Scope list_scope.

(** ** Python values *)

(** Exceptions the modelled code can meet; all of them are subclasses of
    Python's [Exception].  What an exception carries is what it is about;
    its message is the raising library's text (see [str] below). *)
Inductive sqlite_error :=
| unable_to_open
| no_such_table (name : string)
| no_such_column (name : string).

(** What Python cannot do with [None]. *)
Inductive type_error :=
| format_of_None     (* format(None, ".1f") *)
| None_gt_int        (* None > 0 *)
| None_minus_int.    (* None - 80 *)

Inductive exn :=
| OperationalError (what : sqlite_error)         (* sqlite3.OperationalError *)
| sqlite3_DatabaseError                          (* the file is not a database *)
| OverflowError                                  (* an int SQLite cannot hold *)
| DatabaseError (query : string) (cause : exn)   (* pandas.errors.DatabaseError *)
| KeyError (missing : list string)               (* columns the frame lacks *)
| TypeError (what : type_error)                  (* an operation on None *)
| ParseError (text : list string).               (* pandas.to_datetime *)

Inductive result (A : Type) :=
| Ok (a : A)
| Raise (e : exn).
Arguments Ok {A} a.
Arguments Raise {A} e.

#[global] Instance result_ret : MRet result := fun _ a => Ok a.
#[global] Instance result_bind : MBind result := fun _ _ f m =>
  match m with
  | Ok a => f a
  | Raise e => Raise e
  end.
#[global] Instance result_fmap : FMap result := fun _ _ f m =>
  match m with
  | Ok a => Ok (f a)
  | Raise e => Raise e
  end.

(** [format(n)] of a Python int inside an f-string. *)
Definition str_int (n : Z) : string := pretty n.

(** *** Floats: comparison with an int, conversion from an int *)

(** The exact order between a float and an integer, [None] for NaN.  Python
    compares a float with an int exactly, and so does SQLite for a REAL
    against an INTEGER. *)
Definition float_compare_int (x : float) (n : Z) : option comparison :=
  match Prim2SF x with
  | S754_nan => None
  | S754_zero _ => Some (0 ?= n)
  | S754_infinity s => Some (if s then Lt else Gt)
  | S754_finite s m e =>
      let v := if s then Z.neg m else Z.pos m in
      Some (if 0 <=? e then (v * 2 ^ e ?= n) else (v ?= n * 2 ^ (- e)))
  end.

(** [x > n], [x >= n] and [x == n]: false on NaN. *)
Definition float_gt_int (x : float) (n : Z) : bool :=
  match float_compare_int x n with Some Gt => true | _ => false end.
Definition float_ge_int (x : float) (n : Z) : bool :=
  match float_compare_int x n with Some Gt | Some Eq => true | _ => false end.
Definition float_eq_int (x : float) (n : Z) : bool :=
  match float_compare_int x n with Some Eq => true | _ => false end.

(** [float(n)] for an int of magnitude below [2^63] (row counts and the
    widgets' bounds are far below), rounded to nearest-even as the
    hardware conversion does. *)
Definition float_of_int (n : Z) : float :=
  if n <? 0 then PrimFloat.opp (PrimFloat.of_uint63 (Uint63.of_Z (- n)))
  else PrimFloat.of_uint63 (Uint63.of_Z n).

(** *** [f"{x:.1f}"] and [f"{x:.2f}"] *)

(** The integer nearest to [n / d] ([d > 0]), ties to even. *)
Definition round_half_even (n d : Z) : Z :=
  let q := n / d in
  match 2 * (n mod d) ?= d with
  | Lt => q
  | Gt => q + 1
  | Eq => if Z.even q then q else q + 1
  end.

(** [m * 2^e * 10^digits] rounded to an integer: Python rounds the exact
    binary value of the float, ties to even. *)
Definition scaled_magnitude (digits : nat) (m : positive) (e : Z) : Z :=
  let p := 10 ^ Z.of_nat digits in
  if 0 <=? e then Z.pos m * 2 ^ e * p
  else round_half_even (Z.pos m * p) (2 ^ (- e)).

(** Zeros on the left up to a width. *)
Fixpoint zeros (n : nat) : string :=
  match n with
  | O => ""
  | S n => String "0" (zeros n)
  end.

Definition zfill (width : nat) (s : string) : string :=
  zeros (width - String.length s) +:+ s.

Definition fixed_digits (digits : nat) (n : Z) : string :=
  let p := 10 ^ Z.of_nat digits in
  pretty (n / p) +:+ "." +:+ zfill digits (pretty (n mod p)).

(** [format(x, ".<digits>f")] for [digits >= 1]. *)
Definition format_f (digits : nat) (x : float) : string :=
  match Prim2SF x with
  | S754_nan => "nan"
  | S754_infinity s => if s then "-inf" else "inf"
  | S754_zero s => (if s then "-" else "") +:+ fixed_digits digits 0
  | S754_finite s m e =>
      (if s then "-" else "") +:+ fixed_digits digits (scaled_magnitude digits m e)
  end.

(** *** [datetime.date] *)

Record date := { year : Z; month : Z; day : Z }.

#[global] Instance date_eq_dec : EqDecision date.
Proof. solve_decision. Defined.

#[global] Instance date_countable : Countable date.
Proof.
  refine (inj_countable' (fun d => (year d, month d, day d))
            (fun t => {| year := t.1.1; month := t.1.2; day := t.2 |}) _).
  by intros [].
Defined.

(** [d.strftime('%Y-%m-%d')] as CPython gets it from the C library of
    Linux: the month and the day on two digits, the year as it is, on fewer
    than four digits before the year 1000. *)
Definition strftime_Ymd (d : date) : string :=
  pretty (year d) +:+ "-" +:+ zfill 2 (pretty (month d)) +:+ "-"
  +:+ zfill 2 (pretty (day d)).

(** [sep.join(parts)] *)
Fixpoint join (sep : string) (parts : list string) : string :=
  match parts with
  | [] => ""
  | [p] => p
  | p :: rest => p +:+ sep +:+ join sep rest
  end.

(** [df.head(n)]: the first [n] rows, or all but the last [-n] rows for a
    negative [n]. *)
Definition head_n {A} (n : Z) (l : list A) : list A :=
  if 0 <=? n then take (Z.to_nat n) l
  else take (length l - Z.to_nat (- n))%nat l.

(** ** The store: [log.db] *)

(** A row of [system_log].  A REAL cell holds a number or NULL ([None]). *)
Module LogRecord.
Record t := mk {
  id : Z;
  timestamp : string;
  cpu : option float;
  memory : option float;
  disk : option float;
  ping_status : string;
  ping_ms : option float
}.
End LogRecord.

(** A row of [alerts_log]. *)
Module AlertRecord.
Record t := mk {
  id : Z;
  timestamp : string;
  alert_type : string;
  message : string
}.
End AlertRecord.

(** A table of the store and a pandas [DataFrame] have the same shape: the
    names of the columns they really have, as the table declares them, and
    their rows.  Rows are typed after the expected schema: a field of a row
    stands for the column of its name, whatever the case of the letters in
    the declared name; a column that [columns] does not list is absent,
    every read of it raises, and the field that stands for it in a row is
    never looked at. *)
Record DataFrame (R : Type) := {
  columns : list string;
  rows : list R
}.
Arguments columns {R} _.
Arguments rows {R} _.

Definition has_column {R} (df : DataFrame R) (c : string) : bool :=
  bool_decide (c ∈ columns df).

(** [df.empty]: some axis has length zero. *)
Definition df_empty {R} (df : DataFrame R) : bool :=
  match rows df, columns df with
  | [], _ => true
  | _, [] => true
  | _, _ => false
  end.

(** What the file holds: each table is there or not. *)
Record database := {
  system_log : option (DataFrame LogRecord.t);
  alerts_log : option (DataFrame AlertRecord.t)
}.

(** The file itself: it cannot be opened, it is no SQLite database, or it
    is one.  A file that does not exist yet is created empty by
    [sqlite3.connect]: a database without tables. *)
Inductive store :=
| Unopenable
| NotADatabase
| Opened (db : database).

Definition DB_NAME : string := "log.db".

(** [sqlite3.connect(DB_NAME)]: the file is opened, not read. *)
Definition connect (s : store) : result store :=
  match s with
  | Unopenable => Raise (OperationalError unable_to_open)
  | _ => Ok s
  end.

(** SQLite reads the file when it prepares the first statement on the
    connection. *)
Definition read_schema (conn : store) : result database :=
  match conn with
  | Opened db => Ok db
  | _ => Raise sqlite3_DatabaseError
  end.

(** Name resolution when SQLite prepares a statement. *)
Definition from_table {R} (name : string) (t : option (DataFrame R))
  : result (DataFrame R) :=
  match t with
  | Some t => Ok t
  | None => Raise (OperationalError (no_such_table name))
  end.

(** SQLite compares the names of columns without regard to the case of the
    ASCII letters. *)
Definition ascii_lower (c : ascii) : ascii :=
  let n := nat_of_ascii c in
  if (65 <=? n)%nat && (n <=? 90)%nat then ascii_of_nat (n + 32) else c.

Fixpoint lower (s : string) : string :=
  match s with
  | EmptyString => EmptyString
  | String c s => String (ascii_lower c) (lower s)
  end.

Definition same_name (a b : string) : bool := String.eqb (lower a) (lower b).

Definition sql_has_column {R} (t : DataFrame R) (c : string) : bool :=
  existsb (same_name c) (columns t).

Definition sql_column {R} (t : DataFrame R) (c : string) : result unit :=
  if sql_has_column t c then Ok tt
  else Raise (OperationalError (no_such_column c)).

Fixpoint sql_columns {R} (t : DataFrame R) (cs : list string) : result unit :=
  match cs with
  | [] => Ok tt
  | c :: cs => _ ← sql_column t c; sql_columns t cs
  end.

(** An int parameter must fit SQLite's 64-bit INTEGER; the driver raises
    otherwise. *)
Definition bind_int (n : Z) : result unit :=
  if (- 2 ^ 63 <=? n) && (n <? 2 ^ 63) then Ok tt
  else Raise OverflowError.

(** [pd.read_sql_query] re-raises whatever the statement raised as its
    own [DatabaseError]. *)
Definition read_sql_query {A} (query : string) (run : result A) : result A :=
  match run with
  | Ok a => Ok a
  | Raise e => Raise (DatabaseError query e)
  end.

(** [ORDER BY id DESC] and [df.sort_values('id')].  [id] is the INTEGER
    PRIMARY KEY, so no two rows of a table share it and the order is
    determined. *)
Definition log_id_desc : relation LogRecord.t :=
  fun r1 r2 => LogRecord.id r2 <= LogRecord.id r1.
Definition log_id_asc : relation LogRecord.t :=
  fun r1 r2 => LogRecord.id r1 <= LogRecord.id r2.
Definition alert_id_desc : relation AlertRecord.t :=
  fun a1 a2 => AlertRecord.id a2 <= AlertRecord.id a1.

#[global] Instance log_id_desc_dec r1 r2 : Decision (log_id_desc r1 r2) :=
  Z_le_dec (LogRecord.id r2) (LogRecord.id r1).
#[global] Instance log_id_asc_dec r1 r2 : Decision (log_id_asc r1 r2) :=
  Z_le_dec (LogRecord.id r1) (LogRecord.id r2).
#[global] Instance alert_id_desc_dec a1 a2 : Decision (alert_id_desc a1 a2) :=
  Z_le_dec (AlertRecord.id a2) (AlertRecord.id a1).

Definition order_by_id_desc : list LogRecord.t -> list LogRecord.t :=
  merge_sort log_id_desc.
Definition sort_values_id : list LogRecord.t -> list LogRecord.t :=
  merge_sort log_id_asc.
Definition alerts_order_by_id_desc : list AlertRecord.t -> list AlertRecord.t :=
  merge_sort alert_id_desc.

(** The conditions [get_system_logs] can put in its WHERE clause, each
    with the parameters it binds. *)
Inductive sql_cond :=
| ping_status_eq (p : string)                 (* ping_status = ? *)
| DATE_timestamp_between (lo hi : string)     (* DATE(timestamp) BETWEEN ? AND ? *)
| cpu_ge (n : Z).                             (* cpu >= ? *)

Definition cond_text (c : sql_cond) : string :=
  match c with
  | ping_status_eq _ => "ping_status = ?"
  | DATE_timestamp_between _ _ => "DATE(timestamp) BETWEEN ? AND ?"
  | cpu_ge _ => "cpu >= ?"
  end.

Definition cond_column (c : sql_cond) : string :=
  match c with
  | ping_status_eq _ => "ping_status"
  | DATE_timestamp_between _ _ => "timestamp"
  | cpu_ge _ => "cpu"
  end.

Definition cond_bind (c : sql_cond) : result unit :=
  match c with
  | cpu_ge n => bind_int n
  | _ => Ok tt
  end.

Fixpoint bind_params (cs : list sql_cond) : result unit :=
  match cs with
  | [] => Ok tt
  | c :: cs => _ ← cond_bind c; bind_params cs
  end.

(** Is [cell > n], is [cell >= n] true in SQL?  With a NULL cell the
    comparison is NULL, which is not true: an OR of such comparisons is
    true when one of them is, and a WHERE keeps the rows for which its
    condition is true. *)
Definition sql_gt (cell : option float) (n : Z) : bool :=
  match cell with
  | Some x => float_gt_int x n
  | None => false
  end.
Definition sql_ge (cell : option float) (n : Z) : bool :=
  match cell with
  | Some x => float_ge_int x n
  | None => false
  end.

(** The violation test of [get_statistics]:
    [cpu > 80 OR memory > 85 OR disk > 90]. *)
Definition violates (r : LogRecord.t) : bool :=
  sql_gt (LogRecord.cpu r) 80
  || sql_gt (LogRecord.memory r) 85
  || sql_gt (LogRecord.disk r) 90.

(** The dict [get_statistics] returns.  A latest value is the cell of the
    latest row: a float, or [None] for NULL. *)
Record Statistics := {
  log_count : Z;
  alert_count : Z;
  threshold_violations : Z;
  latest_cpu : option float;
  latest_memory : option float;
  latest_disk : option float;
  latest_ping_status : string;
  latest_ping_ms : option float
}.

(** ** The accessors *)

Section Accessors.

(** SQLite's [DATE(text)]: the calendar date of a timestamp as
    [YYYY-MM-DD], NULL ([None]) when the text is no timestamp. *)
Variable sql_DATE : string -> option string.

(** Does the row pass one condition?  TEXT is compared byte-wise, a REAL
    with an INTEGER exactly; a NULL operand makes the condition NULL, and
    the row is left out. *)
Definition cond_holds (r : LogRecord.t) (c : sql_cond) : bool :=
  match c with
  | ping_status_eq p => String.eqb (LogRecord.ping_status r) p
  | DATE_timestamp_between lo hi =>
      match sql_DATE (LogRecord.timestamp r) with
      | Some d => String.leb lo d && String.leb d hi
      | None => false
      end
  | cpu_ge n => sql_ge (LogRecord.cpu r) n
  end.

(** [" AND ".join(conditions) if conditions else "1=1"] *)
Definition where_clause (conditions : list sql_cond) : string :=
  match conditions with
  | [] => "1=1"
  | _ => join " AND " (map cond_text conditions)
  end.

Definition where_holds (conditions : list sql_cond) (r : LogRecord.t) : bool :=
  match conditions with
  | [] => true
  | _ => forallb (cond_holds r) conditions
  end.

(** [SELECT * FROM system_log WHERE <conditions> ORDER BY id DESC] *)
Definition select_system_log (conditions : list sql_cond) (db : database)
  : result (DataFrame LogRecord.t) :=
  t ← from_table "system_log" (system_log db);
  _ ← sql_columns t (map cond_column conditions ++ ["id"]);
  _ ← bind_params conditions;
  mret {| columns := columns t;
          rows := order_by_id_desc (filter (fun r => where_holds conditions r) (rows t)) |}.

(** The conditions [get_system_logs] collects, in the order it appends
    them.  [ping_filter] is [None] or a str (the empty str is falsy),
    [date_filter] [None] or a pair of dates, [cpu_threshold] [None] or an
    int. *)
Definition conditions (ping_filter : option string)
    (date_filter : option (date * date)) (cpu_threshold : option Z)
  : list sql_cond :=
  let conditions := [] in
  let conditions :=
    match ping_filter with
    | Some p =>
        if negb (String.eqb p "") && negb (String.eqb p "All")
        then conditions ++ [ping_status_eq p] else conditions
    | None => conditions
    end in
  let conditions :=
    match date_filter with
    | Some (start_date, end_date) =>
        conditions ++ [DATE_timestamp_between (strftime_Ymd start_date)
                                              (strftime_Ymd end_date)]
    | None => conditions
    end in
  match cpu_threshold with
  | Some n => conditions ++ [cpu_ge n]
  | None => conditions
  end.

(** The body of [get_system_logs]. *)
Definition get_system_logs (s : store) (ping_filter : option string)
    (date_filter : option (date * date)) (cpu_threshold : option Z)
  : result (DataFrame LogRecord.t) :=
  conn ← connect s;
  let conditions := conditions ping_filter date_filter cpu_threshold in
  let query := "SELECT * FROM system_log WHERE " +:+ where_clause conditions
               +:+ " ORDER BY id DESC" in
  read_sql_query query (db ← read_schema conn; select_system_log conditions db).

(** The body of [get_alerts_log]:
    [SELECT * FROM alerts_log ORDER BY id DESC LIMIT 50]. *)
Definition get_alerts_log (s : store) : result (DataFrame AlertRecord.t) :=
  conn ← connect s;
  let query := "SELECT * FROM alerts_log ORDER BY id DESC LIMIT 50" in
  read_sql_query query
    (db ← read_schema conn;
     t ← from_table "alerts_log" (alerts_log db);
     _ ← sql_columns t ["id"];
     mret {| columns := columns t;
             rows := take 50 (alerts_order_by_id_desc (rows t)) |}).

(** The body of [get_statistics]: four statements on one cursor.  Without
    a latest row the dict holds the int 0, which formats and compares as
    the float 0.0 does. *)
Definition get_statistics (s : store) : result Statistics :=
  conn ← connect s;
  db ← read_schema conn;
  logs ← from_table "system_log" (system_log db);
  let log_count := Z.of_nat (length (rows logs)) in
  alerts ← from_table "alerts_log" (alerts_log db);
  let alert_count := Z.of_nat (length (rows alerts)) in
  _ ← sql_columns logs ["cpu"; "memory"; "disk"; "ping_status"; "ping_ms"; "id"];
  let latest := head (order_by_id_desc (rows logs)) in
  let threshold_violations := Z.of_nat (length (filter (fun r => violates r) (rows logs))) in
  mret {|
    log_count := log_count;
    alert_count := alert_count;
    threshold_violations := threshold_violations;
    latest_cpu := match latest with Some r => LogRecord.cpu r | None => Some 0%float end;
    latest_memory :=
      match latest with Some r => LogRecord.memory r | None => Some 0%float end;
    latest_disk := match latest with Some r => LogRecord.disk r | None => Some 0%float end;
    latest_ping_status :=
      match latest with Some r => LogRecord.ping_status r | None => "N/A" end;
    latest_ping_ms :=
      match latest with Some r => LogRecord.ping_ms r | None => Some 0%float end
  |}.

End Accessors.

(** ** What the page hands to Streamlit *)

(** [pd.Timestamp]: nanoseconds since the epoch. *)
Definition Timestamp : Type := Z.

(** The value of an [st.metric]: a str or an int. *)
Inductive metric_value :=
| MStr (s : string)
| MInt (n : Z).

(** A row of [display_df]: the percentages and the ping time are text. *)
Record DisplayRow := {
  d_id : Z;
  d_timestamp : string;
  d_cpu : string;
  d_memory : string;
  d_disk : string;
  d_ping_status : string;
  d_ping_ms : string
}.

(** The frame of an [st.line_chart]: its index and its named columns, of
    floats or of [None]s. *)
Record ChartData := {
  chart_index : list Timestamp;
  chart_columns : list (string * list (option float))
}.

(** The frames given to [st.dataframe]. *)
Inductive Table :=
| display_table (df : DataFrame DisplayRow)
| avg_stats_table (Metric Average Max Min : list string)
| ping_summary_table (Status : list string) (Count : list Z) (Percentage : list string).

(** One call of a Streamlit element, in the order the page makes them.
    An expander holds the elements made inside its [with] block.  Layout
    ([st.columns], [with col:]) and styling arguments are left out. *)
Inductive element :=
| st_title (s : string)
| st_markdown (s : string)
| st_header (s : string)
| st_subheader (s : string)
| st_caption (s : string)
| st_metric (label : string) (value : metric_value) (delta : option string)
| st_info (s : string)
| st_success (s : string)
| st_warning (s : string)
| st_error (s : string)
| st_dataframe (t : Table)
| st_line_chart (d : ChartData)
| st_expander (label : string) (body : list element).

(** Code that makes elements and may raise: what it has put on the page
    so far, and how it ended. *)
Definition render (A : Type) : Type := list element * result A.

Definition render_ret {A} (a : A) : render A := ([], Ok a).

Definition render_bind {A B} (m : render A) (k : A -> render B) : render B :=
  match m with
  | (out, Ok a) => let (out', r) := k a in (out ++ out', r)
  | (out, Raise e) => (out, Raise e)
  end.

Notation "x <- m ;; k" := (render_bind m (fun x => k))
  (at level 100, m at next level, right associativity).
Notation "m ;; k" := (render_bind m (fun _ => k))
  (at level 100, right associativity).

(** An element. *)
Definition st (e : element) : render unit := ([e], Ok tt).

(** A call that makes no element. *)
Definition call {A} (r : result A) : render A := ([], r).

(** [with st.expander(label): body] *)
Definition with_expander {A} (label : string) (body : render A) : render A :=
  let (out, r) := body in ([st_expander label out], r).

(** [for x in xs: body(x)] *)
Fixpoint for_each {A} (xs : list A) (body : A -> render unit) : render unit :=
  match xs with
  | [] => render_ret tt
  | x :: xs => body x;; for_each xs body
  end.

(** [try: body except Exception as e: handler(e)] *)
Definition try_except (body : render unit) (handler : exn -> render unit)
  : render unit :=
  match body with
  | (out, Ok tt) => (out, Ok tt)
  | (out, Raise e) => let (out', r) := handler e in (out ++ out', r)
  end.

(** [df[c]] and [df[[c1, ..., cn]]]: [KeyError] when the frame lacks one
    of the columns. *)
Definition getitem {R} (df : DataFrame R) (cs : list string) : result unit :=
  match List.filter (fun c => negb (has_column df c)) cs with
  | [] => Ok tt
  | missing => Raise (KeyError missing)
  end.

(** The widgets of the filter bar, as the user has set them. *)
Record Widgets := {
  w_ping_filter : string;      (* selectbox: "All", "UP" or "DOWN" *)
  w_cpu_threshold : Z;         (* slider 0..100, step 5 *)
  w_use_date_filter : bool;    (* checkbox *)
  w_start_date : date;         (* date_input, read when the box is ticked *)
  w_end_date : date;
  w_num_records : Z            (* slider 5..100 *)
}.

(** The three cached functions as [dashboard_page] calls them: whatever
    each call returns or raises, from the cache or from its body. *)
Record Accessors := {
  call_get_statistics : result Statistics;
  call_get_alerts_log : result (DataFrame AlertRecord.t);
  call_get_system_logs :
    option string -> option (date * date) -> option Z -> result (DataFrame LogRecord.t)
}.

(** The accessors on a cold cache: every call runs its body on the store. *)
Definition store_accessors (sql_DATE : string -> option string) (s : store)
  : Accessors := {|
  call_get_statistics := get_statistics s;
  call_get_alerts_log := get_alerts_log s;
  call_get_system_logs := get_system_logs sql_DATE s
|}.

(** [series.unique()]: the distinct values, in order of first appearance. *)
Definition unique (l : list string) : list string :=
  reverse (remove_dups (reverse l)).

Definition count_of (v : string) (l : list string) : Z :=
  Z.of_nat (length (filter (fun x => x = v) l)).

Definition more_frequent : relation (string * Z) :=
  fun a b => snd b <= snd a.
#[global] Instance more_frequent_dec a b : Decision (more_frequent a b) :=
  Z_le_dec (snd b) (snd a).

(** [series.value_counts()]: each distinct value with the number of rows
    that hold it, the most frequent first.  (pandas does not fix the order
    among values that are equally frequent; the model keeps one.) *)
Definition value_counts (l : list string) : list (string * Z) :=
  merge_sort more_frequent (map (fun v => (v, count_of v l)) (unique l)).

(** [f"{(count/len(chart_df)*100):.1f}%"] *)
Definition percentage (count : Z) (len : Z) : string :=
  format_f 1 (float_of_int count / float_of_int len * float_of_int 100)%float +:+ "%".

(** *** REAL columns of a frame *)

(** How pandas holds a REAL column of the frame [read_sql_query] made: as
    float64, with NaN where the cell was NULL, when some cell of the column
    holds a number; as the objects [None] when every cell is NULL.
    [head], [sort_values] and a boolean mask keep the columns as they are,
    so the choice is that of the frame the rows are taken from. *)
Definition has_number (f : LogRecord.t -> option float)
    (df : DataFrame LogRecord.t) : bool :=
  existsb (fun r => match f r with Some _ => true | None => false end) (rows df).

(** A number as it is, NaN for NULL. *)
Definition number_or_nan (x : option float) : float := default PrimFloat.nan x.

(** The value pandas gives for the cell of a row of the frame. *)
Definition cell (f : LogRecord.t -> option float) (df : DataFrame LogRecord.t)
    (r : LogRecord.t) : option float :=
  if has_number f df then Some (number_or_nan (f r)) else None.

(** [df[c]] for a REAL column: its values, row by row. *)
Definition real_column (f : LogRecord.t -> option float)
    (df : DataFrame LogRecord.t) : list (option float) :=
  map (cell f df) (rows df).

(** [series > n], value by value: false on NaN and on [None]. *)
Definition series_gt_int (x : option float) (n : Z) : bool :=
  match x with
  | Some x => float_gt_int x n
  | None => false
  end.

(** *** Python on a float or [None] *)

(** [format(x, ".<digits>f")], [x > n] and [x - n]: each raises
    [TypeError] on [None]. *)
Definition py_format_f (digits : nat) (x : option float) : result string :=
  match x with
  | Some x => Ok (format_f digits x)
  | None => Raise (TypeError format_of_None)
  end.

Definition py_gt_int (x : option float) (n : Z) : result bool :=
  match x with
  | Some x => Ok (float_gt_int x n)
  | None => Raise (TypeError None_gt_int)
  end.

Definition py_minus_int (x : option float) (n : Z) : result float :=
  match x with
  | Some x => Ok (x - float_of_int n)%float
  | None => Raise (TypeError None_minus_int)
  end.

(** [f"{x:.1f}%"] *)
Definition percent_text (x : option float) : result string :=
  s ← py_format_f 1 x; mret (s +:+ "%").

(** [f"{x:.1f}ms" if x > 0 else "N/A"] *)
Definition ping_text (x : option float) : result string :=
  positive ← py_gt_int x 0;
  if positive : bool then s ← py_format_f 1 x; mret (s +:+ "ms") else mret "N/A".

(** [f"{x - n:.1f}%" if x > n else None] *)
Definition delta_text (x : option float) (n : Z) : result (option string) :=
  above ← py_gt_int x n;
  if above : bool
  then d ← py_minus_int x n; s ← py_format_f 1 (Some d); mret (Some (s +:+ "%"))
  else mret None.

(** [series.apply(f)]: [f] on each value in turn, up to the first one on
    which it raises. *)
Fixpoint series_apply {A B} (f : A -> result B) (values : list A)
  : result (list B) :=
  match values with
  | [] => Ok []
  | x :: values => y ← f x; ys ← series_apply f values; mret (y :: ys)
  end.

(** The rows of [display_df] once its four columns are text. *)
Fixpoint display_rows (shown : list LogRecord.t)
    (cpu memory disk ping_ms : list string) : list DisplayRow :=
  match shown, cpu, memory, disk, ping_ms with
  | r :: shown, c :: cpu, m :: memory, d :: disk, p :: ping_ms =>
      {| d_id := LogRecord.id r;
         d_timestamp := LogRecord.timestamp r;
         d_cpu := c;
         d_memory := m;
         d_disk := d;
         d_ping_status := LogRecord.ping_status r;
         d_ping_ms := p |}
      :: display_rows shown cpu memory disk ping_ms
  | _, _, _, _, _ => []
  end.

(** [display_df]: the head of the frame, then the four columns rewritten
    one after the other. *)
Definition display_df (num_records : Z) (df : DataFrame LogRecord.t)
  : result (DataFrame DisplayRow) :=
  let shown := head_n num_records (rows df) in
  _ ← getitem df ["cpu"];
  cpu ← series_apply percent_text (map (cell LogRecord.cpu df) shown);
  _ ← getitem df ["memory"];
  memory ← series_apply percent_text (map (cell LogRecord.memory df) shown);
  _ ← getitem df ["disk"];
  disk ← series_apply percent_text (map (cell LogRecord.disk df) shown);
  _ ← getitem df ["ping_ms"];
  ping_ms ← series_apply ping_text (map (cell LogRecord.ping_ms df) shown);
  mret {| columns := columns df; rows := display_rows shown cpu memory disk ping_ms |}.

(** The glyph of an alert: the dict of [dashboard_page] and its default. *)
Definition alert_colors : gmap string string :=
  {[ "CPU" := "🔴"; "MEMORY" := "🟠"; "DISK" := "🟡"; "PING" := "🔵" ]}.

Definition alert_color (alert_type : string) : string :=
  default "⚪" (alert_colors !! alert_type).

(** ** [dashboard_page] *)

Section Dashboard.

(** [str(e)]: the message of an exception, the raising library's text. *)
Variable str : exn -> string.

(** [pd.to_datetime(column)]: the parsed column, or the exception pandas
    raises when it cannot read it. *)
Variable to_datetime : list string -> result (list Timestamp).

(** [column.mean()], [column.max()] and [column.min()] of pandas, on a
    column of floats or of [None]s: they skip what is missing and give NaN
    when nothing is left. *)
Variables series_mean series_max series_min : list (option float) -> float.

(** [avg_stats]: mean, maximum and minimum of the three percentages. *)
Definition avg_stats (chart_df : DataFrame LogRecord.t) : result Table :=
  let cpu := real_column LogRecord.cpu chart_df in
  let memory := real_column LogRecord.memory chart_df in
  let disk := real_column LogRecord.disk chart_df in
  _ ← getitem chart_df ["cpu"];
  _ ← getitem chart_df ["memory"];
  _ ← getitem chart_df ["disk"];
  mret (avg_stats_table
          ["CPU"; "Memory"; "Disk"]
          [format_f 2 (series_mean cpu); format_f 2 (series_mean memory);
           format_f 2 (series_mean disk)]
          [format_f 2 (series_max cpu); format_f 2 (series_max memory);
           format_f 2 (series_max disk)]
          [format_f 2 (series_min cpu); format_f 2 (series_min memory);
           format_f 2 (series_min disk)]).

(** [ping_summary]: the value counts of [ping_status], each with its share
    of [len(chart_df)]. *)
Definition ping_summary (chart_df : DataFrame LogRecord.t) : result Table :=
  _ ← getitem chart_df ["ping_status"];
  let ping_counts := value_counts (map LogRecord.ping_status (rows chart_df)) in
  mret (ping_summary_table
          (map fst ping_counts)
          (map snd ping_counts)
          (map (fun count => percentage count (Z.of_nat (length (rows chart_df))))
               (map snd ping_counts))).

(** A usage metric of "Current System Status": the value, and how far it
    is above its threshold when it is. *)
Definition usage_metric (label : string) (x : option float) (threshold : Z)
  : render unit :=
  value <- call (percent_text x);;
  delta <- call (delta_text x threshold);;
  st (st_metric label (MStr value) delta).

(** The six metrics of "Current System Status". *)
Definition status_metrics (stats : Statistics) : render unit :=
  usage_metric "CPU Usage" (latest_cpu stats) 80;;
  usage_metric "Memory Usage" (latest_memory stats) 85;;
  usage_metric "Disk Usage" (latest_disk stats) 90;;
  (let ping_status_icon :=
     if String.eqb (latest_ping_status stats) "UP" then "🟢" else "🔴" in
   st (st_metric "Ping Status"
         (MStr (ping_status_icon +:+ " " +:+ latest_ping_status stats)) None));;
  (ping_display <- call (ping_text (latest_ping_ms stats));;
   st (st_metric "Ping Time" (MStr ping_display) None));;
  st (st_metric "Alert Count" (MInt (threshold_violations stats))
        (Some (if 0 <? threshold_violations stats
               then str_int (threshold_violations stats) else "0"))).

(** "Recent Alerts": the total and the latest twenty, or the all-clear. *)
Definition alerts_section (stats : Statistics) (alerts_df : DataFrame AlertRecord.t)
  : render unit :=
  if negb (df_empty alerts_df) then
    st (st_metric "Total Alerts" (MInt (alert_count stats)) None);;
    with_expander
      ("View Latest " +:+ str_int (Z.min 20 (Z.of_nat (length (rows alerts_df))))
       +:+ " Alerts")
      (for_each (head_n 20 (rows alerts_df)) (fun alert =>
         _ <- call (getitem alerts_df ["alert_type"]);;
         let alert_color := alert_color (AlertRecord.alert_type alert) in
         _ <- call (getitem alerts_df ["timestamp"]);;
         _ <- call (getitem alerts_df ["message"]);;
         st (st_warning (alert_color +:+ " **" +:+ AlertRecord.timestamp alert
                         +:+ "** - " +:+ AlertRecord.message alert))))
  else
    st (st_success "✅ No alerts triggered! All systems operating normally.").

(** "System Resource Usage Over Time": the three percentages against the
    parsed timestamps. *)
Definition resource_chart (chart_df : DataFrame LogRecord.t) : render unit :=
  _ <- call (getitem chart_df ["timestamp"; "cpu"; "memory"; "disk"]);;
  timestamps <- call (to_datetime (map LogRecord.timestamp (rows chart_df)));;
  let chart_data := {|
    chart_index := timestamps;
    chart_columns := [("CPU %", real_column LogRecord.cpu chart_df);
                      ("Memory %", real_column LogRecord.memory chart_df);
                      ("Disk %", real_column LogRecord.disk chart_df)]
  |} in
  st (st_subheader "System Resource Usage Over Time");;
  st (st_line_chart chart_data);;
  st (st_caption "🔴 CPU Threshold: 80%");;
  st (st_caption "🟠 Memory Threshold: 85%");;
  st (st_caption "🟡 Disk Threshold: 90%");;
  st (st_markdown "---").

(** "Network Ping Response Time": the rows with a positive ping time, or
    the note that there is none. *)
Definition latency_chart (chart_df : DataFrame LogRecord.t) : render unit :=
  st (st_subheader "Network Ping Response Time");;
  _ <- call (getitem chart_df ["ping_ms"]);;
  let ping_df := {|
    columns := columns chart_df;
    rows := filter (fun r => series_gt_int (cell LogRecord.ping_ms chart_df r) 0)
                   (rows chart_df)
  |} in
  if negb (df_empty ping_df) then
    _ <- call (getitem ping_df ["timestamp"; "ping_ms"]);;
    timestamps <- call (to_datetime (map LogRecord.timestamp (rows ping_df)));;
    let ping_chart := {|
      chart_index := timestamps;
      chart_columns :=
        [("Ping (ms)", map (cell LogRecord.ping_ms chart_df) (rows ping_df))]
    |} in
    st (st_line_chart ping_chart)
  else
    st (st_info "No successful ping data available for current filters.").

(** The two summary tables. *)
Definition summary_tables (chart_df : DataFrame LogRecord.t) : render unit :=
  st (st_subheader "📊 Average Resource Usage");;
  avg <- call (avg_stats chart_df);;
  st (st_dataframe avg);;
  st (st_subheader "🌐 Ping Status Summary");;
  summary <- call (ping_summary chart_df);;
  st (st_dataframe summary).

(** "Performance Charts" and the summaries, over the frame sorted by
    [id]. *)
Definition charts_section (df : DataFrame LogRecord.t) : render unit :=
  _ <- call (getitem df ["id"]);;
  let chart_df := {| columns := columns df; rows := sort_values_id (rows df) |} in
  if negb (df_empty chart_df) then
    resource_chart chart_df;;
    latency_chart chart_df;;
    st (st_markdown "---");;
    summary_tables chart_df
  else
    st (st_info "No data available for charts with current filters.").

(** "System Logs": the table of the filtered frame and what follows it, or
    the warning and the early [return]. *)
Definition logs_section (stats : Statistics) (ui : Widgets)
    (df : DataFrame LogRecord.t) : render unit :=
  if negb (df_empty df) then
    st (st_info ("Showing "
                 +:+ str_int (Z.min (w_num_records ui) (Z.of_nat (length (rows df))))
                 +:+ " of " +:+ str_int (Z.of_nat (length (rows df)))
                 +:+ " filtered records (Total: " +:+ str_int (log_count stats) +:+ ")"));;
    display <- call (display_df (w_num_records ui) df);;
    st (st_dataframe (display_table display));;
    st (st_markdown "---");;
    st (st_header "📊 Performance Charts");;
    charts_section df
  else
    st (st_warning "No data available matching the current filters.").

(** The [try] block. *)
Definition load_and_show (acc : Accessors) (ui : Widgets)
    (date_filter : option (date * date)) : render unit :=
  stats <- call (call_get_statistics acc);;
  st (st_header "📈 Current System Status");;
  status_metrics stats;;
  st (st_markdown "---");;
  st (st_header "🚨 Recent Alerts");;
  alerts_df <- call (call_get_alerts_log acc);;
  alerts_section stats alerts_df;;
  st (st_markdown "---");;
  st (st_header "📋 System Logs");;
  df <- call (call_get_system_logs acc
                (if negb (String.eqb (w_ping_filter ui) "All")
                 then Some (w_ping_filter ui) else None)
                date_filter
                (if 0 <? w_cpu_threshold ui then Some (w_cpu_threshold ui) else None));;
  logs_section stats ui df.

(** The [except Exception as e] clause. *)
Definition show_error (e : exn) : render unit :=
  st (st_error ("Error loading data: " +:+ str e));;
  st (st_info "Make sure 'log.db' exists in the same directory. Run your logger script first.").

Definition dashboard_page_run (acc : Accessors) (ui : Widgets) : render unit :=
  st (st_title "📊 System Monitor Dashboard");;
  st (st_markdown "---");;
  st (st_subheader "🔍 Filters");;
  let date_filter :=
    if w_use_date_filter ui then Some (w_start_date ui, w_end_date ui) else None in
  st (st_markdown "---");;
  try_except (load_and_show acc ui date_filter) show_error.

(** [dashboard_page()]: the elements it puts on the page. *)
Definition dashboard_page (acc : Accessors) (ui : Widgets) : list element :=
  fst (dashboard_page_run acc ui).

End Dashboard.

(** ** The sidebar *)

(** The "Database" block of [sidebar_navigation]: the three totals, inside
    a [try] of its own with a bare [except]. *)
Definition sidebar_database (acc : Accessors) : list element :=
  fst (st (st_header "💾 Database");;
       try_except
         (stats <- call (call_get_statistics acc);;
          st (st_metric "Total Records" (MInt (log_count stats)) None);;
          st (st_metric "Total Alerts" (MInt (alert_count stats)) None);;
          st (st_metric "Violations" (MInt (threshold_violations stats)) None))
         (fun _ => st (st_warning "Database not connected"))).

(** ** Session state and the run of the script *)

(** [st.session_state]: the three keys the script keeps between runs,
    each there or not yet. *)
Record SessionState := {
  dark_mode : option bool;
  auto_refresh : option bool;
  refresh_interval : option Z
}.

(** What ends a run before the last line: [st.rerun()], which Streamlit
    answers by running the script again from the top, or the
    [AttributeError] of a key that [st.session_state] lacks. *)
Inductive stop :=
| RerunException
| AttributeError (name : string).

Inductive outcome (A : Type) :=
| Returned (a : A)
| Stopped (why : stop).
Arguments Returned {A} a.
Arguments Stopped {A} why.

(** What a run does that can be seen from outside: the elements it puts
    in the sidebar and in the main area, [st.cache_data.clear()] and
    [time.sleep]. *)
Inductive effect :=
| in_sidebar (e : element)
| in_main (e : element)
| cache_data_clear
| time_sleep (seconds : Z).

(** Code of the script: from the session state to what it did, the session
    state it leaves, and how it ended. *)
Definition script (A : Type) : Type :=
  SessionState -> list effect * SessionState * outcome A.

Definition script_ret {A} (a : A) : script A := fun ss => ([], ss, Returned a).

Definition script_bind {A B} (m : script A) (k : A -> script B) : script B :=
  fun ss =>
    match m ss with
    | (done, ss', Returned a) =>
        let '(done', ss'', r) := k a ss' in (done ++ done', ss'', r)
    | (done, ss', Stopped why) => (done, ss', Stopped why)
    end.

Notation "x <~ m ;; k" := (script_bind m (fun x => k))
  (at level 100, m at next level, right associativity).

Definition show (e : element) : script unit :=
  fun ss => ([in_main e], ss, Returned tt).

Definition show_all (l : list element) : script unit :=
  fun ss => (map in_main l, ss, Returned tt).

(** [with st.sidebar:] *)
Definition with_sidebar {A} (body : script A) : script A :=
  fun ss =>
    let '(done, ss', r) := body ss in
    (map (fun eff => match eff with in_main e => in_sidebar e | _ => eff end) done,
     ss', r).

(** [st.rerun()] *)
Definition st_rerun {A} : script A :=
  fun ss => ([], ss, Stopped RerunException).

(** [st.cache_data.clear()] *)
Definition st_cache_data_clear : script unit :=
  fun ss => ([cache_data_clear], ss, Returned tt).

Definition sleep (seconds : Z) : script unit :=
  fun ss => ([time_sleep seconds], ss, Returned tt).

(** Reading and writing the attributes of [st.session_state]. *)
Definition getattr {A} (name : string) (field : SessionState -> option A)
  : script A :=
  fun ss =>
    match field ss with
    | Some v => ([], ss, Returned v)
    | None => ([], ss, Stopped (AttributeError name))
    end.

Definition set_dark_mode (b : bool) : script unit :=
  fun ss => ([], {| dark_mode := Some b; auto_refresh := auto_refresh ss;
                    refresh_interval := refresh_interval ss |}, Returned tt).
Definition set_auto_refresh (b : bool) : script unit :=
  fun ss => ([], {| dark_mode := dark_mode ss; auto_refresh := Some b;
                    refresh_interval := refresh_interval ss |}, Returned tt).
Definition set_refresh_interval (n : Z) : script unit :=
  fun ss => ([], {| dark_mode := dark_mode ss; auto_refresh := auto_refresh ss;
                    refresh_interval := Some n |}, Returned tt).

(** The top of the script: each key gets its default unless the session
    has it already. *)
Definition init_session_state : script unit :=
  fun ss =>
    let ss := match dark_mode ss with
              | None => {| dark_mode := Some false; auto_refresh := auto_refresh ss;
                           refresh_interval := refresh_interval ss |}
              | Some _ => ss
              end in
    let ss := match auto_refresh ss with
              | None => {| dark_mode := dark_mode ss; auto_refresh := Some false;
                           refresh_interval := refresh_interval ss |}
              | Some _ => ss
              end in
    let ss := match refresh_interval ss with
              | None => {| dark_mode := dark_mode ss; auto_refresh := auto_refresh ss;
                           refresh_interval := Some 30 |}
              | Some _ => ss
              end in
    ([], ss, Returned tt).

Definition dquote : string := String (ascii_of_nat 34) "".

(** The style sheet of the dark theme. *)
Definition dark_css : string :=
  "
        <style>
        /* Main app background */
        .stApp {
            background-color: #0E1117;
            color: #FFFFFF;
        }
        
        /* Remove white header bar */
        header {
            background-color: #0E1117 !important;
        }
        
        /* Top toolbar */
        .stAppToolbar {
            background-color: #0E1117 !important;
        }
        
        /* Sidebar */
        .stSidebar {
            background-color: #262730;
        }
        
        /* Text colors */
        .stMarkdown, .stText, p, span, label {
            color: #FFFFFF !important;
        }
        h1, h2, h3, h4, h5, h6 {
            color: #FFFFFF !important;
        }
        
        /* Metrics */
        .stMetric label {
            color: #FFFFFF !important;
        }
        .stMetric .metric-value {
            color: #FFFFFF !important;
        }
                
        /* All emotion cache text elements */
        [class*=" +:+ dquote +:+ "st-emotion-cache" +:+ dquote +:+ "] {
            color: #FFFFFF !important;
        }
        
        /* Buttons */
        .stButton button {
            background-color: #262730;
            color: #FFFFFF;
        }
        </style>
    ".

(** The style sheet of the light theme. *)
Definition light_css : string :=
  "
        <style>
        /* Main app background */
        .stApp {
            background-color: #FFFFFF;
            color: #262730;
        }
        
        /* Header */
        header {
            background-color: #FFFFFF !important;
        }
        
        /* Top toolbar */
        .stAppToolbar {
            background-color: #FFFFFF !important;
        }
        
        /* Sidebar */
        .stSidebar {
            background-color: #F0F2F6;
        }
        
        /* Text colors */
        .stMarkdown, .stText, p, span, label {
            color: #262730 !important;
        }
        h1, h2, h3, h4, h5, h6 {
            color: #262730 !important;
        }
        
        /* Metrics */
        .stMetric label {
            color: #262730 !important;
        }
        .stMetric .metric-value {
            color: #262730 !important;
        }
        </style>
    ".

(** The text under "Threshold Settings". *)
Definition threshold_text : string :=
  "
    **Current Alert Thresholds:**
    - 🔴 CPU: 80%
    - 🟠 Memory: 85%
    - 🟡 Disk: 90%
    
    These thresholds determine when alerts are triggered in the monitoring system.
    ".

(** The text of the About page. *)
Definition about_text : string :=
  "
    ## 📊 System Monitor Dashboard
    
    **Version:** 2.0.0  
    **Last Updated:** November 2024
    
    ### 🎯 Purpose
    
    This dashboard provides real-time monitoring and visualization of system performance metrics including:
    - CPU Usage
    - Memory Usage
    - Disk Usage
    - Network Ping Status
    - System Alerts
    
    ### ✨ Features
    
    - **Real-time Monitoring**: Track system metrics as they're collected
    - **Alert Management**: View and track system alerts when thresholds are exceeded
    - **Interactive Filtering**: Filter data by ping status, CPU threshold, and date range
    - **Visual Analytics**: Charts and graphs for trend analysis
    - **Dark Mode**: Toggle between light and dark themes
    - **Auto-Refresh**: Automatic data updates at configurable intervals
    
    ### 🛠️ Technology Stack
    
    - **Streamlit**: Web application framework
    - **SQLite**: Database for storing logs
    - **Pandas**: Data manipulation and analysis
    - **Python**: Core programming language
    
    ### 📊 Data Collection
    
    The dashboard reads from a SQLite database (`log.db`) containing two main tables:
    
    1. **system_log**: System metrics (CPU, Memory, Disk, Ping)
    2. **alerts_log**: Alert records when thresholds are exceeded
    
    ### 🚀 Usage
    
    1. **Dashboard**: View real-time metrics and historical data
    2. **Settings**: Configure appearance and refresh settings
    3. **About**: Learn more about the application
    
    ### 📝 Notes
    
    - Data is cached for 10 seconds to optimize performance
    - Use the refresh button in the sidebar to manually update data
    - Enable auto-refresh in Settings for continuous monitoring
    ".

(** The logo at the top of the sidebar. *)
Definition sidebar_logo : string :=
  "
            <div style='text-align: center; padding: 20px 0;'>
                <h1 style='margin: 0; font-size: 24px;'>📊 SysMonitor</h1>
            </div>
        ".

(** "Apply custom theme styling" *)
Definition apply_theme : script unit :=
  dark <~ getattr "dark_mode" dark_mode;;
  if dark then show (st_markdown dark_css) else show (st_markdown light_css).

(** What the user has set on the widgets when a run starts: each widget
    call returns its value. *)
Record Inputs := {
  i_page : string;            (* radio: "Dashboard", "Settings" or "About" *)
  i_refresh_data : bool;      (* button "Refresh Data" *)
  i_filters : Widgets;        (* the filter bar of the dashboard *)
  i_dark_mode : bool;         (* toggle "Dark Mode" *)
  i_auto_refresh : bool;      (* toggle "Enable Auto-Refresh" *)
  i_refresh_interval : Z;     (* slider 10..300, step 10 *)
  i_clear_cache : bool        (* button "Clear Cache" *)
}.

(** [settings_page()] *)
Definition settings_page (inp : Inputs) : script unit :=
  _ <~ show (st_title "⚙️ Settings");;
  _ <~ show (st_markdown "---");;
  _ <~ show (st_subheader "🎨 Appearance Settings");;
  _ <~ getattr "dark_mode" dark_mode;;
  let dark := i_dark_mode inp in
  current <~ getattr "dark_mode" dark_mode;;
  _ <~ (if negb (Bool.eqb dark current)
       then _ <~ set_dark_mode dark;; st_rerun
       else script_ret tt);;
  _ <~ show (st_markdown "---");;
  _ <~ show (st_subheader "🔄 Auto-Refresh Settings");;
  _ <~ getattr "auto_refresh" auto_refresh;;
  let auto := i_auto_refresh inp in
  _ <~ set_auto_refresh auto;;
  _ <~ (if auto
       then _ <~ getattr "refresh_interval" refresh_interval;;
            let interval := i_refresh_interval inp in
            _ <~ set_refresh_interval interval;;
            show (st_info ("Dashboard will refresh every " +:+ str_int interval
                           +:+ " seconds"))
       else script_ret tt);;
  _ <~ show (st_markdown "---");;
  _ <~ show (st_subheader "🗄️ Database Settings");;
  _ <~ show (st_caption "The database file used for storing system logs and alerts");;
  _ <~ show (st_markdown "---");;
  _ <~ show (st_subheader "📊 Threshold Settings");;
  _ <~ show (st_markdown threshold_text);;
  _ <~ show (st_markdown "---");;
  _ <~ show (st_subheader "💾 Data Management");;
  _ <~ (if i_clear_cache inp
       then _ <~ st_cache_data_clear;; show (st_success "Cache cleared successfully!")
       else script_ret tt);;
  show (st_caption "Clear cached data to force reload from database").

(** [about_page()] *)
Definition about_page : script unit :=
  _ <~ show (st_title "ℹ️ About");;
  _ <~ show (st_markdown "---");;
  show (st_markdown about_text).

(** [sidebar_navigation()]: the sidebar, and the page the radio holds. *)
Definition sidebar_navigation (acc : Accessors) (inp : Inputs) : script string :=
  with_sidebar
    (_ <~ show (st_markdown sidebar_logo);;
     _ <~ show (st_markdown "---");;
     _ <~ show (st_header "📋 Navigation");;
     let page := i_page inp in
     _ <~ show (st_markdown "---");;
     _ <~ show (st_header "⚡ Quick Actions");;
     _ <~ (if i_refresh_data inp
          then _ <~ st_cache_data_clear;; st_rerun
          else script_ret tt);;
     auto <~ getattr "auto_refresh" auto_refresh;;
     _ <~ (if auto
          then interval <~ getattr "refresh_interval" refresh_interval;;
               show (st_success ("✅ Auto-refresh: " +:+ str_int interval +:+ "s"))
          else show (st_info "⏸️ Auto-refresh: Disabled"));;
     _ <~ show (st_markdown "---");;
     _ <~ show_all (sidebar_database acc);;
     _ <~ show (st_markdown "---");;
     _ <~ show (st_caption "System Monitor v2.0");;
     script_ret page).

Section Script.

Variable str : exn -> string.
Variable to_datetime : list string -> result (list Timestamp).
Variables series_mean series_max series_min : list (option float) -> float.

(** [main()].  The cached functions are given twice: as the sidebar finds
    them, and as the page finds them later in the run. *)
Definition main (sidebar_acc page_acc : Accessors) (inp : Inputs) : script unit :=
  page <~ sidebar_navigation sidebar_acc inp;;
  _ <~ (if String.eqb page "Dashboard"
       then show_all (dashboard_page str to_datetime series_mean series_max
                        series_min page_acc (i_filters inp))
       else if String.eqb page "Settings" then settings_page inp
       else if String.eqb page "About" then about_page
       else script_ret tt);;
  auto <~ getattr "auto_refresh" auto_refresh;;
  if auto && String.eqb page "Dashboard"
  then interval <~ getattr "refresh_interval" refresh_interval;;
       _ <~ sleep interval;;
       _ <~ st_cache_data_clear;;
       st_rerun
  else script_ret tt.

(** One run of [app.py], from the session state Streamlit kept. *)
Definition app (sidebar_acc page_acc : Accessors) (inp : Inputs) : script unit :=
  _ <~ init_session_state;;
  _ <~ apply_theme;;
  main sidebar_acc page_acc inp.

End Script.

(** ** The query cache *)

Section QueryCache.

(** Keys, cached values, and the world a computation runs in (so that
    running [compute_fn] can be told from not running it). *)
Context {K : Type} `{Countable K} {V W : Type}.

(** A cached value and the time, in seconds, at which it was computed. *)
Record entry := {
  value : V;
  computed_at : Q
}.

(** Was the entry computed within the last [ttl_seconds]? *)
Definition within_ttl (now ttl_seconds : Q) (e : entry) : bool :=
  Qle_bool (now - computed_at e) ttl_seconds.

(** Modelled from the spec: the query cache of section 4.3 (Streamlit's
    [st.cache_data], which is not part of the repository's files).
    "Returns a previously computed value for key if it was computed within
    the last ttl_seconds; otherwise invokes compute_fn, stores the result
    with the current time, and returns it." *)
Definition get_or_compute (now : Q) (key : K) (ttl_seconds : Q)
    (compute_fn : W -> V * W) (cache : gmap K entry) (w : W)
  : V * gmap K entry * W :=
  match cache !! key with
  | Some e =>
      if within_ttl now ttl_seconds e then (value e, cache, w)
      else
        let (v, w') := compute_fn w in
        (v, <[key := {| value := v; computed_at := now |}]> cache, w')
  | None =>
      let (v, w') := compute_fn w in
      (v, <[key := {| value := v; computed_at := now |}]> cache, w')
  end.

(** Modelled from the spec: "an explicit invalidate_all() that drops every
    cached entry regardless of age" ([st.cache_data.clear()]). *)
Definition invalidate_all (cache : gmap K entry) : gmap K entry := ∅.

End QueryCache.

Arguments entry V : clear implicits.

(** [@st.cache_data(ttl=10)], on each of the three accessors. *)
Definition ttl : Q := 10.

(** The "Clear Cache" button of [settings_page]. *)
Definition clear_cache_button {K : Type} `{Countable K} {V : Type}
    (pressed : bool) (cache : gmap K (entry V)) : gmap K (entry V) * list element :=
  if pressed then (invalidate_all cache, [st_success "Cache cleared successfully!"])
  else (cache, []).

(** ** Example stores *)

(** The columns of the expected schema. *)
Definition system_log_columns : list string :=
  ["id"; "timestamp"; "cpu"; "memory"; "disk"; "ping_status"; "ping_ms"].
Definition alerts_log_columns : list string :=
  ["id"; "timestamp"; "alert_type"; "message"].

(** [DATE] on the timestamps the collector writes,
    [YYYY-MM-DD HH:MM:SS]: the first ten bytes. *)
Definition DATE_of_iso (timestamp : string) : option string :=
  if (10 <=? String.length timestamp)%nat then Some (substring 0 10 timestamp)
  else None.

Definition log_row (id : Z) (timestamp : string) (cpu : float)
    (ping_status : string) (ping_ms : float) : LogRecord.t :=
  LogRecord.mk id timestamp (Some cpu) (Some 50%float) (Some 50%float) ping_status
    (Some ping_ms).

(** Three samples with cpu 70, 85 and 90, memory and disk at 50. *)
Definition logs_70_85_90 : DataFrame LogRecord.t := {|
  columns := system_log_columns;
  rows := [log_row 1 "2024-11-01 10:00:00" 70 "UP" 12.5;
           log_row 2 "2024-11-02 10:00:00" 85 "UP" 20;
           log_row 3 "2024-11-03 10:00:00" 90 "DOWN" 0]
|}.

(** Three samples with cpu 40, 60 and 80. *)
Definition logs_40_60_80 : DataFrame LogRecord.t := {|
  columns := system_log_columns;
  rows := [log_row 1 "2024-11-01 10:00:00" 40 "UP" 12.5;
           log_row 2 "2024-11-02 10:00:00" 60 "DOWN" 0;
           log_row 3 "2024-11-03 10:00:00" 80 "UP" 20]
|}.

Definition no_logs : DataFrame LogRecord.t :=
  {| columns := system_log_columns; rows := [] |}.

Definition no_alerts : DataFrame AlertRecord.t :=
  {| columns := alerts_log_columns; rows := [] |}.

Definition one_alert : DataFrame AlertRecord.t := {|
  columns := alerts_log_columns;
  rows := [AlertRecord.mk 1 "2024-11-03 10:00:00" "CPU" "CPU usage 90.0% above 80%"]
|}.

Definition store_70_85_90 : store :=
  Opened {| system_log := Some logs_70_85_90; alerts_log := Some one_alert |}.
Definition store_40_60_80 : store :=
  Opened {| system_log := Some logs_40_60_80; alerts_log := Some no_alerts |}.
Definition store_no_logs_one_alert : store :=
  Opened {| system_log := Some no_logs; alerts_log := Some one_alert |}.

(** Is the [system_log] table of the store there and without rows? *)
Definition system_log_rows_empty (s : store) : bool :=
  match s with
  | Opened {| system_log := Some {| rows := [] |} |} => true
  | _ => false
  end.

(** A store whose tables lack a column each: [system_log] has no
    [memory], [alerts_log] no [message]. *)
Definition store_lacking_columns : store :=
  Opened {|
    system_log := Some {|
      columns := ["id"; "timestamp"; "cpu"; "disk"; "ping_status"; "ping_ms"];
      rows := rows logs_70_85_90 |};
    alerts_log := Some {|
      columns := ["id"; "timestamp"; "alert_type"];
      rows := rows one_alert |}
  |}.

Definition store_without_tables : store :=
  Opened {| system_log := None; alerts_log := None |}.

(** A store whose only reading has a timestamp that is not a date. *)
Definition store_bad_timestamp : store :=
  Opened {|
    system_log := Some {| columns := system_log_columns;
                          rows := [log_row 1 "yesterday" 70 "UP" 12.5] |};
    alerts_log := Some no_alerts
  |}.

(** Two readings, the latest one without a ping time: its cell is NULL. *)
Definition store_null_latest_ping : store :=
  Opened {|
    system_log := Some {|
      columns := system_log_columns;
      rows := [log_row 1 "2024-11-01 10:00:00" 70 "UP" 12.5;
               LogRecord.mk 2 "2024-11-02 10:00:00" (Some 85%float) (Some 50%float)
                 (Some 50%float) "DOWN" None] |};
    alerts_log := Some no_alerts
  |}.

(** Two readings, the older one without a ping time. *)
Definition store_null_older_ping : store :=
  Opened {|
    system_log := Some {|
      columns := system_log_columns;
      rows := [LogRecord.mk 1 "2024-11-01 10:00:00" (Some 70%float) (Some 50%float)
                 (Some 50%float) "DOWN" None;
               log_row 2 "2024-11-02 10:00:00" 85 "UP" 20] |};
    alerts_log := Some no_alerts
  |}.

(** The tables of the schema, declared in capitals. *)
Definition store_capitals : store :=
  Opened {|
    system_log := Some {|
      columns := ["ID"; "TIMESTAMP"; "CPU"; "MEMORY"; "DISK"; "PING_STATUS"; "PING_MS"];
      rows := rows logs_70_85_90 |};
    alerts_log := Some {|
      columns := ["ID"; "TIMESTAMP"; "ALERT_TYPE"; "MESSAGE"];
      rows := [] |}
  |}.

(** *** Example readings of the libraries' functions *)

(** A [str(e)]: the class of the exception and what it is about. *)
Fixpoint example_str (e : exn) : string :=
  match e with
  | OperationalError unable_to_open => "unable to open database file"
  | OperationalError (no_such_table name) => "no such table: " +:+ name
  | OperationalError (no_such_column name) => "no such column: " +:+ name
  | sqlite3_DatabaseError => "file is not a database"
  | OverflowError => "Python int too large to convert to SQLite INTEGER"
  | DatabaseError query cause =>
      "Execution failed on sql '" +:+ query +:+ "': " +:+ example_str cause
  | KeyError missing => "[" +:+ join ", " missing +:+ "] not in index"
  | TypeError format_of_None =>
      "unsupported format string passed to NoneType.__format__"
  | TypeError None_gt_int =>
      "'>' not supported between instances of 'NoneType' and 'int'"
  | TypeError None_minus_int =>
      "unsupported operand type(s) for -: 'NoneType' and 'int'"
  | ParseError text => "Unknown datetime string format"
  end.

(** A [to_datetime] for [YYYY-MM-DD HH:MM:SS]: the digits of the text read
    as one number (a stand-in for the nanoseconds, in the same order), an
    error on text of another length. *)
Definition digit_of (c : ascii) : option Z :=
  let n := Z.of_N (N_of_ascii c) in
  if (48 <=? n) && (n <=? 57) then Some (n - 48) else None.

Fixpoint digits_value (acc : Z) (s : string) : Z :=
  match s with
  | EmptyString => acc
  | String c s =>
      digits_value (match digit_of c with Some d => 10 * acc + d | None => acc end) s
  end.

Definition example_to_datetime (column : list string) : result (list Timestamp) :=
  if forallb (fun s => (String.length s =? 19)%nat) column
  then Ok (map (digits_value 0) column)
  else Raise (ParseError column).

(** Mean, maximum and minimum by a left-to-right pass over the values
    that are there: neither [None] nor NaN. *)
Definition present (column : list (option float)) : list float :=
  List.filter (fun x => PrimFloat.eqb x x) (omap id column).

Definition example_mean (column : list (option float)) : float :=
  match present column with
  | [] => PrimFloat.nan
  | values =>
      (fold_left PrimFloat.add values 0 / float_of_int (Z.of_nat (length values)))%float
  end.
Definition example_max (column : list (option float)) : float :=
  match present column with
  | [] => PrimFloat.nan
  | x :: rest => fold_left (fun m y => if PrimFloat.ltb m y then y else m) rest x
  end.
Definition example_min (column : list (option float)) : float :=
  match present column with
  | [] => PrimFloat.nan
  | x :: rest => fold_left (fun m y => if PrimFloat.ltb y m then y else m) rest x
  end.

(** The page on these readings. *)
Definition example_page (acc : Accessors) (ui : Widgets) : list element :=
  dashboard_page example_str example_to_datetime example_mean example_max
    example_min acc ui.

(** Filter bars: nothing set; a cpu threshold of 95. *)
Definition ui_default : Widgets := {|
  w_ping_filter := "All";
  w_cpu_threshold := 0;
  w_use_date_filter := false;
  w_start_date := {| year := 2024; month := 11; day := 1 |};
  w_end_date := {| year := 2024; month := 11; day := 8 |};
  w_num_records := 20
|}.
Definition ui_cpu_95 : Widgets := {|
  w_ping_filter := "All";
  w_cpu_threshold := 95;
  w_use_date_filter := false;
  w_start_date := {| year := 2024; month := 11; day := 1 |};
  w_end_date := {| year := 2024; month := 11; day := 8 |};
  w_num_records := 20
|}.

(** The filter bar set to the readings with ping status DOWN. *)
Definition ui_ping_down : Widgets := {|
  w_ping_filter := "DOWN";
  w_cpu_threshold := 0;
  w_use_date_filter := false;
  w_start_date := {| year := 2024; month := 11; day := 1 |};
  w_end_date := {| year := 2024; month := 11; day := 8 |};
  w_num_records := 20
|}.

(** *** Example sessions and widget settings *)

(** A session that has just started, and one with auto-refresh every
    minute. *)
Definition fresh_session : SessionState :=
  {| dark_mode := None; auto_refresh := None; refresh_interval := None |}.
Definition session_auto_60 : SessionState :=
  {| dark_mode := Some false; auto_refresh := Some true;
     refresh_interval := Some 60 |}.

(** The Dashboard page with nothing touched; the same with "Refresh Data"
    pressed; the About page; the Settings page with auto-refresh switched
    on at 60 seconds and "Clear Cache" pressed, in the light and in the
    dark theme. *)
Definition on_dashboard : Inputs := {|
  i_page := "Dashboard"; i_refresh_data := false; i_filters := ui_default;
  i_dark_mode := false; i_auto_refresh := false; i_refresh_interval := 30;
  i_clear_cache := false
|}.
Definition refresh_pressed : Inputs := {|
  i_page := "Dashboard"; i_refresh_data := true; i_filters := ui_default;
  i_dark_mode := false; i_auto_refresh := false; i_refresh_interval := 30;
  i_clear_cache := false
|}.
Definition on_about : Inputs := {|
  i_page := "About"; i_refresh_data := false; i_filters := ui_default;
  i_dark_mode := false; i_auto_refresh := false; i_refresh_interval := 30;
  i_clear_cache := false
|}.
Definition on_settings : Inputs := {|
  i_page := "Settings"; i_refresh_data := false; i_filters := ui_default;
  i_dark_mode := false; i_auto_refresh := true; i_refresh_interval := 60;
  i_clear_cache := true
|}.
Definition on_settings_dark : Inputs := {|
  i_page := "Settings"; i_refresh_data := false; i_filters := ui_default;
  i_dark_mode := true; i_auto_refresh := true; i_refresh_interval := 60;
  i_clear_cache := true
|}.

(** A run of the script on the example readings, the sidebar and the page
    reading the same store. *)
Definition example_app (s : store) (inp : Inputs) : script unit :=
  app example_str example_to_datetime example_mean example_max example_min
    (store_accessors DATE_of_iso s) (store_accessors DATE_of_iso s) inp.

(** ** The vocabulary of the properties *)

(** Strictly descending and strictly ascending [id]s. *)
Definition log_id_strictly_desc : relation LogRecord.t :=
  fun r1 r2 => LogRecord.id r2 < LogRecord.id r1.
Definition log_id_strictly_asc : relation LogRecord.t :=
  fun r1 r2 => LogRecord.id r1 < LogRecord.id r2.

(** What a FilterSpec asks of a row: each restriction that is present
    holds.  A ping restriction is present when [ping_filter] is a
    non-empty str other than ["All"]; the date range compares
    [DATE(timestamp)] with the two bounds, both included; the threshold is
    a minimum for [cpu]. *)
Definition passes_filters (sql_DATE : string -> option string)
    (ping_filter : option string) (date_filter : option (date * date))
    (cpu_threshold : option Z) (r : LogRecord.t) : Prop :=
  (forall p, ping_filter = Some p -> p <> "" -> p <> "All" ->
     LogRecord.ping_status r = p)
  /\ (forall start_date end_date, date_filter = Some (start_date, end_date) ->
        exists d, sql_DATE (LogRecord.timestamp r) = Some d
                  /\ String.leb (strftime_Ymd start_date) d = true
                  /\ String.leb d (strftime_Ymd end_date) = true)
  /\ (forall n, cpu_threshold = Some n ->
        exists cpu, LogRecord.cpu r = Some cpu /\ float_ge_int cpu n = true).

(** No restriction is present. *)
Definition no_filter (ping_filter : option string)
    (date_filter : option (date * date)) (cpu_threshold : option Z) : Prop :=
  (ping_filter = None \/ ping_filter = Some "" \/ ping_filter = Some "All")
  /\ date_filter = None /\ cpu_threshold = None.

(** A calendar date as Python and SQLite have it, and the order of the
    calendar. *)
Definition valid_date (d : date) : Prop :=
  1 <= year d <= 9999 /\ 1 <= month d <= 12 /\ 1 <= day d <= 31.

(** A date from the year 1000 on: every date the date widget of the page
    can give, which offers ten years around its default. *)
Definition four_digit_year (d : date) : Prop := 1000 <= year d <= 9999.

(** The text of a date as SQLite's [DATE] writes it: [YYYY-MM-DD], each
    part padded with zeros. *)
Definition iso_date (d : date) : string :=
  zfill 4 (pretty (year d)) +:+ "-" +:+ zfill 2 (pretty (month d)) +:+ "-"
  +:+ zfill 2 (pretty (day d)).

(** A cell that holds a number above the limit. *)
Definition above (cell : option float) (limit : Z) : Prop :=
  exists x, cell = Some x /\ float_gt_int x limit = true.

(** A column the table has under some spelling of the name. *)
Definition names_column {R} (t : DataFrame R) (c : string) : Prop :=
  exists declared, declared ∈ columns t /\ lower declared = lower c.


(** A frame each of whose four REAL columns holds a number in some row. *)
Definition numbers_in_each_column (df : DataFrame LogRecord.t) : Prop :=
  has_number LogRecord.cpu df = true /\ has_number LogRecord.memory df = true
  /\ has_number LogRecord.disk df = true /\ has_number LogRecord.ping_ms df = true.

(** The statistics hold a number for each of the four latest values. *)
Definition latest_numbers (stats : Statistics) : Prop :=
  is_Some (latest_cpu stats) /\ is_Some (latest_memory stats)
  /\ is_Some (latest_disk stats) /\ is_Some (latest_ping_ms stats).

(** A row of the table of the page when the columns of the frame are
    float64: a number as it is, NaN for NULL. *)
Definition display_row (r : LogRecord.t) : DisplayRow := {|
  d_id := LogRecord.id r;
  d_timestamp := LogRecord.timestamp r;
  d_cpu := format_f 1 (number_or_nan (LogRecord.cpu r)) +:+ "%";
  d_memory := format_f 1 (number_or_nan (LogRecord.memory r)) +:+ "%";
  d_disk := format_f 1 (number_or_nan (LogRecord.disk r)) +:+ "%";
  d_ping_status := LogRecord.ping_status r;
  d_ping_ms :=
    if float_gt_int (number_or_nan (LogRecord.ping_ms r)) 0
    then format_f 1 (number_or_nan (LogRecord.ping_ms r)) +:+ "ms" else "N/A"
|}.

Definition date_compare (d1 d2 : date) : comparison :=
  match year d1 ?= year d2 with
  | Eq => match month d1 ?= month d2 with
          | Eq => day d1 ?= day d2
          | c => c
          end
  | c => c
  end.

Definition date_le (d1 d2 : date) : Prop := date_compare d1 d2 <> Gt.

(** The character of a decimal digit. *)
Definition digit_char (k : Z) : ascii := ascii_of_N (Z.to_N (48 + k)).

Definition is_decimal_digit (k : Z) : Prop := 0 <= k <= 9.

(** A number that is neither NaN nor infinite. *)
Definition finite (x : float) : bool :=
  match Prim2SF x with
  | S754_zero _ | S754_finite _ _ _ => true
  | _ => false
  end.

Definition is_digit (c : ascii) : bool :=
  (48 <=? nat_of_ascii c)%nat && (nat_of_ascii c <=? 57)%nat.

(** Text with one decimal: an optional minus sign, the integer part, a
    point and one digit. *)
Definition one_decimal (s : string) : Prop :=
  exists (sign : string) (whole : Z) (d : ascii),
    s = sign +:+ pretty whole +:+ "." +:+ String d ""
    /\ (sign = "" \/ sign = "-") /\ 0 <= whole /\ is_digit d = true.

(** The tables and the charts among the elements of a page, in order. *)
Definition tables (l : list element) : list Table :=
  omap (fun e => match e with st_dataframe t => Some t | _ => None end) l.
Definition line_charts (l : list element) : list ChartData :=
  omap (fun e => match e with st_line_chart d => Some d | _ => None end) l.

(** The arguments [dashboard_page] gives to [get_system_logs]. *)
Definition ping_filter_arg (ui : Widgets) : option string :=
  if negb (String.eqb (w_ping_filter ui) "All") then Some (w_ping_filter ui) else None.
Definition date_filter_arg (ui : Widgets) : option (date * date) :=
  if w_use_date_filter ui then Some (w_start_date ui, w_end_date ui) else None.
Definition cpu_threshold_arg (ui : Widgets) : option Z :=
  if 0 <? w_cpu_threshold ui then Some (w_cpu_threshold ui) else None.

(** What stands above the [try] block. *)
Definition page_head : list element :=
  [st_title "📊 System Monitor Dashboard"; st_markdown "---";
   st_subheader "🔍 Filters"; st_markdown "---"].

(** The kinds of element that show data of the filtered frame. *)
Definition is_data_view (e : element) : bool :=
  match e with
  | st_dataframe _ | st_line_chart _ => true
  | _ => false
  end.

Definition no_data_warning : element :=
  st_warning "No data available matching the current filters.".

(** What the [except] clause shows. *)
Definition error_elements (str : exn -> string) (e : exn) : list element :=
  [st_error ("Error loading data: " +:+ str e);
   st_info "Make sure 'log.db' exists in the same directory. Run your logger script first."].

(** What the [try] block shows before it asks for the logs. *)
Definition before_logs (stats : Statistics) (alerts_shown : list element)
  : list element :=
  [st_header "📈 Current System Status"] ++ fst (status_metrics stats)
  ++ [st_markdown "---"; st_header "🚨 Recent Alerts"] ++ alerts_shown
  ++ [st_markdown "---"; st_header "📋 System Logs"].

(** An element that is neither a table nor a chart, nor the no-data
    warning, nor an error. *)
Definition not_a_view_nor_message (e : element) : Prop :=
  is_data_view e = false /\ e <> no_data_warning /\ (forall s, e <> st_error s).

(** The rows of a frame with a positive ping time. *)
Definition positive_ping (r : LogRecord.t) : bool :=
  match LogRecord.ping_ms r with
  | Some x => float_gt_int x 0
  | None => false
  end.

Definition ping_rows (chart_rows : list LogRecord.t) : list LogRecord.t :=
  filter (fun r => positive_ping r) chart_rows.

(** Is there a value for the key that was computed within the last
    [ttl_seconds]? *)
Definition cache_hit {K : Type} `{Countable K} {V : Type}
    (now : Q) (key : K) (ttl_seconds : Q) (cache : gmap K (entry V)) : bool :=
  match cache !! key with
  | Some e => within_ttl now ttl_seconds e
  | None => false
  end.

(** What a run did, the session state it left and how it ended. *)
Definition what_it_did {A} (run : list effect * SessionState * outcome A) : list effect :=
  fst (fst run).
Definition state_after {A} (run : list effect * SessionState * outcome A) : SessionState :=
  snd (fst run).
Definition how_it_ended {A} (run : list effect * SessionState * outcome A) : outcome A :=
  snd run.

(** The elements a run put in the main area and in the sidebar, in order. *)
Definition main_area (done : list effect) : list element :=
  omap (fun eff => match eff with in_main e => Some e | _ => None end) done.
Definition sidebar (done : list effect) : list element :=
  omap (fun eff => match eff with in_sidebar e => Some e | _ => None end) done.

(** The session state has its three keys. *)
Definition all_keys_set (ss : SessionState) : Prop :=
  is_Some (dark_mode ss) /\ is_Some (auto_refresh ss) /\ is_Some (refresh_interval ss).

(** The style sheet a run writes first, by the [dark_mode] of the session. *)
Definition theme (ss : SessionState) : element :=
  st_markdown (if default false (dark_mode ss) then dark_css else light_css).

(** The auto-refresh line of the sidebar, by the session state the run
    started with. *)
Definition auto_refresh_status (ss : SessionState) : element :=
  if default false (auto_refresh ss)
  then st_success ("✅ Auto-refresh: " +:+ str_int (default 30 (refresh_interval ss))
                   +:+ "s")
  else st_info "⏸️ Auto-refresh: Disabled".

(** The sidebar of a run that goes past the "Refresh Data" button. *)
Definition sidebar_shown (acc : Accessors) (ss : SessionState) : list element :=
  [st_markdown sidebar_logo; st_markdown "---"; st_header "📋 Navigation";
   st_markdown "---"; st_header "⚡ Quick Actions"; auto_refresh_status ss;
   st_markdown "---"]
  ++ sidebar_database acc
  ++ [st_markdown "---"; st_caption "System Monitor v2.0"].

(** Code all of whose effects, from any session state, are of one kind. *)
Definition only (P : effect -> Prop) {A} (m : script A) : Prop :=
  forall ss, Forall P (what_it_did (m ss)).

Definition not_in_sidebar (eff : effect) : Prop :=
  match eff with in_sidebar _ => False | _ => True end.
Definition not_a_sleep (eff : effect) : Prop :=
  match eff with time_sleep _ => False | _ => True end.

(** The session state once the defaults are in. *)
Definition with_defaults (ss : SessionState) : SessionState := {|
  dark_mode := Some (default false (dark_mode ss));
  auto_refresh := Some (default false (auto_refresh ss));
  refresh_interval := Some (default 30 (refresh_interval ss))
|}.

(** Code that, run on a session state with its three keys, ends by
    returning or by asking for a rerun, and leaves the three keys set. *)
Definition keeps_keys {A} (m : script A) : Prop :=
  forall ss, all_keys_set ss ->
    ((exists a, how_it_ended (m ss) = Returned a)
     \/ how_it_ended (m ss) = Stopped RerunException)
    /\ all_keys_set (state_after (m ss)).

(** * Properties *)

(** ** Ordering by [id] *)

#[global] Instance log_id_desc_total : Total log_id_desc.
Proof. intros r1 r2. unfold log_id_desc. lia. Qed.
#[global] Instance log_id_desc_trans : Transitive log_id_desc.
Proof. intros r1 r2 r3. unfold log_id_desc. lia. Qed.
#[global] Instance log_id_asc_total : Total log_id_asc.
Proof. intros r1 r2. unfold log_id_asc. lia. Qed.
#[global] Instance log_id_asc_trans : Transitive log_id_asc.
Proof. intros r1 r2 r3. unfold log_id_asc. lia. Qed.
#[global] Instance alert_id_desc_total : Total alert_id_desc.
Proof. intros a1 a2. unfold alert_id_desc. lia. Qed.
#[global] Instance alert_id_desc_trans : Transitive alert_id_desc.
Proof. intros a1 a2 a3. unfold alert_id_desc. lia. Qed.

(** A list sorted by a key and free of repeated keys is strictly sorted. *)
Lemma StronglySorted_strict {A} (key : A -> Z) (l : list A) :
  StronglySorted (fun a b => key b <= key a) l ->
  NoDup (map key l) ->
  StronglySorted (fun a b => key b < key a) l.
Proof.
  induction 1 as [|a l Hl IH Ha]; intros Hnd; [constructor|].
  simpl in Hnd. apply NoDup_cons in Hnd as [Hnotin Hnd].
  constructor; [auto|].
  rewrite Forall_forall in Ha. apply Forall_forall. intros b Hb.
  specialize (Ha b Hb). simpl in Ha.
  assert (key b <> key a); [|lia].
  intros Heq. apply Hnotin. rewrite <- Heq.
  apply list_elem_of_fmap. exists b. split; [reflexivity|exact Hb].
Qed.

Lemma order_by_id_desc_Permutation (l : list LogRecord.t) :
  order_by_id_desc l ≡ₚ l.
Proof. apply merge_sort_Permutation. Qed.

Lemma order_by_id_desc_sorted (l : list LogRecord.t) :
  StronglySorted log_id_desc (order_by_id_desc l).
Proof. apply (StronglySorted_merge_sort log_id_desc). Qed.

Lemma order_by_id_desc_strict (l : list LogRecord.t) :
  NoDup (map LogRecord.id l) ->
  StronglySorted log_id_strictly_desc (order_by_id_desc l).
Proof.
  intros Hnd. apply (StronglySorted_strict LogRecord.id).
  - apply order_by_id_desc_sorted.
  - eapply NoDup_Permutation_proper; [|exact Hnd].
    apply Permutation_map, order_by_id_desc_Permutation.
Qed.

Lemma NoDup_map_filter {A B} (f : A -> B) (P : A -> Prop)
    `{forall a, Decision (P a)} (l : list A) :
  NoDup (map f l) -> NoDup (map f (filter P l)).
Proof.
  induction l as [|a l IH]; simpl; intros Hnd; [constructor|].
  apply NoDup_cons in Hnd as [Hnotin Hnd].
  rewrite filter_cons. destruct (decide (P a)); simpl; [|auto].
  apply NoDup_cons. split; [|auto].
  intros Hin. apply Hnotin.
  apply list_elem_of_fmap in Hin as (b & Hb & Hin).
  apply list_elem_of_fmap. exists b. split; [exact Hb|].
  apply list_elem_of_filter in Hin. tauto.
Qed.

Lemma StronglySorted_weaken {A} (R R' : relation A) (l : list A) :
  (forall a b, R a b -> R' a b) -> StronglySorted R l -> StronglySorted R' l.
Proof.
  intros HR. induction 1 as [|a l _ IH Ha]; constructor; [exact IH|].
  eapply Forall_impl; [exact Ha|]. intros b. apply HR.
Qed.

Lemma StronglySorted_filter {A} (R : relation A) (P : A -> Prop)
    `{forall a, Decision (P a)} (l : list A) :
  StronglySorted R l -> StronglySorted R (filter P l).
Proof.
  induction 1 as [|a l _ IH Ha]; [constructor|].
  rewrite filter_cons. destruct (decide (P a)); [|exact IH].
  constructor; [exact IH|]. rewrite Forall_forall in Ha. apply Forall_forall.
  intros b Hb. apply Ha. apply list_elem_of_filter in Hb. tauto.
Qed.

Lemma sort_values_id_Permutation (l : list LogRecord.t) :
  sort_values_id l ≡ₚ l.
Proof. apply merge_sort_Permutation. Qed.

Lemma sort_values_id_sorted (l : list LogRecord.t) :
  StronglySorted log_id_asc (sort_values_id l).
Proof. apply (StronglySorted_merge_sort log_id_asc). Qed.

Lemma sort_values_id_strict (l : list LogRecord.t) :
  NoDup (map LogRecord.id l) ->
  StronglySorted log_id_strictly_asc (sort_values_id l).
Proof.
  intros Hnd.
  apply (StronglySorted_weaken
           (fun a b => - LogRecord.id b < - LogRecord.id a));
    [unfold log_id_strictly_asc; intros; lia|].
  apply (StronglySorted_strict (fun r => - LogRecord.id r)).
  - eapply StronglySorted_weaken; [|apply sort_values_id_sorted].
    unfold log_id_asc. intros; lia.
  - assert (Hinj : NoDup (map LogRecord.id (sort_values_id l))).
    { eapply NoDup_Permutation_proper; [|exact Hnd].
      apply Permutation_map, sort_values_id_Permutation. }
    clear Hnd. induction (sort_values_id l) as [|r rs IH]; [constructor|].
    simpl in *. apply NoDup_cons in Hinj as [Hr Hrs]. apply NoDup_cons.
    split; [|by apply IH].
    intros Hin. apply Hr.
    apply list_elem_of_fmap in Hin as (r' & Heq & Hr').
    apply list_elem_of_fmap. exists r'. split; [lia|exact Hr'].
Qed.

(** ** Dates as text *)

(** [DATE] writes the year on four digits and the month and the day on
    two, so the byte order of two such texts is the order of the calendar;
    from the year 1000 on [strftime('%Y-%m-%d')] writes the same text. *)
Lemma decimal_digits_2 (n : Z) :
  0 <= n <= 99 ->
  exists a b, is_decimal_digit a /\ is_decimal_digit b /\ n = 10 * a + b.
Proof.
  intros Hn. exists (n / 10), (n mod 10). unfold is_decimal_digit.
  Z.div_mod_to_equations. lia.
Qed.

Lemma decimal_digits_4 (n : Z) :
  0 <= n <= 9999 ->
  exists a b c d,
    is_decimal_digit a /\ is_decimal_digit b /\ is_decimal_digit c
    /\ is_decimal_digit d /\ n = 1000 * a + 100 * b + 10 * c + d.
Proof.
  intros Hn.
  exists (n / 1000), (n mod 1000 / 100), (n mod 100 / 10), (n mod 10).
  unfold is_decimal_digit. Z.div_mod_to_equations. lia.
Qed.

Lemma in_digits (k : Z) : is_decimal_digit k -> In k (seqZ 0 10).
Proof. intros Hk. apply list_elem_of_In, elem_of_seqZ. unfold is_decimal_digit in Hk. lia. Qed.

Lemma zfill_2_pretty (a b : Z) :
  is_decimal_digit a -> is_decimal_digit b ->
  zfill 2 (pretty (10 * a + b)) = String (digit_char a) (String (digit_char b) "").
Proof.
  intros Ha%in_digits Hb%in_digits.
  assert (Hall : forallb (fun a => forallb (fun b =>
            String.eqb (zfill 2 (pretty (10 * a + b)))
                       (String (digit_char a) (String (digit_char b) "")))
            (seqZ 0 10)) (seqZ 0 10) = true) by (vm_compute; reflexivity).
  rewrite forallb_forall in Hall. specialize (Hall a Ha).
  rewrite forallb_forall in Hall. by apply String.eqb_eq, Hall.
Qed.

Lemma zfill_4_pretty (a b c d : Z) :
  is_decimal_digit a -> is_decimal_digit b -> is_decimal_digit c ->
  is_decimal_digit d ->
  zfill 4 (pretty (1000 * a + 100 * b + 10 * c + d))
  = String (digit_char a) (String (digit_char b)
      (String (digit_char c) (String (digit_char d) ""))).
Proof.
  intros Ha%in_digits Hb%in_digits Hc%in_digits Hd%in_digits.
  assert (Hall : forallb (fun a => forallb (fun b => forallb (fun c => forallb (fun d =>
            String.eqb (zfill 4 (pretty (1000 * a + 100 * b + 10 * c + d)))
              (String (digit_char a) (String (digit_char b)
                 (String (digit_char c) (String (digit_char d) "")))))
            (seqZ 0 10)) (seqZ 0 10)) (seqZ 0 10)) (seqZ 0 10) = true)
    by (vm_compute; reflexivity).
  rewrite forallb_forall in Hall. specialize (Hall a Ha).
  rewrite forallb_forall in Hall. specialize (Hall b Hb).
  rewrite forallb_forall in Hall. specialize (Hall c Hc).
  rewrite forallb_forall in Hall. by apply String.eqb_eq, Hall.
Qed.

Lemma digit_char_compare (i j : Z) :
  is_decimal_digit i -> is_decimal_digit j ->
  Ascii.compare (digit_char i) (digit_char j) = (i ?= j).
Proof.
  intros Hi%in_digits Hj%in_digits.
  assert (Hall : forallb (fun i => forallb (fun j =>
             match Ascii.compare (digit_char i) (digit_char j), (i ?= j) with
             | Eq, Eq | Lt, Lt | Gt, Gt => true
             | _, _ => false
             end) (seqZ 0 10)) (seqZ 0 10) = true) by (vm_compute; reflexivity).
  rewrite forallb_forall in Hall.
  specialize (Hall i Hi). rewrite forallb_forall in Hall.
  specialize (Hall j Hj).
  by destruct (Ascii.compare _ _), (i ?= j).
Qed.

Lemma append_String (c : ascii) (s t : string) :
  String c s +:+ t = String c (s +:+ t).
Proof. reflexivity. Qed.

Lemma append_empty (t : string) : "" +:+ t = t.
Proof. reflexivity. Qed.

Lemma compare_String (c1 c2 : ascii) (s1 s2 : string) :
  String.compare (String c1 s1) (String c2 s2)
  = match Ascii.compare c1 c2 with Eq => String.compare s1 s2 | c => c end.
Proof. reflexivity. Qed.

Lemma iso_date_compare (d1 d2 : date) :
  valid_date d1 -> valid_date d2 ->
  String.compare (iso_date d1) (iso_date d2) = date_compare d1 d2.
Proof.
  destruct d1 as [y1 m1 n1], d2 as [y2 m2 n2].
  unfold valid_date, iso_date, date_compare. cbn [year month day].
  intros (Hy1 & Hm1 & Hn1) (Hy2 & Hm2 & Hn2).
  destruct (decimal_digits_4 y1) as (a1 & b1 & c1 & e1 & ? & ? & ? & ? & ->); [lia|].
  destruct (decimal_digits_4 y2) as (a2 & b2 & c2 & e2 & ? & ? & ? & ? & ->); [lia|].
  destruct (decimal_digits_2 m1) as (f1 & g1 & ? & ? & ->); [lia|].
  destruct (decimal_digits_2 m2) as (f2 & g2 & ? & ? & ->); [lia|].
  destruct (decimal_digits_2 n1) as (h1 & i1 & ? & ? & ->); [lia|].
  destruct (decimal_digits_2 n2) as (h2 & i2 & ? & ? & ->); [lia|].
  rewrite !zfill_4_pretty, !zfill_2_pretty by assumption.
  rewrite !append_String, !append_empty, !compare_String.
  change (Ascii.compare "-" "-") with Eq. cbv iota.
  change (String.compare "" "") with Eq.
  rewrite !digit_char_compare by assumption.
  unfold is_decimal_digit in *.
  repeat match goal with
         | |- context [?a ?= ?b] =>
             destruct (Z.compare_spec a b); cbv iota
         end; first [reflexivity | exfalso; lia].
Qed.

Lemma zfill_4_four_digits (y : Z) :
  1000 <= y <= 9999 -> zfill 4 (pretty y) = pretty y.
Proof.
  intros Hy.
  assert (Hall : forallb (fun y => String.eqb (zfill 4 (pretty y)) (pretty y))
                   (seqZ 1000 9000) = true) by (vm_compute; reflexivity).
  rewrite forallb_forall in Hall. apply String.eqb_eq, Hall.
  apply list_elem_of_In, elem_of_seqZ. lia.
Qed.

Lemma strftime_Ymd_iso_date (d : date) :
  four_digit_year d -> strftime_Ymd d = iso_date d.
Proof.
  intros Hd. unfold strftime_Ymd, iso_date. by rewrite zfill_4_four_digits.
Qed.


Lemma date_between_calendar (start_date end_date d : date) :
  valid_date start_date -> valid_date end_date -> valid_date d ->
  four_digit_year start_date -> four_digit_year end_date ->
  String.leb (strftime_Ymd start_date) (iso_date d) = true
  /\ String.leb (iso_date d) (strftime_Ymd end_date) = true
  <-> date_le start_date d /\ date_le d end_date.
Proof.
  intros Hs He Hd Hys Hye. unfold String.leb, date_le.
  rewrite !strftime_Ymd_iso_date by assumption.
  rewrite !iso_date_compare by assumption.
  destruct (date_compare start_date d), (date_compare d end_date);
    split; intros [? ?]; split; congruence.
Qed.

(** ** [get_system_logs] *)

Section AccessorFacts.

Variable sql_DATE : string -> option string.

Lemma where_holds_forallb (cs : list sql_cond) (r : LogRecord.t) :
  where_holds sql_DATE cs r = forallb (cond_holds sql_DATE r) cs.
Proof. destruct cs; reflexivity. Qed.

Lemma ping_condition_holds (r : LogRecord.t) (ping_filter : option string) :
  forallb (cond_holds sql_DATE r)
    (match ping_filter with
     | Some p => if negb (String.eqb p "") && negb (String.eqb p "All")
                 then [] ++ [ping_status_eq p] else []
     | None => []
     end) = true
  <-> (forall p, ping_filter = Some p -> p <> "" -> p <> "All" ->
         LogRecord.ping_status r = p).
Proof.
  destruct ping_filter as [p|]; [|simpl; split; [discriminate|reflexivity]].
  destruct (String.eqb_spec p "") as [->|Hne1]; simpl.
  { split; [intros _ q [= <-] Hq; congruence | reflexivity]. }
  destruct (String.eqb_spec p "All") as [->|Hne2]; simpl.
  { split; [intros _ q [= <-] _ Hq; congruence | reflexivity]. }
  rewrite andb_true_r. split.
  - intros Heq q [= <-] _ _. by apply String.eqb_eq.
  - intros Hq. apply String.eqb_eq. by apply Hq.
Qed.

Lemma date_condition_holds (r : LogRecord.t) (date_filter : option (date * date)) :
  forallb (cond_holds sql_DATE r)
    (match date_filter with
     | Some (start_date, end_date) =>
         [DATE_timestamp_between (strftime_Ymd start_date) (strftime_Ymd end_date)]
     | None => []
     end) = true
  <-> (forall start_date end_date, date_filter = Some (start_date, end_date) ->
         exists d, sql_DATE (LogRecord.timestamp r) = Some d
                   /\ String.leb (strftime_Ymd start_date) d = true
                   /\ String.leb d (strftime_Ymd end_date) = true).
Proof.
  destruct date_filter as [[d1 d2]|]; simpl; [|split; [discriminate|reflexivity]].
  rewrite andb_true_r. split.
  - intros Hc ? ? [= <- <-].
    destruct (sql_DATE (LogRecord.timestamp r)) as [d|]; [|discriminate].
    apply andb_true_iff in Hc. eauto.
  - intros Hd. destruct (Hd d1 d2 eq_refl) as (d & -> & H1 & H2).
    by rewrite H1, H2.
Qed.

Lemma cpu_condition_holds (r : LogRecord.t) (cpu_threshold : option Z) :
  forallb (cond_holds sql_DATE r)
    (match cpu_threshold with Some n => [cpu_ge n] | None => [] end) = true
  <-> (forall n, cpu_threshold = Some n ->
         exists cpu, LogRecord.cpu r = Some cpu /\ float_ge_int cpu n = true).
Proof.
  destruct cpu_threshold as [n|]; simpl; [|split; [discriminate|reflexivity]].
  rewrite andb_true_r. unfold sql_ge. split.
  - intros Hc ? [= <-]. destruct (LogRecord.cpu r) as [cpu|]; [eauto|discriminate].
  - intros Hn. by destruct (Hn n eq_refl) as (cpu & -> & ?).
Qed.

Lemma conditions_app (ping_filter : option string)
    (date_filter : option (date * date)) (cpu_threshold : option Z) :
  conditions ping_filter date_filter cpu_threshold =
    match ping_filter with
    | Some p => if negb (String.eqb p "") && negb (String.eqb p "All")
                then [] ++ [ping_status_eq p] else []
    | None => []
    end
    ++ match date_filter with
       | Some (start_date, end_date) =>
           [DATE_timestamp_between (strftime_Ymd start_date) (strftime_Ymd end_date)]
       | None => []
       end
    ++ match cpu_threshold with Some n => [cpu_ge n] | None => [] end.
Proof.
  unfold conditions.
  destruct cpu_threshold, date_filter as [[? ?]|]; simpl;
    rewrite ?app_nil_r, <- ?app_assoc; reflexivity.
Qed.

(** The WHERE clause is the conjunction of the restrictions present. *)
Lemma where_holds_conditions (ping_filter : option string)
    (date_filter : option (date * date)) (cpu_threshold : option Z)
    (r : LogRecord.t) :
  where_holds sql_DATE (conditions ping_filter date_filter cpu_threshold) r = true
  <-> passes_filters sql_DATE ping_filter date_filter cpu_threshold r.
Proof.
  rewrite where_holds_forallb, conditions_app, !forallb_app, !andb_true_iff.
  rewrite ping_condition_holds, date_condition_holds, cpu_condition_holds.
  reflexivity.
Qed.

Lemma conditions_no_filter (ping_filter : option string)
    (date_filter : option (date * date)) (cpu_threshold : option Z) :
  no_filter ping_filter date_filter cpu_threshold ->
  conditions ping_filter date_filter cpu_threshold = [].
Proof. intros ([-> | [-> | ->]] & -> & ->); reflexivity. Qed.

(** When [get_system_logs] returns, the store was opened, it has the
    table, and the frame is the table's rows that pass the WHERE clause,
    ordered by [id] descending. *)
Lemma get_system_logs_Ok (s : store) (ping_filter : option string)
    (date_filter : option (date * date)) (cpu_threshold : option Z)
    (df : DataFrame LogRecord.t) :
  get_system_logs sql_DATE s ping_filter date_filter cpu_threshold = Ok df ->
  exists db t,
    s = Opened db /\ system_log db = Some t /\ columns df = columns t
    /\ rows df =
       order_by_id_desc
         (filter (fun r => where_holds sql_DATE
                    (conditions ping_filter date_filter cpu_threshold) r) (rows t)).
Proof.
  unfold get_system_logs, select_system_log.
  destruct s as [| |db]; simpl; [discriminate..|].
  destruct (system_log db) as [t|] eqn:Ht; simpl; [|discriminate].
  destruct (sql_columns t _); simpl; [|discriminate].
  destruct (bind_params _); simpl; [|discriminate].
  intros [= <-]. exists db, t. auto.
Qed.

End AccessorFacts.

#[global] Instance passes_filters_dec sql_DATE ping_filter date_filter
    cpu_threshold r :
  Decision (passes_filters sql_DATE ping_filter date_filter cpu_threshold r).
Proof.
  refine (cast_if (decide (where_holds sql_DATE
            (conditions ping_filter date_filter cpu_threshold) r = true)));
    abstract (by rewrite <- where_holds_conditions).
Defined.

(** C1. For every combination of the three optional restrictions, the
    rows [get_system_logs] returns are exactly the rows of [system_log]
    that satisfy every restriction present (ping_status equal to the one
    asked, DATE(timestamp) between the two bounds inclusive, cpu at least
    the threshold): the restrictions are joined by AND, no row that fails
    one is returned and no row that passes all is left out.  With no
    restriction the result is the whole table.  In every case the rows
    come by [id] descending, strictly so for a table with a primary key.
    The bounds are compared with DATE(timestamp) as text; for bounds from
    the year 1000 on that is the order of the calendar. *)
Theorem get_system_logs_filters_and_order
    (sql_DATE : string -> option string) (s : store)
    (ping_filter : option string) (date_filter : option (date * date))
    (cpu_threshold : option Z) (df : DataFrame LogRecord.t) :
  get_system_logs sql_DATE s ping_filter date_filter cpu_threshold = Ok df ->
  exists db table,
    s = Opened db /\ system_log db = Some table
    /\ (forall r, r ∈ rows df <->
          r ∈ rows table
          /\ passes_filters sql_DATE ping_filter date_filter cpu_threshold r)
    /\ rows df ≡ₚ
         filter (passes_filters sql_DATE ping_filter date_filter cpu_threshold)
                (rows table)
    /\ (no_filter ping_filter date_filter cpu_threshold ->
          rows df ≡ₚ rows table /\ rows df = order_by_id_desc (rows table))
    /\ StronglySorted log_id_desc (rows df)
    /\ (NoDup (map LogRecord.id (rows table)) ->
          StronglySorted log_id_strictly_desc (rows df))
    /\ (forall r start_date end_date d,
          date_filter = Some (start_date, end_date) ->
          valid_date start_date -> valid_date end_date -> valid_date d ->
          four_digit_year start_date -> four_digit_year end_date ->
          sql_DATE (LogRecord.timestamp r) = Some (iso_date d) ->
          (r ∈ rows df <->
             r ∈ rows table
             /\ passes_filters sql_DATE ping_filter None cpu_threshold r
             /\ date_le start_date d /\ date_le d end_date)).
Proof.
  intros Hget.
  destruct (get_system_logs_Ok sql_DATE s ping_filter date_filter cpu_threshold
              df Hget) as (db & table & -> & Htable & _ & Hrows).
  assert (Hfilter :
    filter (fun r => where_holds sql_DATE
              (conditions ping_filter date_filter cpu_threshold) r) (rows table)
    = filter (passes_filters sql_DATE ping_filter date_filter cpu_threshold)
             (rows table)).
  { apply list_filter_iff. intros r.
    rewrite <- where_holds_conditions. apply Is_true_true. }
  exists db, table. rewrite Hrows, Hfilter.
  split; [reflexivity|]. split; [exact Htable|].
  assert (Hiff : forall r,
            r ∈ order_by_id_desc
                  (filter (passes_filters sql_DATE ping_filter date_filter
                             cpu_threshold) (rows table))
            <-> r ∈ rows table
                /\ passes_filters sql_DATE ping_filter date_filter cpu_threshold r).
  { intros r. rewrite order_by_id_desc_Permutation, list_elem_of_filter. tauto. }
  split; [|split; [|split; [|split; [|split]]]].
  - exact Hiff.
  - apply order_by_id_desc_Permutation.
  - intros Hnone. rewrite <- Hfilter, (conditions_no_filter _ _ _ Hnone).
    assert (Hall : filter (fun r => where_holds sql_DATE [] r) (rows table)
                   = rows table).
    { clear. induction (rows table) as [|r l IH]; [reflexivity|].
      rewrite filter_cons_True; [by rewrite IH | exact I]. }
    rewrite Hall. split; [apply order_by_id_desc_Permutation | reflexivity].
  - apply order_by_id_desc_sorted.
  - intros Hnd. apply order_by_id_desc_strict. by apply NoDup_map_filter.
  - intros r start_date end_date d -> Hstart Hend Hd Hystart Hyend Hdate.
    rewrite Hiff. unfold passes_filters.
    rewrite <- (date_between_calendar start_date end_date d) by assumption.
    split.
    + intros (Hr & Hping & Hrange & Hcpu).
      destruct (Hrange _ _ eq_refl) as (d' & Hd' & Hlo & Hhi).
      rewrite Hdate in Hd'. injection Hd' as <-.
      repeat split; try assumption. discriminate.
    + intros (Hr & (Hping & _ & Hcpu) & Hlo & Hhi).
      repeat split; try assumption.
      intros ? ? [= <- <-]. eauto.
Qed.

(** The scenario of the spec: a threshold of 50 on cpu 40, 60 and 80 keeps
    the rows with 60 and 80, the latest first. *)
Lemma get_system_logs_filters_and_order_witness :
  get_system_logs DATE_of_iso store_40_60_80 None None (Some 50) =
    Ok {| columns := system_log_columns;
          rows := [log_row 3 "2024-11-03 10:00:00" 80 "UP" 20;
                   log_row 2 "2024-11-02 10:00:00" 60 "DOWN" 0] |}
  /\ exists db table,
       store_40_60_80 = Opened db /\ system_log db = Some table
       /\ (forall r,
             r ∈ [log_row 3 "2024-11-03 10:00:00" 80 "UP" 20;
                  log_row 2 "2024-11-02 10:00:00" 60 "DOWN" 0] <->
             r ∈ rows table /\ passes_filters DATE_of_iso None None (Some 50) r).
Proof.
  assert (Hget :
    get_system_logs DATE_of_iso store_40_60_80 None None (Some 50) =
      Ok {| columns := system_log_columns;
            rows := [log_row 3 "2024-11-03 10:00:00" 80 "UP" 20;
                     log_row 2 "2024-11-02 10:00:00" 60 "DOWN" 0] |})
    by (vm_compute; reflexivity).
  split; [exact Hget|].
  destruct (get_system_logs_filters_and_order _ _ _ _ _ _ Hget)
    as (db & table & Hs & Ht & Hiff & _).
  exists db, table. auto.
Defined.

(** C10. Whatever the date range and the threshold, [get_system_logs]
    called with the str ["All"] for [ping_filter] returns what it returns
    for [None]: ["All"] is read as no restriction on ping_status, not as
    the value to match. *)
Theorem get_system_logs_All_is_None
    (sql_DATE : string -> option string) (s : store)
    (date_filter : option (date * date)) (cpu_threshold : option Z) :
  get_system_logs sql_DATE s (Some "All") date_filter cpu_threshold
  = get_system_logs sql_DATE s None date_filter cpu_threshold
  /\ conditions (Some "All") date_filter cpu_threshold
     = conditions None date_filter cpu_threshold
  /\ Forall (fun c => forall p, c <> ping_status_eq p)
            (conditions (Some "All") date_filter cpu_threshold).
Proof.
  split; [reflexivity|]. split; [reflexivity|].
  rewrite conditions_app. simpl.
  destruct date_filter as [[? ?]|], cpu_threshold as [?|];
    repeat constructor; discriminate.
Qed.

(** ** [get_statistics] *)

(** A statement finds the columns the table has under some spelling of
    their names. *)
Lemma sql_has_column_names {R} (t : DataFrame R) (c : string) :
  sql_has_column t c = true <-> names_column t c.
Proof.
  unfold sql_has_column, names_column, same_name. rewrite existsb_exists. split.
  - intros (declared & Hin & Heq). apply String.eqb_eq in Heq.
    exists declared. split; [by apply list_elem_of_In|done].
  - intros (declared & Hin & Heq). exists declared.
    split; [by apply list_elem_of_In|]. by apply String.eqb_eq.
Qed.

Lemma elem_of_names_column {R} (t : DataFrame R) (c : string) :
  c ∈ columns t -> names_column t c.
Proof. intros Hc. by exists c. Qed.

Lemma sql_columns_Ok_iff {R} (t : DataFrame R) (cs : list string) :
  sql_columns t cs = Ok tt <-> forall c, c ∈ cs -> names_column t c.
Proof.
  induction cs as [|c cs IH].
  - split; [|reflexivity]. intros _ c Hc. by apply elem_of_nil in Hc.
  - simpl. unfold sql_column.
    destruct (sql_has_column t c) eqn:Hc; simpl.
    + apply sql_has_column_names in Hc. rewrite IH. split; intros Hcs c' Hc'.
      * apply elem_of_cons in Hc' as [->|Hc']; [exact Hc|by apply Hcs].
      * apply Hcs. by right.
    + split; [discriminate|]. intros Hcs.
      assert (Hn : names_column t c) by (apply Hcs; by left).
      apply sql_has_column_names in Hn. congruence.
Qed.

Lemma sql_columns_Ok {R} (t : DataFrame R) (cs : list string) :
  (forall c, c ∈ cs -> c ∈ columns t) -> sql_columns t cs = Ok tt.
Proof.
  intros Hcs. apply sql_columns_Ok_iff. intros c Hc.
  by apply elem_of_names_column, Hcs.
Qed.

Lemma sql_columns_Ok_inv {R} (t : DataFrame R) (cs : list string) :
  sql_columns t cs = Ok tt -> forall c, c ∈ cs -> names_column t c.
Proof. apply sql_columns_Ok_iff. Qed.

Arguments sql_columns : simpl never.
Arguments bind_params : simpl never.

(** When [get_statistics] returns, the store was opened, it has both
    tables, and the dict is computed from all their rows. *)
Lemma get_statistics_Ok (s : store) (stats : Statistics) :
  get_statistics s = Ok stats ->
  exists db logs alerts,
    s = Opened db /\ system_log db = Some logs /\ alerts_log db = Some alerts
    /\ (forall c, c ∈ ["cpu"; "memory"; "disk"; "ping_status"; "ping_ms"; "id"] ->
          names_column logs c)
    /\ log_count stats = Z.of_nat (length (rows logs))
    /\ alert_count stats = Z.of_nat (length (rows alerts))
    /\ threshold_violations stats
       = Z.of_nat (length (filter (fun r => violates r) (rows logs))).
Proof.
  unfold get_statistics.
  destruct s as [| |db]; simpl; [discriminate..|].
  destruct (system_log db) as [logs|] eqn:Hlogs; simpl; [|discriminate].
  destruct (alerts_log db) as [alerts|] eqn:Halerts; simpl; [|discriminate].
  destruct (sql_columns logs _) as [[]|] eqn:Hcols; simpl; [|discriminate].
  intros [= <-]. exists db, logs, alerts. simpl.
  split; [reflexivity|]. split; [exact Hlogs|]. split; [exact Halerts|].
  split; [|auto]. by apply sql_columns_Ok_inv.
Qed.

(** C3, as the code has it. On a store whose [system_log] table has its
    columns and no rows, and whose [alerts_log] table exists,
    [get_statistics] does not raise: it returns log count 0, violation
    count 0, latest cpu, memory, disk and ping time 0 and latest ping
    status "N/A"; the alert count is the number of rows of [alerts_log],
    which is 0 when that table is empty too. *)
Theorem get_statistics_empty_log_table
    (db : database) (logs : DataFrame LogRecord.t)
    (alerts : DataFrame AlertRecord.t) :
  system_log db = Some logs ->
  alerts_log db = Some alerts ->
  rows logs = [] ->
  (forall c, c ∈ ["cpu"; "memory"; "disk"; "ping_status"; "ping_ms"; "id"] ->
     c ∈ columns logs) ->
  get_statistics (Opened db) = Ok {|
    log_count := 0;
    alert_count := Z.of_nat (length (rows alerts));
    threshold_violations := 0;
    latest_cpu := Some 0%float;
    latest_memory := Some 0%float;
    latest_disk := Some 0%float;
    latest_ping_status := "N/A";
    latest_ping_ms := Some 0%float
  |}
  /\ (rows alerts = [] ->
      alert_count <$> get_statistics (Opened db) = Ok 0).
Proof.
  intros Hlogs Halerts Hrows Hcols.
  unfold get_statistics. simpl. rewrite Hlogs. simpl. rewrite Halerts. simpl.
  rewrite (sql_columns_Ok _ _ Hcols). simpl. rewrite Hrows. simpl.
  split; [reflexivity|]. by intros ->.
Qed.

Lemma get_statistics_empty_log_table_witness :
  get_statistics store_no_logs_one_alert = Ok {|
    log_count := 0;
    alert_count := 1;
    threshold_violations := 0;
    latest_cpu := Some 0%float;
    latest_memory := Some 0%float;
    latest_disk := Some 0%float;
    latest_ping_status := "N/A";
    latest_ping_ms := Some 0%float
  |}.
Proof.
  refine (proj1 (get_statistics_empty_log_table
            {| system_log := Some no_logs; alerts_log := Some one_alert |}
            no_logs one_alert eq_refl eq_refl eq_refl _)).
  intros c Hc. simpl.
  repeat (apply elem_of_cons in Hc as [-> | Hc]); [..|by apply elem_of_nil in Hc];
    repeat constructor.
Defined.

(** The log table is empty and the alert count is not zero. *)
Lemma get_statistics_empty_logs_nonzero_alert_count :
  system_log_rows_empty store_no_logs_one_alert = true
  /\ alert_count <$> get_statistics store_no_logs_one_alert = Ok 1
  /\ alert_count <$> get_statistics store_no_logs_one_alert <> Ok 0.
Proof. split; [reflexivity|]. split; [reflexivity|discriminate]. Qed.

(** ** [get_alerts_log] and the latest row *)

Lemma alerts_order_by_id_desc_Permutation (l : list AlertRecord.t) :
  alerts_order_by_id_desc l ≡ₚ l.
Proof. apply merge_sort_Permutation. Qed.

Lemma alerts_order_by_id_desc_sorted (l : list AlertRecord.t) :
  StronglySorted alert_id_desc (alerts_order_by_id_desc l).
Proof. apply (StronglySorted_merge_sort alert_id_desc). Qed.

(** X1. [get_alerts_log] returns the fifty alerts of highest [id], or all
    of them when the table holds fewer, highest [id] first: every alert
    left out has an [id] no higher than any alert returned. *)
Theorem get_alerts_log_latest_fifty (s : store) (df : DataFrame AlertRecord.t) :
  get_alerts_log s = Ok df ->
  exists db table,
    s = Opened db /\ alerts_log db = Some table
    /\ columns df = columns table
    /\ length (rows df) = Nat.min 50 (length (rows table))
    /\ StronglySorted alert_id_desc (rows df)
    /\ (forall a, a ∈ rows df -> a ∈ rows table)
    /\ (forall a b, a ∈ rows df -> b ∈ rows table -> b ∉ rows df ->
          AlertRecord.id b <= AlertRecord.id a).
Proof.
  unfold get_alerts_log.
  destruct s as [| |db]; simpl; [discriminate..|].
  destruct (alerts_log db) as [table|] eqn:Htable; simpl; [|discriminate].
  destruct (sql_columns table _) as [[]|]; simpl; [|discriminate].
  intros [= <-]. exists db, table. cbn [columns rows].
  pose proof (alerts_order_by_id_desc_sorted (rows table)) as Hsorted.
  pose proof (alerts_order_by_id_desc_Permutation (rows table)) as Hperm.
  rewrite <- (take_drop 50 (alerts_order_by_id_desc (rows table))) in Hsorted.
  repeat split; try done.
  - by rewrite length_take, Hperm.
  - by eapply StronglySorted_app_1_l.
  - intros a Ha. rewrite <- Hperm.
    apply elem_of_take in Ha as (i & Hi & _). by eapply list_elem_of_lookup_2.
  - intros a b Ha Hb Hnot.
    rewrite <- Hperm, <- (take_drop 50 (alerts_order_by_id_desc (rows table))) in Hb.
    apply elem_of_app in Hb as [Hb|Hb]; [done|].
    exact (StronglySorted_app_1_elem_of _ _ _ _ _ Hsorted Ha Hb).
Qed.

Lemma get_alerts_log_latest_fifty_witness :
  exists db table,
    store_70_85_90 = Opened db /\ alerts_log db = Some table
    /\ columns one_alert = columns table
    /\ length (rows one_alert) = Nat.min 50 (length (rows table))
    /\ StronglySorted alert_id_desc (rows one_alert)
    /\ (forall a, a ∈ rows one_alert -> a ∈ rows table)
    /\ (forall a b, a ∈ rows one_alert -> b ∈ rows table -> b ∉ rows one_alert ->
          AlertRecord.id b <= AlertRecord.id a).
Proof. apply (get_alerts_log_latest_fifty store_70_85_90 one_alert). reflexivity. Defined.

(** X2. The latest readings of [get_statistics] are those of the row of
    highest [id] of [system_log], whenever the table has a row. *)
Theorem get_statistics_latest_is_highest_id (s : store) (stats : Statistics) :
  get_statistics s = Ok stats ->
  exists db logs,
    s = Opened db /\ system_log db = Some logs
    /\ (rows logs <> [] ->
        exists r,
          r ∈ rows logs
          /\ (forall r', r' ∈ rows logs -> LogRecord.id r' <= LogRecord.id r)
          /\ latest_cpu stats = LogRecord.cpu r
          /\ latest_memory stats = LogRecord.memory r
          /\ latest_disk stats = LogRecord.disk r
          /\ latest_ping_status stats = LogRecord.ping_status r
          /\ latest_ping_ms stats = LogRecord.ping_ms r).
Proof.
  unfold get_statistics.
  destruct s as [| |db]; simpl; [discriminate..|].
  destruct (system_log db) as [logs|] eqn:Hlogs; simpl; [|discriminate].
  destruct (alerts_log db) as [alerts|]; simpl; [|discriminate].
  destruct (sql_columns logs _) as [[]|]; simpl; [|discriminate].
  intros [= <-]. exists db, logs. split; [reflexivity|]. split; [exact Hlogs|].
  intros Hrows. cbn.
  pose proof (order_by_id_desc_sorted (rows logs)) as Hsorted.
  pose proof (order_by_id_desc_Permutation (rows logs)) as Hperm.
  destruct (order_by_id_desc (rows logs)) as [|r l] eqn:Hsort.
  { apply Permutation_nil_l in Hperm. by destruct Hrows. }
  exists r. cbn. split; [rewrite <- Hperm; by left|].
  split; [|done].
  intros r' Hr'. rewrite <- Hperm in Hr'.
  apply StronglySorted_inv in Hsorted as [_ Hall].
  apply elem_of_cons in Hr' as [->|Hr']; [lia|].
  rewrite Forall_forall in Hall. by apply Hall.
Qed.

Lemma get_statistics_latest_is_highest_id_witness :
  exists stats,
    get_statistics store_70_85_90 = Ok stats
    /\ exists db logs,
         store_70_85_90 = Opened db /\ system_log db = Some logs
         /\ (rows logs <> [] ->
             exists r,
               r ∈ rows logs
               /\ (forall r', r' ∈ rows logs -> LogRecord.id r' <= LogRecord.id r)
               /\ latest_cpu stats = LogRecord.cpu r
               /\ latest_memory stats = LogRecord.memory r
               /\ latest_disk stats = LogRecord.disk r
               /\ latest_ping_status stats = LogRecord.ping_status r
               /\ latest_ping_ms stats = LogRecord.ping_ms r).
Proof.
  eexists. split; [reflexivity|].
  apply get_statistics_latest_is_highest_id. reflexivity.
Defined.

(** ** When the accessors return *)

Lemma bind_params_Ok (cs : list sql_cond) :
  bind_params cs = Ok tt <-> forall n, cpu_ge n ∈ cs -> - 2 ^ 63 <= n < 2 ^ 63.
Proof.
  induction cs as [|c cs IH].
  - split; [|reflexivity]. intros _ n Hn. by apply elem_of_nil in Hn.
  - unfold bind_params. fold bind_params.
    destruct c as [p|lo hi|m]; simpl.
    + rewrite IH. split; intros Hcs n Hn; apply Hcs.
      * apply elem_of_cons in Hn as [Hn|Hn]; [discriminate|exact Hn].
      * by right.
    + rewrite IH. split; intros Hcs n Hn; apply Hcs.
      * apply elem_of_cons in Hn as [Hn|Hn]; [discriminate|exact Hn].
      * by right.
    + unfold bind_int.
      destruct ((- 2 ^ 63 <=? m) && (m <? 2 ^ 63)) eqn:Hm; simpl.
      * apply andb_true_iff in Hm as [Hlo Hhi].
        apply Z.leb_le in Hlo. apply Z.ltb_lt in Hhi.
        rewrite IH. split; intros Hcs n Hn.
        -- apply elem_of_cons in Hn as [[= ->]|Hn]; [lia|by apply Hcs].
        -- apply Hcs. by right.
      * split; [discriminate|]. intros Hcs.
        specialize (Hcs m (ltac:(by left))).
        apply andb_false_iff in Hm as [Hm|Hm];
          [apply Z.leb_gt in Hm | apply Z.ltb_ge in Hm]; lia.
Qed.

Lemma cpu_ge_conditions (ping_filter : option string)
    (date_filter : option (date * date)) (cpu_threshold : option Z) (n : Z) :
  cpu_ge n ∈ conditions ping_filter date_filter cpu_threshold
  <-> cpu_threshold = Some n.
Proof.
  rewrite conditions_app, !elem_of_app.
  assert (Hping : ~ cpu_ge n ∈
            match ping_filter with
            | Some p => if negb (String.eqb p "") && negb (String.eqb p "All")
                        then [] ++ [ping_status_eq p] else []
            | None => []
            end).
  { destruct ping_filter as [p|]; [|apply not_elem_of_nil].
    destruct (negb (String.eqb p "") && negb (String.eqb p "All"));
      [|apply not_elem_of_nil].
    simpl. rewrite list_elem_of_singleton. discriminate. }
  assert (Hdate : ~ cpu_ge n ∈
            match date_filter with
            | Some (start_date, end_date) =>
                [DATE_timestamp_between (strftime_Ymd start_date)
                                        (strftime_Ymd end_date)]
            | None => []
            end).
  { destruct date_filter as [[? ?]|]; [|apply not_elem_of_nil].
    rewrite list_elem_of_singleton. discriminate. }
  destruct cpu_threshold as [m|].
  - rewrite list_elem_of_singleton. split.
    + intros [?|[?|[= ->]]]; [done..|reflexivity].
    + intros [= ->]. auto.
  - split; [|discriminate]. intros [?|[?|Hnil]]; [done..|].
    by apply elem_of_nil in Hnil.
Qed.

(** When [get_system_logs] returns. *)
Lemma get_system_logs_Ok_iff (sql_DATE : string -> option string)
    (s : store) (ping_filter : option string)
    (date_filter : option (date * date)) (cpu_threshold : option Z) :
  (exists df,
     get_system_logs sql_DATE s ping_filter date_filter cpu_threshold = Ok df)
  <-> exists db table,
        s = Opened db /\ system_log db = Some table
        /\ (forall c,
              c ∈ map cond_column (conditions ping_filter date_filter cpu_threshold)
                  ++ ["id"] ->
              names_column table c)
        /\ (forall n, cpu_threshold = Some n -> - 2 ^ 63 <= n < 2 ^ 63).
Proof.
  unfold get_system_logs, select_system_log. split.
  - intros [df Hdf].
    destruct s as [| |db]; simpl in Hdf; [discriminate..|].
    destruct (system_log db) as [table|] eqn:Htable; simpl in Hdf; [|discriminate].
    destruct (sql_columns table _) as [[]|] eqn:Hcols; simpl in Hdf; [|discriminate].
    destruct (bind_params _) as [[]|] eqn:Hbind; simpl in Hdf; [|discriminate].
    exists db, table. split; [reflexivity|]. split; [exact Htable|].
    split; [by apply sql_columns_Ok_inv|].
    intros n Hn. apply (proj1 (bind_params_Ok _) Hbind). by apply cpu_ge_conditions.
  - intros (db & table & -> & Htable & Hcols & Hn). simpl. rewrite Htable. simpl.
    rewrite (proj2 (sql_columns_Ok_iff _ _) Hcols). simpl.
    rewrite (proj2 (bind_params_Ok _)); [simpl; eauto|].
    intros n Hin. apply Hn. by apply cpu_ge_conditions in Hin.
Qed.

(** X4. [get_system_logs] returns a frame exactly when the store opens and
    is a database, has the [system_log] table, the table has, under some
    spelling of their names, the [id] column and the column of each
    restriction present, and the threshold, when there is one, fits
    SQLite's 64-bit INTEGER; in every other case it raises.  The frame
    has the columns of the table, under the names the table declares. *)
Theorem get_system_logs_returns_iff (sql_DATE : string -> option string)
    (s : store) (ping_filter : option string)
    (date_filter : option (date * date)) (cpu_threshold : option Z) :
  ((exists df,
      get_system_logs sql_DATE s ping_filter date_filter cpu_threshold = Ok df)
   <-> exists db table,
         s = Opened db /\ system_log db = Some table
         /\ (forall c,
               c ∈ map cond_column (conditions ping_filter date_filter cpu_threshold)
                   ++ ["id"] ->
               names_column table c)
         /\ (forall n, cpu_threshold = Some n -> - 2 ^ 63 <= n < 2 ^ 63))
  /\ ((forall df,
         get_system_logs sql_DATE s ping_filter date_filter cpu_threshold <> Ok df)
      -> exists e,
           get_system_logs sql_DATE s ping_filter date_filter cpu_threshold = Raise e)
  /\ (forall df db table,
        get_system_logs sql_DATE s ping_filter date_filter cpu_threshold = Ok df ->
        s = Opened db -> system_log db = Some table ->
        columns df = columns table).
Proof.
  split; [apply get_system_logs_Ok_iff|]. split.
  - intros Hnot.
    destruct (get_system_logs sql_DATE s ping_filter date_filter cpu_threshold)
      as [df|e]; [by destruct (Hnot df)|eauto].
  - intros df db table Hget -> Htable.
    destruct (get_system_logs_Ok _ _ _ _ _ _ Hget) as (? & t & [= <-] & Ht & -> & _).
    congruence.
Qed.

Lemma get_system_logs_returns_iff_witness :
  (exists df, get_system_logs DATE_of_iso store_40_60_80 None None (Some 50) = Ok df)
  /\ ~ (exists df,
          get_system_logs DATE_of_iso store_40_60_80 None None (Some (2 ^ 63)) = Ok df).
Proof.
  split.
  - apply (proj1 (get_system_logs_returns_iff _ _ _ _ _)). eexists _, _.
    split; [reflexivity|]. split; [reflexivity|]. split.
    + intros c Hc. vm_compute in Hc. apply elem_of_names_column.
      repeat (apply elem_of_cons in Hc as [-> | Hc]); [..|by apply elem_of_nil in Hc];
        repeat constructor.
    + intros n [= <-]. lia.
  - intros Hdf.
    apply (proj1 (get_system_logs_returns_iff _ _ _ _ _)) in Hdf
      as (_ & _ & _ & _ & _ & Hn).
    specialize (Hn _ eq_refl). lia.
Defined.



(** ** Restrictions together *)






Lemma passes_filters_each (sql_DATE : string -> option string)
    (ping_filter : option string) (date_filter : option (date * date))
    (cpu_threshold : option Z) (r : LogRecord.t) :
  passes_filters sql_DATE ping_filter date_filter cpu_threshold r
  <-> passes_filters sql_DATE ping_filter None None r
      /\ passes_filters sql_DATE None date_filter None r
      /\ passes_filters sql_DATE None None cpu_threshold r.
Proof.
  unfold passes_filters. split.
  - intros (Hping & Hdate & Hcpu). repeat split; try done.
  - intros ((Hping & _) & (_ & Hdate & _) & (_ & _ & Hcpu)). done.
Qed.

Lemma elem_of_get_system_logs (sql_DATE : string -> option string) (s : store)
    (ping_filter : option string) (date_filter : option (date * date))
    (cpu_threshold : option Z) (df : DataFrame LogRecord.t) :
  get_system_logs sql_DATE s ping_filter date_filter cpu_threshold = Ok df ->
  exists db table,
    s = Opened db /\ system_log db = Some table
    /\ forall r, r ∈ rows df <->
         r ∈ rows table
         /\ passes_filters sql_DATE ping_filter date_filter cpu_threshold r.
Proof.
  intros Hget.
  destruct (get_system_logs_Ok _ _ _ _ _ _ Hget) as (db & t & -> & Ht & _ & ->).
  exists db, t. split; [reflexivity|]. split; [exact Ht|]. intros r.
  rewrite order_by_id_desc_Permutation, list_elem_of_filter, Is_true_true.
  rewrite where_holds_conditions. tauto.
Qed.

(** X7. Restrictions stack: when a call with several restrictions
    returns, the calls with each restriction alone return too, and a row
    is in the result of the first exactly when it is in the results of all
    three. *)
Theorem get_system_logs_restrictions_intersect
    (sql_DATE : string -> option string) (s : store)
    (ping_filter : option string) (date_filter : option (date * date))
    (cpu_threshold : option Z) (df : DataFrame LogRecord.t) :
  get_system_logs sql_DATE s ping_filter date_filter cpu_threshold = Ok df ->
  exists by_ping by_date by_cpu,
    get_system_logs sql_DATE s ping_filter None None = Ok by_ping
    /\ get_system_logs sql_DATE s None date_filter None = Ok by_date
    /\ get_system_logs sql_DATE s None None cpu_threshold = Ok by_cpu
    /\ (forall r, r ∈ rows df <->
          r ∈ rows by_ping /\ r ∈ rows by_date /\ r ∈ rows by_cpu).
Proof.
  intros Hget.
  destruct (proj1 (get_system_logs_Ok_iff _ _ _ _ _) (ex_intro _ df Hget))
    as (db & table & -> & Htable & Hcols & Hn).
  assert (Hsub : forall p d c,
            (forall x, x ∈ conditions p d c ->
                       x ∈ conditions ping_filter date_filter cpu_threshold) ->
            (forall n, c = Some n -> cpu_threshold = Some n) ->
            exists df', get_system_logs sql_DATE (Opened db) p d c = Ok df').
  { intros p d c Hin Hc. apply get_system_logs_Ok_iff.
    exists db, table. split; [reflexivity|]. split; [exact Htable|]. split.
    - intros col Hcol. apply Hcols. rewrite elem_of_app in *.
      destruct Hcol as [Hcol|Hcol]; [left|by right].
      apply list_elem_of_fmap in Hcol as (x & -> & Hx).
      apply list_elem_of_fmap. eauto.
    - intros n Hcn. apply Hn. by apply Hc. }
  destruct (Hsub ping_filter None None) as [by_ping Hping].
  { intros x. rewrite !conditions_app, !elem_of_app. simpl.
    rewrite elem_of_nil. tauto. }
  { discriminate. }
  destruct (Hsub None date_filter None) as [by_date Hdate].
  { intros x. rewrite !conditions_app, !elem_of_app. simpl.
    rewrite elem_of_nil. tauto. }
  { discriminate. }
  destruct (Hsub None None cpu_threshold) as [by_cpu Hcpu].
  { intros x. rewrite !conditions_app, !elem_of_app. simpl.
    rewrite elem_of_nil. tauto. }
  { done. }
  exists by_ping, by_date, by_cpu. repeat (split; [assumption|]).
  destruct (elem_of_get_system_logs _ _ _ _ _ _ Hget) as (? & ? & [= <-] & Ht & Hdf).
  destruct (elem_of_get_system_logs _ _ _ _ _ _ Hping) as (? & ? & [= <-] & Ht1 & H1).
  destruct (elem_of_get_system_logs _ _ _ _ _ _ Hdate) as (? & ? & [= <-] & Ht2 & H2).
  destruct (elem_of_get_system_logs _ _ _ _ _ _ Hcpu) as (? & ? & [= <-] & Ht3 & H3).
  rewrite Ht in Ht1, Ht2, Ht3.
  injection Ht1 as <-. injection Ht2 as <-. injection Ht3 as <-.
  intros r. rewrite Hdf, H1, H2, H3, (passes_filters_each _ ping_filter). tauto.
Qed.

Lemma get_system_logs_restrictions_intersect_witness :
  exists df by_ping by_date by_cpu,
    get_system_logs DATE_of_iso store_70_85_90 (Some "UP") None (Some 80) = Ok df
    /\ get_system_logs DATE_of_iso store_70_85_90 (Some "UP") None None = Ok by_ping
    /\ get_system_logs DATE_of_iso store_70_85_90 None None None = Ok by_date
    /\ get_system_logs DATE_of_iso store_70_85_90 None None (Some 80) = Ok by_cpu
    /\ (forall r, r ∈ rows df <->
          r ∈ rows by_ping /\ r ∈ rows by_date /\ r ∈ rows by_cpu).
Proof.
  eexists. 
  destruct (get_system_logs_restrictions_intersect DATE_of_iso store_70_85_90
              (Some "UP") None (Some 80) _ eq_refl)
    as (by_ping & by_date & by_cpu & Hping & Hdate & Hcpu & Hiff).
  exists by_ping, by_date, by_cpu. split; [reflexivity|]. auto.
Defined.

(** ** Formatting *)

Lemma fixed_digits_1 (n : Z) :
  exists d, fixed_digits 1 n = pretty (n / 10) +:+ "." +:+ String d ""
            /\ is_digit d = true.
Proof.
  unfold fixed_digits. change (10 ^ Z.of_nat 1) with 10.
  assert (Hcases : n mod 10 = 0 \/ n mod 10 = 1 \/ n mod 10 = 2 \/ n mod 10 = 3
                   \/ n mod 10 = 4 \/ n mod 10 = 5 \/ n mod 10 = 6
                   \/ n mod 10 = 7 \/ n mod 10 = 8 \/ n mod 10 = 9)
    by (pose proof (Z.mod_pos_bound n 10); lia).
  repeat (destruct Hcases as [-> | Hcases]); [..|rewrite Hcases];
    eexists; (split; [reflexivity|reflexivity]).
Qed.

Lemma round_half_even_nonneg (n d : Z) :
  0 <= n -> 0 < d -> 0 <= round_half_even n d.
Proof.
  intros Hn Hd. unfold round_half_even.
  assert (0 <= n / d) by (apply Z.div_pos; lia).
  destruct (2 * (n mod d) ?= d); [destruct (Z.even (n / d))|..]; lia.
Qed.

Lemma scaled_magnitude_nonneg (digits : nat) (m : positive) (e : Z) :
  0 <= scaled_magnitude digits m e.
Proof.
  unfold scaled_magnitude.
  assert (0 < 10 ^ Z.of_nat digits) by (apply Z.pow_pos_nonneg; lia).
  destruct (0 <=? e) eqn:He.
  - apply Z.leb_le in He. assert (0 < 2 ^ e) by (apply Z.pow_pos_nonneg; lia). nia.
  - apply Z.leb_gt in He. apply round_half_even_nonneg; [nia|].
    apply Z.pow_pos_nonneg; lia.
Qed.

(** [format(x, ".1f")] of a finite number is text with one decimal. *)
Lemma format_f_1_one_decimal (x : float) :
  finite x = true -> one_decimal (format_f 1 x).
Proof.
  unfold finite, format_f, one_decimal.
  destruct (Prim2SF x) as [s| s | |s m e]; try discriminate; intros _.
  - destruct (fixed_digits_1 0) as (d & -> & Hd).
    exists (if s then "-" else ""), (0 / 10), d.
    split; [reflexivity|]. split; [destruct s; auto|]. split; [reflexivity|exact Hd].
  - destruct (fixed_digits_1 (scaled_magnitude 1 m e)) as (d & -> & Hd).
    exists (if s then "-" else ""), (scaled_magnitude 1 m e / 10), d.
    split; [reflexivity|]. split; [destruct s; auto|]. split; [|exact Hd].
    apply Z.div_pos; [apply scaled_magnitude_nonneg | lia].
Qed.

(** ** Counting values *)

Lemma elem_of_unique (l : list string) (v : string) : v ∈ unique l <-> v ∈ l.
Proof. unfold unique. by rewrite elem_of_reverse, elem_of_remove_dups, elem_of_reverse. Qed.

Lemma NoDup_unique (l : list string) : NoDup (unique l).
Proof. unfold unique. rewrite reverse_Permutation. apply NoDup_remove_dups. Qed.

Lemma value_counts_Permutation (l : list string) :
  value_counts l ≡ₚ map (fun v => (v, count_of v l)) (unique l).
Proof. apply merge_sort_Permutation. Qed.

(** Each distinct value of the column has one entry, with the number of
    rows that hold it. *)
Lemma elem_of_value_counts (l : list string) (v : string) (n : Z) :
  (v, n) ∈ value_counts l <-> v ∈ l /\ n = count_of v l.
Proof.
  rewrite value_counts_Permutation. split.
  - intros (v' & [= -> ->] & Hv')%list_elem_of_fmap.
    split; [by apply elem_of_unique | reflexivity].
  - intros [Hv ->]. apply list_elem_of_fmap. exists v.
    split; [reflexivity | by apply elem_of_unique].
Qed.

Lemma value_counts_keys (l : list string) :
  map fst (value_counts l) ≡ₚ unique l.
Proof.
  rewrite (Permutation_map fst (value_counts_Permutation l)).
  rewrite map_map. simpl. by rewrite map_id.
Qed.

Lemma NoDup_value_counts (l : list string) : NoDup (map fst (value_counts l)).
Proof.
  eapply NoDup_Permutation_proper; [apply value_counts_keys | apply NoDup_unique].
Qed.

(** ** The render monad *)

Lemma render_bind_fst {A B} (m : render A) (k : A -> render B) :
  fst (render_bind m k)
  = fst m ++ match snd m with Ok a => fst (k a) | Raise _ => [] end.
Proof.
  destruct m as [out [a|e]]; simpl; [|by rewrite app_nil_r].
  by destruct (k a).
Qed.

Lemma render_bind_snd {A B} (m : render A) (k : A -> render B) :
  snd (render_bind m k)
  = match snd m with Ok a => snd (k a) | Raise e => Raise e end.
Proof. destruct m as [out [a|e]]; simpl; [|done]. by destruct (k a). Qed.

Lemma render_bind_Ok {A B} (out : list element) (a : A) (k : A -> render B) :
  render_bind (out, Ok a) k = (out ++ fst (k a), snd (k a)).
Proof. simpl. by destruct (k a). Qed.

Lemma render_bind_st {B} (e : element) (k : unit -> render B) :
  render_bind (st e) k = (e :: fst (k tt), snd (k tt)).
Proof. unfold st. by rewrite render_bind_Ok. Qed.

Lemma render_bind_call_Ok {A B} (a : A) (k : A -> render B) :
  render_bind (call (Ok a)) k = k a.
Proof. unfold call. rewrite render_bind_Ok. by destruct (k a). Qed.

Lemma render_bind_call_Raise {A B} (e : exn) (k : A -> render B) :
  render_bind (call (Raise e)) k = ([], Raise e).
Proof. reflexivity. Qed.

Lemma try_except_fst (body : render unit) (handler : exn -> render unit) :
  fst (try_except body handler)
  = fst body ++ match snd body with Ok _ => [] | Raise e => fst (handler e) end.
Proof.
  destruct body as [out [[]|e]]; simpl; [by rewrite app_nil_r|].
  by destruct (handler e).
Qed.

(** ** Frames *)

Lemma getitem_Ok {R} (df : DataFrame R) (cs : list string) :
  (forall c, c ∈ cs -> c ∈ columns df) -> getitem df cs = Ok tt.
Proof.
  intros Hcs. unfold getitem.
  replace (List.filter (fun c => negb (has_column df c)) cs) with (@nil string);
    [reflexivity|].
  symmetry. induction cs as [|c cs IH]; [reflexivity|].
  simpl. unfold has_column at 1.
  rewrite bool_decide_eq_true_2 by (apply Hcs; left). simpl.
  apply IH. intros c' Hc'. apply Hcs. by right.
Qed.

Lemma df_empty_false {R} (df : DataFrame R) :
  rows df <> [] -> columns df <> [] -> df_empty df = false.
Proof. unfold df_empty. by destruct (rows df), (columns df). Qed.

Lemma df_empty_false_inv {R} (df : DataFrame R) :
  df_empty df = false -> rows df <> [] /\ columns df <> [].
Proof. unfold df_empty. by destruct (rows df), (columns df). Qed.

Lemma head_n_nonneg {A} (n : Z) (l : list A) :
  0 <= n -> head_n n l = take (Z.to_nat n) l.
Proof. intros Hn. unfold head_n. by rewrite (Zle_imp_le_bool _ _ Hn). Qed.

(** A column holds a number when some row has one in it. *)
Lemma has_number_iff (f : LogRecord.t -> option float) (df : DataFrame LogRecord.t) :
  has_number f df = true <-> exists r, r ∈ rows df /\ is_Some (f r).
Proof.
  unfold has_number. rewrite existsb_exists. split.
  - intros (r & Hr & Hf). exists r. split; [by apply list_elem_of_In|].
    by destruct (f r); [eexists|].
  - intros (r & Hr & [x Hx]). exists r. split; [by apply list_elem_of_In|].
    by rewrite Hx.
Qed.

(** Sorting, and any other reordering of the rows, keeps the columns as
    they are. *)
Lemma has_number_Permutation (f : LogRecord.t -> option float)
    (df df' : DataFrame LogRecord.t) :
  rows df ≡ₚ rows df' -> has_number f df = has_number f df'.
Proof.
  intros Hperm. apply eq_true_iff_eq. rewrite !has_number_iff.
  by setoid_rewrite Hperm.
Qed.

Lemma cell_Permutation (f : LogRecord.t -> option float)
    (df df' : DataFrame LogRecord.t) (r : LogRecord.t) :
  rows df ≡ₚ rows df' -> cell f df r = cell f df' r.
Proof. intros Hperm. unfold cell. by rewrite (has_number_Permutation f df df'). Qed.

(** In a column that holds a number every cell is a float: the number of
    the table, or NaN for NULL.  A cell of the table that holds a number
    is shown as that number. *)
Lemma cell_float64 (f : LogRecord.t -> option float) (df : DataFrame LogRecord.t)
    (r : LogRecord.t) :
  has_number f df = true -> cell f df r = Some (number_or_nan (f r)).
Proof. unfold cell. by intros ->. Qed.

Lemma cell_None_column (f : LogRecord.t -> option float)
    (df : DataFrame LogRecord.t) (r : LogRecord.t) :
  has_number f df = false -> cell f df r = None.
Proof. unfold cell. by intros ->. Qed.

Lemma cell_number (f : LogRecord.t -> option float) (df : DataFrame LogRecord.t)
    (r : LogRecord.t) (x : float) :
  r ∈ rows df -> f r = Some x -> cell f df r = Some x.
Proof.
  intros Hr Hx. rewrite cell_float64; [by rewrite Hx|].
  apply has_number_iff. exists r. by rewrite Hx.
Qed.

Lemma float_gt_int_nan (n : Z) : float_gt_int PrimFloat.nan n = false.
Proof. reflexivity. Qed.

(** The mask [df[c] > 0] keeps the rows whose cell holds a positive
    number. *)
Lemma series_gt_int_cell (df : DataFrame LogRecord.t) (r : LogRecord.t) :
  r ∈ rows df ->
  series_gt_int (cell LogRecord.ping_ms df r) 0 = positive_ping r.
Proof.
  intros Hr. unfold positive_ping.
  destruct (LogRecord.ping_ms r) as [x|] eqn:Hx.
  - by rewrite (cell_number _ _ _ _ Hr Hx).
  - unfold cell. rewrite Hx. by destruct (has_number _ _).
Qed.

Lemma filter_ext_elem_of {A} (P Q : A -> Prop) `{forall x, Decision (P x)}
    `{forall x, Decision (Q x)} (l : list A) :
  (forall x, x ∈ l -> P x <-> Q x) -> filter P l = filter Q l.
Proof.
  induction l as [|a l IH]; intros HPQ; [reflexivity|].
  rewrite !filter_cons.
  assert (Ha : P a <-> Q a) by (apply HPQ; by left).
  assert (Hl : filter P l = filter Q l) by (apply IH; intros x Hx; apply HPQ; by right).
  destruct (decide (P a)), (decide (Q a)); try tauto; by rewrite Hl.
Qed.

(** The cells of the rows with a positive ping time are those numbers. *)
Lemma ping_cells (df : DataFrame LogRecord.t) :
  map (cell LogRecord.ping_ms df) (ping_rows (rows df))
  = map LogRecord.ping_ms (ping_rows (rows df)).
Proof.
  apply map_ext_in. intros r Hr%list_elem_of_In.
  apply list_elem_of_filter in Hr as [Hpos Hr].
  unfold positive_ping in Hpos.
  destruct (LogRecord.ping_ms r) as [x|] eqn:Hx; [|done].
  by apply cell_number.
Qed.

Lemma ping_mask (df : DataFrame LogRecord.t) :
  filter (fun r => series_gt_int (cell LogRecord.ping_ms df r) 0) (rows df)
  = ping_rows (rows df).
Proof.
  unfold ping_rows. apply filter_ext_elem_of. intros r Hr.
  by rewrite (series_gt_int_cell df r Hr).
Qed.

Lemma series_apply_Ok {A B} (f : A -> result B) (g : A -> B) (l : list A) :
  (forall x, x ∈ l -> f x = Ok (g x)) -> series_apply f l = Ok (map g l).
Proof.
  induction l as [|x l IH]; intros Hf; [reflexivity|].
  simpl. rewrite (Hf x) by (by left). simpl.
  rewrite IH by (intros y Hy; apply Hf; by right). reflexivity.
Qed.

Lemma series_apply_Raise {A B} (f : A -> result B) (e : exn) (l : list A) :
  l <> [] -> (forall x, x ∈ l -> f x = Raise e) -> series_apply f l = Raise e.
Proof.
  destruct l as [|x l]; [done|]. intros _ Hf. simpl.
  by rewrite (Hf x) by (by left).
Qed.

Lemma display_rows_map (shown : list LogRecord.t)
    (c m d p : LogRecord.t -> string) :
  display_rows shown (map c shown) (map m shown) (map d shown) (map p shown)
  = map (fun r => {| d_id := LogRecord.id r;
                     d_timestamp := LogRecord.timestamp r;
                     d_cpu := c r; d_memory := m r; d_disk := d r;
                     d_ping_status := LogRecord.ping_status r;
                     d_ping_ms := p r |}) shown.
Proof. induction shown as [|r shown IH]; [reflexivity|]. simpl. by rewrite IH. Qed.

Lemma percent_text_column (f : LogRecord.t -> option float)
    (df : DataFrame LogRecord.t) (shown : list LogRecord.t) :
  has_number f df = true ->
  series_apply percent_text (map (cell f df) shown)
  = Ok (map (fun r => format_f 1 (number_or_nan (f r)) +:+ "%") shown).
Proof.
  intros Hf. induction shown as [|r shown IH]; [reflexivity|].
  simpl. rewrite IH, (cell_float64 f df r Hf). reflexivity.
Qed.

Lemma ping_text_column (df : DataFrame LogRecord.t) (shown : list LogRecord.t) :
  has_number LogRecord.ping_ms df = true ->
  series_apply ping_text (map (cell LogRecord.ping_ms df) shown)
  = Ok (map (fun r => if float_gt_int (number_or_nan (LogRecord.ping_ms r)) 0
                      then format_f 1 (number_or_nan (LogRecord.ping_ms r)) +:+ "ms"
                      else "N/A") shown).
Proof.
  intros Hf. induction shown as [|r shown IH]; [reflexivity|].
  simpl. rewrite IH, (cell_float64 _ df r Hf). unfold ping_text. simpl.
  by destruct (float_gt_int _ _).
Qed.

(** The table of a frame whose four REAL columns each hold a number. *)
Lemma display_df_Ok (n : Z) (df : DataFrame LogRecord.t) :
  (forall c, c ∈ ["cpu"; "memory"; "disk"; "ping_ms"] -> c ∈ columns df) ->
  numbers_in_each_column df ->
  display_df n df
  = Ok {| columns := columns df; rows := map display_row (head_n n (rows df)) |}.
Proof.
  intros Hcs (Hcpu & Hmemory & Hdisk & Hping). unfold display_df.
  rewrite !getitem_Ok
    by (intros c Hc; apply list_elem_of_singleton in Hc as ->; apply Hcs;
        repeat constructor).
  rewrite !percent_text_column, ping_text_column by assumption.
  simpl. by rewrite display_rows_map.
Qed.

Lemma series_apply_length {A B} (f : A -> result B) (l : list A) (l' : list B) :
  series_apply f l = Ok l' -> length l' = length l.
Proof.
  revert l'. induction l as [|x l IH]; intros l'; simpl; [by intros [= <-]|].
  destruct (f x) as [y|]; simpl; [|discriminate].
  destruct (series_apply f l) as [ys|]; simpl; [|discriminate].
  intros [= <-]. simpl. by rewrite (IH ys).
Qed.

Lemma display_rows_length (shown : list LogRecord.t)
    (cpu memory disk ping_ms : list string) :
  length cpu = length shown -> length memory = length shown ->
  length disk = length shown -> length ping_ms = length shown ->
  length (display_rows shown cpu memory disk ping_ms) = length shown.
Proof.
  revert cpu memory disk ping_ms.
  induction shown as [|r shown IH]; intros [|c cpu] [|m memory] [|d disk] [|p ping_ms];
    simpl; intros H1 H2 H3 H4; try done.
  rewrite IH; [reflexivity|lia..].
Qed.

(** The table has the columns of the frame and one row for each row of
    its head. *)
Lemma display_df_shape (n : Z) (df : DataFrame LogRecord.t)
    (display : DataFrame DisplayRow) :
  display_df n df = Ok display ->
  columns display = columns df
  /\ length (rows display) = length (head_n n (rows df)).
Proof.
  unfold display_df.
  destruct (getitem df ["cpu"]) as [[]|]; simpl; [|discriminate].
  destruct (series_apply percent_text (map (cell LogRecord.cpu df) _))
    as [cpu|] eqn:Hcpu; simpl; [|discriminate].
  destruct (getitem df ["memory"]) as [[]|]; simpl; [|discriminate].
  destruct (series_apply percent_text (map (cell LogRecord.memory df) _))
    as [memory|] eqn:Hmemory; simpl; [|discriminate].
  destruct (getitem df ["disk"]) as [[]|]; simpl; [|discriminate].
  destruct (series_apply percent_text (map (cell LogRecord.disk df) _))
    as [disk|] eqn:Hdisk; simpl; [|discriminate].
  destruct (getitem df ["ping_ms"]) as [[]|]; simpl; [|discriminate].
  destruct (series_apply ping_text _) as [ping_ms|] eqn:Hping; simpl; [|discriminate].
  intros [= <-]. cbn [columns rows]. split; [reflexivity|].
  apply series_apply_length in Hcpu, Hmemory, Hdisk, Hping.
  rewrite length_map in Hcpu, Hmemory, Hdisk, Hping.
  by apply display_rows_length.
Qed.

(** Without a row to show nothing is formatted, so nothing raises. *)
Lemma display_df_nothing_shown (n : Z) (df : DataFrame LogRecord.t) :
  (forall c, c ∈ ["cpu"; "memory"; "disk"; "ping_ms"] -> c ∈ columns df) ->
  head_n n (rows df) = [] ->
  display_df n df = Ok {| columns := columns df; rows := [] |}.
Proof.
  intros Hcs Hnone. unfold display_df.
  rewrite !getitem_Ok
    by (intros c Hc; apply list_elem_of_singleton in Hc as ->; apply Hcs;
        repeat constructor).
  by rewrite Hnone.
Qed.

(** A REAL column that is NULL in every row of the frame makes the table
    raise as soon as there is a row to show. *)
Lemma display_df_None_column (n : Z) (df : DataFrame LogRecord.t) :
  (forall c, c ∈ ["cpu"; "memory"; "disk"; "ping_ms"] -> c ∈ columns df) ->
  head_n n (rows df) <> [] ->
  ~ numbers_in_each_column df ->
  exists what, display_df n df = Raise (TypeError what).
Proof.
  intros Hcs Hshown Hnot. unfold display_df.
  rewrite !getitem_Ok
    by (intros c Hc; apply list_elem_of_singleton in Hc as ->; apply Hcs;
        repeat constructor).
  assert (Hraise : forall f (g : option float -> result string) e,
            has_number f df = false ->
            g None = Raise e ->
            series_apply g (map (cell f df) (head_n n (rows df))) = Raise e).
  { intros f g e Hf Hg. apply series_apply_Raise.
    - by destruct (head_n n (rows df)).
    - intros x (r & -> & _)%list_elem_of_fmap. by rewrite cell_None_column. }
  destruct (has_number LogRecord.cpu df) eqn:Hcpu.
  2:{ rewrite (Hraise _ _ (TypeError format_of_None) Hcpu eq_refl). simpl. eauto. }
  rewrite (percent_text_column LogRecord.cpu df _ Hcpu).
  destruct (has_number LogRecord.memory df) eqn:Hmemory.
  2:{ simpl. rewrite (Hraise _ _ (TypeError format_of_None) Hmemory eq_refl).
      simpl. eauto. }
  rewrite (percent_text_column LogRecord.memory df _ Hmemory).
  destruct (has_number LogRecord.disk df) eqn:Hdisk.
  2:{ simpl. rewrite (Hraise _ _ (TypeError format_of_None) Hdisk eq_refl).
      simpl. eauto. }
  rewrite (percent_text_column LogRecord.disk df _ Hdisk).
  destruct (has_number LogRecord.ping_ms df) eqn:Hping.
  2:{ simpl. rewrite (Hraise _ _ (TypeError None_gt_int) Hping eq_refl).
      simpl. eauto. }
  by destruct Hnot.
Qed.

Lemma tables_app (l1 l2 : list element) :
  tables (l1 ++ l2) = tables l1 ++ tables l2.
Proof. apply omap_app. Qed.

Lemma line_charts_app (l1 l2 : list element) :
  line_charts (l1 ++ l2) = line_charts l1 ++ line_charts l2.
Proof. apply omap_app. Qed.

(** ** The page *)

Section DashboardFacts.

Variable str : exn -> string.
Variable to_datetime : list string -> result (list Timestamp).
Variables series_mean series_max series_min : list (option float) -> float.

Local Abbreviation page := (dashboard_page str to_datetime series_mean series_max series_min).
Local Abbreviation logs := (logs_section to_datetime series_mean series_max series_min).
Local Abbreviation charts := (charts_section to_datetime series_mean series_max series_min).
Local Abbreviation body := (load_and_show to_datetime series_mean series_max series_min).

(** The page is its head, what the [try] block has shown, and, when the
    block raised, the two elements of the [except] clause. *)
Lemma dashboard_page_elements (acc : Accessors) (ui : Widgets) :
  page acc ui
  = page_head ++ fst (body acc ui (date_filter_arg ui))
    ++ match snd (body acc ui (date_filter_arg ui)) with
       | Ok _ => []
       | Raise e => error_elements str e
       end.
Proof.
  unfold dashboard_page, dashboard_page_run.
  rewrite !render_bind_st. cbn [fst].
  rewrite try_except_fst. unfold page_head, date_filter_arg. simpl.
  do 4 f_equal.
Qed.

(** A usage metric on a number, and on [None]. *)
Lemma usage_metric_Some (label : string) (x : float) (threshold : Z) :
  usage_metric label (Some x) threshold
  = ([st_metric label (MStr (format_f 1 x +:+ "%"))
        (if float_gt_int x threshold
         then Some (format_f 1 (x - float_of_int threshold)%float +:+ "%")
         else None)], Ok tt).
Proof.
  unfold usage_metric, percent_text, delta_text. simpl.
  by destruct (float_gt_int x threshold).
Qed.

Lemma usage_metric_None (label : string) (threshold : Z) :
  usage_metric label None threshold = ([], Raise (TypeError format_of_None)).
Proof. reflexivity. Qed.

Lemma ping_metric_Some (x : float) :
  (ping_display <- call (ping_text (Some x));;
   st (st_metric "Ping Time" (MStr ping_display) None))
  = ([st_metric "Ping Time"
        (MStr (if float_gt_int x 0 then format_f 1 x +:+ "ms" else "N/A")) None],
     Ok tt).
Proof. unfold ping_text. simpl. by destruct (float_gt_int x 0). Qed.

(** The six metrics on statistics whose latest values are numbers. *)
Lemma status_metrics_numbers (stats : Statistics) (cpu memory disk ping_ms : float) :
  latest_cpu stats = Some cpu -> latest_memory stats = Some memory ->
  latest_disk stats = Some disk -> latest_ping_ms stats = Some ping_ms ->
  status_metrics stats
  = ([st_metric "CPU Usage" (MStr (format_f 1 cpu +:+ "%"))
        (if float_gt_int cpu 80
         then Some (format_f 1 (cpu - float_of_int 80)%float +:+ "%") else None);
      st_metric "Memory Usage" (MStr (format_f 1 memory +:+ "%"))
        (if float_gt_int memory 85
         then Some (format_f 1 (memory - float_of_int 85)%float +:+ "%") else None);
      st_metric "Disk Usage" (MStr (format_f 1 disk +:+ "%"))
        (if float_gt_int disk 90
         then Some (format_f 1 (disk - float_of_int 90)%float +:+ "%") else None);
      st_metric "Ping Status"
        (MStr ((if String.eqb (latest_ping_status stats) "UP" then "🟢" else "🔴")
               +:+ " " +:+ latest_ping_status stats)) None;
      st_metric "Ping Time"
        (MStr (if float_gt_int ping_ms 0 then format_f 1 ping_ms +:+ "ms" else "N/A"))
        None;
      st_metric "Alert Count" (MInt (threshold_violations stats))
        (Some (if 0 <? threshold_violations stats
               then str_int (threshold_violations stats) else "0"))], Ok tt).
Proof.
  intros Hcpu Hmemory Hdisk Hping. unfold status_metrics.
  rewrite Hcpu, Hmemory, Hdisk, Hping, !usage_metric_Some, ping_metric_Some.
  reflexivity.
Qed.

(** The status block goes through exactly when the four latest values are
    numbers; what it raises otherwise is a [TypeError]. *)
Lemma status_metrics_Ok_iff (stats : Statistics) :
  snd (status_metrics stats) = Ok tt <-> latest_numbers stats.
Proof.
  unfold latest_numbers. split.
  - unfold status_metrics.
    destruct (latest_cpu stats) as [cpu|]; [|discriminate].
    rewrite usage_metric_Some, render_bind_Ok. cbn [snd].
    destruct (latest_memory stats) as [memory|]; [|discriminate].
    rewrite usage_metric_Some, render_bind_Ok. cbn [snd].
    destruct (latest_disk stats) as [disk|]; [|discriminate].
    rewrite usage_metric_Some, render_bind_Ok. cbn [snd].
    rewrite render_bind_st. cbn [snd].
    destruct (latest_ping_ms stats) as [ping_ms|]; [|discriminate].
    intros _. repeat split; eauto.
  - intros ([cpu Hcpu] & [memory Hmemory] & [disk Hdisk] & [ping_ms Hping]).
    by rewrite (status_metrics_numbers stats cpu memory disk ping_ms).
Qed.

Lemma status_metrics_Raise (stats : Statistics) (e : exn) :
  snd (status_metrics stats) = Raise e -> exists what, e = TypeError what.
Proof.
  unfold status_metrics.
  destruct (latest_cpu stats) as [cpu|]; [|intros [= <-]; eauto].
  rewrite usage_metric_Some, render_bind_Ok. cbn [snd].
  destruct (latest_memory stats) as [memory|]; [|intros [= <-]; eauto].
  rewrite usage_metric_Some, render_bind_Ok. cbn [snd].
  destruct (latest_disk stats) as [disk|]; [|intros [= <-]; eauto].
  rewrite usage_metric_Some, render_bind_Ok. cbn [snd].
  rewrite render_bind_st. cbn [snd].
  destruct (latest_ping_ms stats) as [ping_ms|]; [|intros [= <-]; eauto].
  rewrite ping_metric_Some, render_bind_Ok. discriminate.
Qed.

(** When the six metrics go through, the last one shows the violation
    count. *)
Lemma status_metrics_run (stats : Statistics) :
  snd (status_metrics stats) = Ok tt ->
  exists shown,
    fst (status_metrics stats)
    = shown ++ [st_metric "Alert Count" (MInt (threshold_violations stats))
                  (Some (if 0 <? threshold_violations stats
                         then str_int (threshold_violations stats) else "0"))]
    /\ forallb (fun e => negb (is_data_view e)) shown = true
    /\ no_data_warning ∉ shown.
Proof.
  intros ([cpu Hcpu] & [memory Hmemory] & [disk Hdisk] & [ping_ms Hping])
    %status_metrics_Ok_iff.
  rewrite (status_metrics_numbers stats cpu memory disk ping_ms) by assumption.
  cbn [fst]. eexists [_; _; _; _; _]. split; [reflexivity|].
  split; [reflexivity|]. unfold no_data_warning.
  rewrite !not_elem_of_cons. repeat split; try discriminate. apply not_elem_of_nil.
Qed.

(** The [try] block once the statistics and the alerts are in, the status
    block has gone through and the alerts are shown: it goes on with the
    logs. *)
Lemma body_reaches_logs (acc : Accessors) (ui : Widgets) (stats : Statistics)
    (alerts_df : DataFrame AlertRecord.t) (alerts_shown : list element) :
  call_get_statistics acc = Ok stats ->
  snd (status_metrics stats) = Ok tt ->
  call_get_alerts_log acc = Ok alerts_df ->
  alerts_section stats alerts_df = (alerts_shown, Ok tt) ->
  body acc ui (date_filter_arg ui)
  = render_bind
      (before_logs stats alerts_shown, Ok tt)
      (fun _ =>
         render_bind
           (call (call_get_system_logs acc (ping_filter_arg ui) (date_filter_arg ui)
                    (cpu_threshold_arg ui)))
           (fun df => logs stats ui df)).
Proof.
  intros Hstats Hok Halerts Hshown. unfold load_and_show.
  rewrite Hstats, render_bind_call_Ok, render_bind_st.
  rewrite (surjective_pairing (status_metrics stats)), Hok, render_bind_Ok.
  cbn [fst snd].
  rewrite !render_bind_st, Halerts, render_bind_call_Ok, Hshown, render_bind_Ok.
  rewrite ?render_bind_st. cbn [fst snd].
  fold (ping_filter_arg ui). fold (cpu_threshold_arg ui).
  set (rest := render_bind (call _) _).
  rewrite render_bind_Ok. unfold before_logs.
  f_equal. rewrite <- !app_assoc. reflexivity.
Qed.

Lemma Forall_ne_not_elem_of {A} (x : A) (l : list A) :
  Forall (fun y => y <> x) l -> x ∉ l.
Proof. rewrite Forall_forall. intros Hl Hx. by apply (Hl x Hx). Qed.

(** Elements that satisfy a predicate: it is enough that each step's do. *)
Lemma Forall_render_bind {A B} (P : element -> Prop) (m : render A)
    (k : A -> render B) :
  Forall P (fst m) ->
  (forall a, snd m = Ok a -> Forall P (fst (k a))) ->
  Forall P (fst (render_bind m k)).
Proof.
  intros Hm Hk. rewrite render_bind_fst. apply Forall_app. split; [exact Hm|].
  destruct (snd m) as [a|e]; [by apply Hk | constructor].
Qed.

Lemma Forall_st (P : element -> Prop) (e : element) :
  P e -> Forall P (fst (st e)).
Proof. intros He. by repeat constructor. Qed.

Lemma Forall_call {A} (P : element -> Prop) (r : result A) :
  Forall P (fst (call r)).
Proof. constructor. Qed.

Lemma Forall_with_expander {A} (P : element -> Prop) (label : string)
    (m : render A) :
  P (st_expander label (fst m)) -> Forall P (fst (with_expander label m)).
Proof. destruct m as [out r]. intros HP. by repeat constructor. Qed.

(** The alerts section shows a metric and an expander, or the all-clear:
    no table, no chart, no warning of its own, no error. *)
Lemma alerts_section_elements (stats : Statistics)
    (alerts_df : DataFrame AlertRecord.t) :
  Forall not_a_view_nor_message (fst (alerts_section stats alerts_df)).
Proof.
  unfold alerts_section. destruct (negb (df_empty alerts_df)).
  - apply Forall_render_bind; [apply Forall_st; by repeat split|].
    intros _ _. apply Forall_with_expander. by repeat split.
  - apply Forall_st. by repeat split.
Qed.

Lemma status_metrics_elements (stats : Statistics) :
  Forall not_a_view_nor_message (fst (status_metrics stats)).
Proof.
  unfold status_metrics, usage_metric.
  repeat first [ apply Forall_render_bind; [|intros ? _]
               | apply Forall_call
               | apply Forall_st; by repeat split ].
Qed.

Lemma before_logs_elements (stats : Statistics)
    (alerts_df : DataFrame AlertRecord.t) :
  Forall not_a_view_nor_message
    (before_logs stats (fst (alerts_section stats alerts_df))).
Proof.
  unfold before_logs. rewrite !Forall_app.
  split; [by repeat constructor|].
  split; [apply status_metrics_elements|].
  split; [by repeat constructor|].
  split; [apply alerts_section_elements | by repeat constructor].
Qed.

Lemma page_head_elements : Forall not_a_view_nor_message page_head.
Proof. by repeat constructor. Qed.

(** The logs section on a frame without rows: the warning, and the early
    return. *)
Lemma logs_section_no_rows (stats : Statistics) (ui : Widgets)
    (df : DataFrame LogRecord.t) :
  rows df = [] -> logs stats ui df = ([no_data_warning], Ok tt).
Proof. intros Hrows. unfold logs_section, df_empty. by rewrite Hrows. Qed.

Ltac each_element :=
  repeat first
    [ apply Forall_render_bind; [|intros ? _]
    | apply Forall_st
    | apply Forall_call
    | match goal with |- context [if ?b then _ else _] => destruct b end ].

(** The charts and the logs section never show the no-data warning when
    they have rows to show. *)
Lemma charts_section_elements (df : DataFrame LogRecord.t) :
  Forall (fun e => e <> no_data_warning) (fst (charts df)).
Proof.
  unfold charts_section, resource_chart, latency_chart, summary_tables.
  each_element; discriminate.
Qed.

Lemma logs_section_with_rows (stats : Statistics) (ui : Widgets)
    (df : DataFrame LogRecord.t) :
  df_empty df = false ->
  Forall (fun e => e <> no_data_warning) (fst (logs stats ui df)).
Proof.
  intros Hdf. unfold logs_section. rewrite Hdf. cbn [negb].
  repeat first
    [ apply charts_section_elements
    | apply Forall_render_bind; [|intros ? _]
    | apply Forall_st; discriminate
    | apply Forall_call ].
Qed.

Lemma error_elements_not_warning (e : exn) :
  Forall (fun e => e <> no_data_warning) (error_elements str e).
Proof. by repeat constructor. Qed.

(** The page when the [try] block got as far as the logs. *)
Lemma page_reaches_logs (acc : Accessors) (ui : Widgets) (stats : Statistics)
    (alerts_df : DataFrame AlertRecord.t) (alerts_shown : list element) :
  call_get_statistics acc = Ok stats ->
  snd (status_metrics stats) = Ok tt ->
  call_get_alerts_log acc = Ok alerts_df ->
  alerts_section stats alerts_df = (alerts_shown, Ok tt) ->
  page acc ui
  = page_head ++ before_logs stats alerts_shown
    ++ match call_get_system_logs acc (ping_filter_arg ui) (date_filter_arg ui)
               (cpu_threshold_arg ui) with
       | Ok df =>
           fst (logs stats ui df)
           ++ match snd (logs stats ui df) with
              | Ok _ => []
              | Raise e => error_elements str e
              end
       | Raise e => error_elements str e
       end.
Proof.
  intros Hstats Hstatus Halerts Hshown.
  rewrite dashboard_page_elements.
  rewrite (body_reaches_logs acc ui stats alerts_df alerts_shown Hstats Hstatus
             Halerts Hshown).
  rewrite render_bind_Ok. cbn [fst snd].
  destruct (call_get_system_logs acc _ _ _) as [df|e].
  - rewrite render_bind_call_Ok. by rewrite <- !app_assoc.
  - rewrite render_bind_call_Raise. cbn [fst snd]. by rewrite app_nil_r.
Qed.

(** C2. When the frame the page gets for the current filters has no rows,
    the page shows, after the status and the alerts (once both blocks have
    gone through), the warning "No data available matching the current
    filters." and nothing more: no table, no chart, no summary, hence no
    aggregate over nothing.  The state can be told from the others: a page
    that has rows to show, and a page whose accessor raised, never show
    that warning, and the empty page shows no error. *)
Theorem empty_result_is_a_no_data_state (acc : Accessors) (ui : Widgets)
    (stats : Statistics) (alerts_df : DataFrame AlertRecord.t)
    (alerts_shown : list element) (df : DataFrame LogRecord.t) :
  call_get_statistics acc = Ok stats ->
  snd (status_metrics stats) = Ok tt ->
  call_get_alerts_log acc = Ok alerts_df ->
  alerts_section stats alerts_df = (alerts_shown, Ok tt) ->
  call_get_system_logs acc (ping_filter_arg ui) (date_filter_arg ui)
    (cpu_threshold_arg ui) = Ok df ->
  rows df = [] ->
  page acc ui = page_head ++ before_logs stats alerts_shown ++ [no_data_warning]
  /\ Forall (fun e => is_data_view e = false) (page acc ui)
  /\ Forall (fun e => forall s, e <> st_error s) (page acc ui)
  /\ (forall acc' df',
        call_get_statistics acc' = Ok stats ->
        call_get_alerts_log acc' = Ok alerts_df ->
        call_get_system_logs acc' (ping_filter_arg ui) (date_filter_arg ui)
          (cpu_threshold_arg ui) = Ok df' ->
        df_empty df' = false ->
        no_data_warning ∉ page acc' ui)
  /\ (forall acc' e,
        call_get_statistics acc' = Ok stats ->
        call_get_alerts_log acc' = Ok alerts_df ->
        call_get_system_logs acc' (ping_filter_arg ui) (date_filter_arg ui)
          (cpu_threshold_arg ui) = Raise e ->
        (no_data_warning ∉ page acc' ui)
        /\ st_error ("Error loading data: " +:+ str e) ∈ page acc' ui).
Proof.
  intros Hstats Hstatus Halerts Hshown Hlogs Hrows.
  pose proof (before_logs_elements stats alerts_df) as Hbefore.
  rewrite Hshown in Hbefore. cbn [fst] in Hbefore.
  pose proof page_head_elements as Hhead.
  assert (Hpage : page acc ui
                  = page_head ++ before_logs stats alerts_shown ++ [no_data_warning]).
  { rewrite (page_reaches_logs acc ui stats alerts_df alerts_shown) by assumption.
    rewrite Hlogs, (logs_section_no_rows stats ui df Hrows). cbn [fst snd].
    by rewrite app_nil_r. }
  split; [exact Hpage|]. rewrite Hpage.
  split; [|split; [|split]].
  - rewrite !Forall_app. split; [|split].
    + eapply Forall_impl; [exact Hhead|]. by intros e (? & _).
    + eapply Forall_impl; [exact Hbefore|]. by intros e (? & _).
    + by repeat constructor.
  - rewrite !Forall_app. split; [|split].
    + eapply Forall_impl; [exact Hhead|]. by intros e (_ & _ & ?).
    + eapply Forall_impl; [exact Hbefore|]. by intros e (_ & _ & ?).
    + by repeat constructor.
  - intros acc' df' Hstats' Halerts' Hlogs' Hdf'.
    rewrite (page_reaches_logs acc' ui stats alerts_df alerts_shown) by assumption.
    rewrite Hlogs'. apply Forall_ne_not_elem_of.
    rewrite !Forall_app. split; [|split; [|split]].
    + eapply Forall_impl; [exact Hhead|]. by intros e (_ & ? & _).
    + eapply Forall_impl; [exact Hbefore|]. by intros e (_ & ? & _).
    + by apply logs_section_with_rows.
    + destruct (snd (logs stats ui df')); [constructor|].
      apply error_elements_not_warning.
  - intros acc' e Hstats' Halerts' Hlogs'.
    rewrite (page_reaches_logs acc' ui stats alerts_df alerts_shown) by assumption.
    rewrite Hlogs'. split.
    + apply Forall_ne_not_elem_of.
      rewrite !Forall_app. split; [|split].
      * eapply Forall_impl; [exact Hhead|]. by intros ? (_ & ? & _).
      * eapply Forall_impl; [exact Hbefore|]. by intros ? (_ & ? & _).
      * apply error_elements_not_warning.
    + rewrite !elem_of_app. right. right. unfold error_elements. by left.
Qed.

(** The page when an accessor raises: what was shown so far, then the two
    elements of the [except] clause. *)
Lemma page_statistics_raise (acc : Accessors) (ui : Widgets) (e : exn) :
  call_get_statistics acc = Raise e ->
  page acc ui = page_head ++ error_elements str e.
Proof.
  intros Hstats. rewrite dashboard_page_elements. unfold load_and_show.
  by rewrite Hstats, render_bind_call_Raise.
Qed.

Lemma page_alerts_raise (acc : Accessors) (ui : Widgets) (stats : Statistics)
    (e : exn) :
  call_get_statistics acc = Ok stats ->
  snd (status_metrics stats) = Ok tt ->
  call_get_alerts_log acc = Raise e ->
  page acc ui
  = page_head
    ++ ([st_header "📈 Current System Status"] ++ fst (status_metrics stats)
        ++ [st_markdown "---"; st_header "🚨 Recent Alerts"])
    ++ error_elements str e.
Proof.
  intros Hstats Hok Halerts. rewrite dashboard_page_elements. unfold load_and_show.
  rewrite Hstats, render_bind_call_Ok, render_bind_st.
  rewrite (surjective_pairing (status_metrics stats)), Hok, render_bind_Ok.
  cbn [fst snd].
  rewrite !render_bind_st, Halerts, render_bind_call_Raise. cbn [fst snd].
  rewrite <- !app_assoc, <- !app_comm_cons, <- !app_assoc. reflexivity.
Qed.

Lemma page_logs_raise (acc : Accessors) (ui : Widgets) (stats : Statistics)
    (alerts_df : DataFrame AlertRecord.t) (alerts_shown : list element) (e : exn) :
  call_get_statistics acc = Ok stats ->
  snd (status_metrics stats) = Ok tt ->
  call_get_alerts_log acc = Ok alerts_df ->
  alerts_section stats alerts_df = (alerts_shown, Ok tt) ->
  call_get_system_logs acc (ping_filter_arg ui) (date_filter_arg ui)
    (cpu_threshold_arg ui) = Raise e ->
  page acc ui = page_head ++ before_logs stats alerts_shown ++ error_elements str e.
Proof.
  intros Hstats Hstatus Halerts Hshown Hlogs.
  rewrite (page_reaches_logs acc ui stats alerts_df alerts_shown) by assumption.
  by rewrite Hlogs.
Qed.

(** *** The sections of the page on a frame with rows *)

Lemma tables_nil_of_Forall (l : list element) :
  Forall (fun e => forall t, e <> st_dataframe t) l -> tables l = [].
Proof.
  induction 1 as [|e l He _ IH]; [reflexivity|].
  destruct e; try exact IH. by destruct (He t).
Qed.

Lemma line_charts_nil_of_Forall (l : list element) :
  Forall (fun e => forall d, e <> st_line_chart d) l -> line_charts l = [].
Proof.
  induction 1 as [|e l He _ IH]; [reflexivity|].
  destruct e; try exact IH. by destruct (He d).
Qed.

Lemma not_a_view_no_tables_no_charts (l : list element) :
  Forall not_a_view_nor_message l -> tables l = [] /\ line_charts l = [].
Proof.
  intros Hl. split.
  - apply tables_nil_of_Forall. eapply Forall_impl; [exact Hl|].
    intros e (He & _) t ->. discriminate.
  - apply line_charts_nil_of_Forall. eapply Forall_impl; [exact Hl|].
    intros e (He & _) d ->. discriminate.
Qed.

(** The resource chart: all rows of the sorted frame. *)
Lemma resource_chart_run (chart_df : DataFrame LogRecord.t)
    (timestamps : list Timestamp) :
  (forall c, c ∈ ["timestamp"; "cpu"; "memory"; "disk"] -> c ∈ columns chart_df) ->
  to_datetime (map LogRecord.timestamp (rows chart_df)) = Ok timestamps ->
  resource_chart to_datetime chart_df
  = ([st_subheader "System Resource Usage Over Time";
      st_line_chart {|
        chart_index := timestamps;
        chart_columns := [("CPU %", real_column LogRecord.cpu chart_df);
                          ("Memory %", real_column LogRecord.memory chart_df);
                          ("Disk %", real_column LogRecord.disk chart_df)] |};
      st_caption "🔴 CPU Threshold: 80%";
      st_caption "🟠 Memory Threshold: 85%";
      st_caption "🟡 Disk Threshold: 90%";
      st_markdown "---"], Ok tt).
Proof.
  intros Hcs Hts. unfold resource_chart.
  rewrite (getitem_Ok _ _ Hcs), render_bind_call_Ok, Hts, render_bind_call_Ok.
  reflexivity.
Qed.

(** The latency chart: the rows with a positive ping time, or the note
    that there is none. *)
Lemma latency_chart_run (chart_df : DataFrame LogRecord.t) :
  (forall c, c ∈ ["timestamp"; "ping_ms"] -> c ∈ columns chart_df) ->
  (ping_rows (rows chart_df) = [] ->
   latency_chart to_datetime chart_df
   = ([st_subheader "Network Ping Response Time";
       st_info "No successful ping data available for current filters."], Ok tt))
  /\ (forall timestamps,
        ping_rows (rows chart_df) <> [] ->
        to_datetime (map LogRecord.timestamp (ping_rows (rows chart_df)))
          = Ok timestamps ->
        latency_chart to_datetime chart_df
        = ([st_subheader "Network Ping Response Time";
            st_line_chart {|
              chart_index := timestamps;
              chart_columns :=
                [("Ping (ms)", map LogRecord.ping_ms (ping_rows (rows chart_df)))] |}],
           Ok tt)).
Proof.
  intros Hcs. unfold latency_chart. rewrite render_bind_st.
  rewrite getitem_Ok, render_bind_call_Ok
    by (intros c Hc; apply list_elem_of_singleton in Hc as ->; apply Hcs;
        repeat constructor).
  rewrite ping_mask. split.
  - intros Hnone. rewrite Hnone. reflexivity.
  - intros timestamps Hsome Hts.
    rewrite df_empty_false; cbn [columns rows negb].
    + rewrite getitem_Ok, render_bind_call_Ok by (intros c Hc; by apply Hcs).
      rewrite Hts, render_bind_call_Ok, ping_cells. reflexivity.
    + exact Hsome.
    + intros Hnil. specialize (Hcs "ping_ms"). rewrite Hnil in Hcs.
      eapply elem_of_nil, Hcs. repeat constructor.
Qed.

Lemma avg_stats_Ok (chart_df : DataFrame LogRecord.t) :
  (forall c, c ∈ ["cpu"; "memory"; "disk"] -> c ∈ columns chart_df) ->
  exists Average Max Min,
    avg_stats series_mean series_max series_min chart_df
    = Ok (avg_stats_table ["CPU"; "Memory"; "Disk"] Average Max Min).
Proof.
  intros Hcs. unfold avg_stats.
  rewrite !getitem_Ok
    by (intros c Hc; apply list_elem_of_singleton in Hc as ->; apply Hcs;
        repeat constructor).
  eexists _, _, _. reflexivity.
Qed.

Lemma ping_summary_Ok (chart_df : DataFrame LogRecord.t) :
  "ping_status" ∈ columns chart_df ->
  ping_summary chart_df
  = Ok (let ping_counts := value_counts (map LogRecord.ping_status (rows chart_df)) in
        ping_summary_table
          (map fst ping_counts) (map snd ping_counts)
          (map (fun count => percentage count (Z.of_nat (length (rows chart_df))))
               (map snd ping_counts))).
Proof.
  intros Hc. unfold ping_summary.
  rewrite getitem_Ok; [reflexivity|].
  by intros c ->%list_elem_of_singleton.
Qed.

(** The two summaries are the last things the page shows. *)
Lemma summary_tables_run (chart_df : DataFrame LogRecord.t) :
  (forall c, c ∈ ["cpu"; "memory"; "disk"; "ping_status"] -> c ∈ columns chart_df) ->
  exists avg summary,
    avg_stats series_mean series_max series_min chart_df = Ok avg
    /\ ping_summary chart_df = Ok summary
    /\ summary_tables series_mean series_max series_min chart_df
       = ([st_subheader "📊 Average Resource Usage"; st_dataframe avg;
           st_subheader "🌐 Ping Status Summary"; st_dataframe summary], Ok tt).
Proof.
  intros Hcs.
  destruct (avg_stats_Ok chart_df) as (Average & Max & Min & Havg).
  { intros c Hc. apply Hcs.
    repeat (apply elem_of_cons in Hc as [-> | Hc]); [..|by apply elem_of_nil in Hc];
      repeat constructor. }
  pose proof (ping_summary_Ok chart_df) as Hsum.
  eexists _, _. split; [exact Havg|]. split; [apply Hsum|].
  - apply Hcs. repeat constructor.
  - unfold summary_tables. rewrite render_bind_st, Havg, render_bind_call_Ok.
    rewrite !render_bind_st, Hsum, render_bind_call_Ok by (apply Hcs; repeat constructor).
    reflexivity.
Qed.

(** The logs section on a frame with rows: the count, the table, and the
    charts after them. *)
Lemma logs_section_shows_table (stats : Statistics) (ui : Widgets)
    (df : DataFrame LogRecord.t) (display : DataFrame DisplayRow) :
  df_empty df = false ->
  display_df (w_num_records ui) df = Ok display ->
  logs stats ui df
  = render_bind
      ([st_info ("Showing "
                 +:+ str_int (Z.min (w_num_records ui) (Z.of_nat (length (rows df))))
                 +:+ " of " +:+ str_int (Z.of_nat (length (rows df)))
                 +:+ " filtered records (Total: " +:+ str_int (log_count stats) +:+ ")");
        st_dataframe (display_table display);
        st_markdown "---";
        st_header "📊 Performance Charts"], Ok tt)
      (fun _ => charts df).
Proof.
  intros Hdf Hdisplay. unfold logs_section. rewrite Hdf. cbn [negb].
  rewrite render_bind_st, Hdisplay, render_bind_call_Ok.
  rewrite !render_bind_st, render_bind_Ok. reflexivity.
Qed.

(** The logs section when the table raises: the count line, then the
    exception. *)
Lemma logs_section_table_raises (stats : Statistics) (ui : Widgets)
    (df : DataFrame LogRecord.t) (e : exn) :
  df_empty df = false ->
  display_df (w_num_records ui) df = Raise e ->
  logs stats ui df
  = ([st_info ("Showing "
               +:+ str_int (Z.min (w_num_records ui) (Z.of_nat (length (rows df))))
               +:+ " of " +:+ str_int (Z.of_nat (length (rows df)))
               +:+ " filtered records (Total: " +:+ str_int (log_count stats) +:+ ")")],
     Raise e).
Proof.
  intros Hdf Hdisplay. unfold logs_section. rewrite Hdf. cbn [negb].
  by rewrite render_bind_st, Hdisplay, render_bind_call_Raise.
Qed.

(** The charts section on a frame with rows and an [id] column: the three
    blocks over the frame sorted by [id]. *)
Lemma charts_section_blocks (df : DataFrame LogRecord.t) :
  df_empty df = false ->
  "id" ∈ columns df ->
  charts df
  = (let chart_df := {| columns := columns df; rows := sort_values_id (rows df) |} in
     render_bind (resource_chart to_datetime chart_df) (fun _ =>
     render_bind (latency_chart to_datetime chart_df) (fun _ =>
     render_bind (st (st_markdown "---")) (fun _ =>
     summary_tables series_mean series_max series_min chart_df)))).
Proof.
  intros Hdf Hid. unfold charts_section.
  rewrite getitem_Ok, render_bind_call_Ok by (by intros c ->%list_elem_of_singleton).
  apply df_empty_false_inv in Hdf as [Hrows Hcols].
  rewrite df_empty_false; [reflexivity|..]; cbn [rows columns]; [|exact Hcols].
  intros Hnil. apply Hrows. apply Permutation_nil_r.
  rewrite <- Hnil. unfold sort_values_id. by rewrite merge_sort_Permutation.
Qed.

Lemma resource_chart_no_tables (chart_df : DataFrame LogRecord.t) :
  tables (fst (resource_chart to_datetime chart_df)) = [].
Proof.
  apply tables_nil_of_Forall. unfold resource_chart. each_element; discriminate.
Qed.

Lemma latency_chart_no_tables (chart_df : DataFrame LogRecord.t) :
  tables (fst (latency_chart to_datetime chart_df)) = [].
Proof.
  apply tables_nil_of_Forall. unfold latency_chart. each_element; discriminate.
Qed.

Lemma summary_tables_no_charts (chart_df : DataFrame LogRecord.t) :
  line_charts (fst (summary_tables series_mean series_max series_min chart_df)) = [].
Proof.
  apply line_charts_nil_of_Forall. unfold summary_tables. each_element; discriminate.
Qed.

Lemma float_eq_int_not_gt (x : float) (n : Z) :
  float_eq_int x n = true -> float_gt_int x n = false.
Proof.
  unfold float_eq_int, float_gt_int.
  by destruct (float_compare_int x n) as [[]|].
Qed.

(** C6. Once the status and the alerts are shown, and when each of the
    four REAL columns of the frame holds a number, the table of the page
    is made of the first N rows of the frame the accessor returned (N the
    "Records to Display" slider; the frame comes ordered by [id]
    descending from [get_system_logs]), row by row: cpu, memory and disk
    are written with one decimal and a "%"; the ping time is written with
    one decimal and "ms" when it is positive and is "N/A" when it is zero;
    [id], timestamp and ping status are kept.  A cell that is NULL reads
    "nan%", and "N/A" for the ping time. *)
Theorem formatted_table_is_head_of_rows (acc : Accessors) (ui : Widgets)
    (stats : Statistics) (alerts_df : DataFrame AlertRecord.t)
    (alerts_shown : list element) (df : DataFrame LogRecord.t) :
  call_get_statistics acc = Ok stats ->
  snd (status_metrics stats) = Ok tt ->
  call_get_alerts_log acc = Ok alerts_df ->
  alerts_section stats alerts_df = (alerts_shown, Ok tt) ->
  call_get_system_logs acc (ping_filter_arg ui) (date_filter_arg ui)
    (cpu_threshold_arg ui) = Ok df ->
  df_empty df = false ->
  (forall c, c ∈ ["cpu"; "memory"; "disk"; "ping_ms"] -> c ∈ columns df) ->
  numbers_in_each_column df ->
  0 <= w_num_records ui ->
  head (tables (page acc ui))
  = Some (display_table
            {| columns := columns df;
               rows := map display_row
                         (take (Z.to_nat (w_num_records ui)) (rows df)) |})
  /\ (forall i d,
        map display_row (take (Z.to_nat (w_num_records ui)) (rows df)) !! i = Some d
        <-> (i < Z.to_nat (w_num_records ui))%nat
            /\ exists r, rows df !! i = Some r /\ d = display_row r)
  /\ (forall r,
        d_id (display_row r) = LogRecord.id r
        /\ d_timestamp (display_row r) = LogRecord.timestamp r
        /\ d_ping_status (display_row r) = LogRecord.ping_status r
        /\ (forall x, LogRecord.cpu r = Some x ->
              d_cpu (display_row r) = format_f 1 x +:+ "%")
        /\ (forall x, LogRecord.memory r = Some x ->
              d_memory (display_row r) = format_f 1 x +:+ "%")
        /\ (forall x, LogRecord.disk r = Some x ->
              d_disk (display_row r) = format_f 1 x +:+ "%")
        /\ (forall x, LogRecord.ping_ms r = Some x -> float_gt_int x 0 = true ->
              d_ping_ms (display_row r) = format_f 1 x +:+ "ms")
        /\ (forall x, LogRecord.ping_ms r = Some x -> float_eq_int x 0 = true ->
              d_ping_ms (display_row r) = "N/A")
        /\ (LogRecord.cpu r = None -> d_cpu (display_row r) = "nan%")
        /\ (LogRecord.memory r = None -> d_memory (display_row r) = "nan%")
        /\ (LogRecord.disk r = None -> d_disk (display_row r) = "nan%")
        /\ (LogRecord.ping_ms r = None -> d_ping_ms (display_row r) = "N/A"))
  /\ (forall x, finite x = true -> one_decimal (format_f 1 x))
  /\ (forall sql_DATE s,
        call_get_system_logs acc = get_system_logs sql_DATE s ->
        StronglySorted log_id_desc (rows df)).
Proof.
  intros Hstats Hstatus Halerts Hshown Hlogs Hdf Hcs Hnumbers Hn.
  split; [|split; [|split; [|split]]].
  - rewrite (page_reaches_logs acc ui stats alerts_df alerts_shown) by assumption.
    rewrite Hlogs,
      (logs_section_shows_table stats ui df _ Hdf (display_df_Ok _ _ Hcs Hnumbers)),
      render_bind_Ok.
    cbn [fst snd]. rewrite !tables_app.
    destruct (not_a_view_no_tables_no_charts _ page_head_elements) as [-> _].
    pose proof (before_logs_elements stats alerts_df) as Hbefore.
    rewrite Hshown in Hbefore. cbn [fst] in Hbefore.
    destruct (not_a_view_no_tables_no_charts _ Hbefore) as [-> _].
    by rewrite (head_n_nonneg _ _ Hn).
  - intros i d. rewrite list_lookup_fmap, lookup_take.
    destruct (decide (i < Z.to_nat (w_num_records ui))%nat) as [Hi|Hi].
    + destruct (rows df !! i) as [r|]; simpl; split.
      * intros [= <-]. eauto.
      * by intros (_ & r' & [= <-] & ->).
      * discriminate.
      * by intros (_ & r' & ? & _).
    + simpl. split; [discriminate | by intros [? _]].
  - intros r. unfold display_row. cbn [d_id d_timestamp d_ping_status d_cpu
      d_memory d_disk d_ping_ms].
    repeat (split; [reflexivity|]).
    repeat (split; [by intros x ->|]).
    split; [intros x -> Hp; change (number_or_nan (Some x)) with x; by rewrite Hp|].
    split; [intros x -> Hz; change (number_or_nan (Some x)) with x;
            by rewrite (float_eq_int_not_gt _ _ Hz)|].
    repeat split; by intros ->.
  - apply format_f_1_one_decimal.
  - intros sql_DATE s Hacc. rewrite Hacc in Hlogs.
    destruct (get_system_logs_Ok _ _ _ _ _ _ Hlogs) as (db & t & _ & _ & _ & ->).
    apply order_by_id_desc_sorted.
Qed.

(** The columns of the frame sorted by [id] are those of the frame. *)
Lemma real_column_sorted (f : LogRecord.t -> option float)
    (df : DataFrame LogRecord.t) :
  real_column f {| columns := columns df; rows := sort_values_id (rows df) |}
  = map (cell f df) (sort_values_id (rows df)).
Proof.
  unfold real_column. cbn [rows]. apply map_ext. intros r.
  apply cell_Permutation. cbn [rows]. apply sort_values_id_Permutation.
Qed.

Lemma elem_of_ping_rows (l : list LogRecord.t) (r : LogRecord.t) :
  r ∈ ping_rows l
  <-> r ∈ l /\ exists x, LogRecord.ping_ms r = Some x /\ float_gt_int x 0 = true.
Proof.
  unfold ping_rows, positive_ping. rewrite list_elem_of_filter, Is_true_true.
  destruct (LogRecord.ping_ms r) as [x|]; split.
  - intros [? ?]. eauto.
  - by intros (? & ? & [= <-] & ?).
  - by intros [? ?].
  - by intros (? & ? & ? & ?).
Qed.

(** C7. On a page that got past the status, the alerts and the table, the
    charts are drawn from the frame of the filtered rows sorted again by
    [id], ascending.  The resource chart has one point per filtered row:
    its timestamp (parsed) with the cells of cpu, memory and disk, a
    number of the table as it is.  The latency chart has the timestamp and
    the ping time of exactly the rows whose ping time is positive; when
    there is no such row the page says so and draws no latency chart. *)
Theorem time_series_of_sorted_rows (acc : Accessors) (ui : Widgets)
    (stats : Statistics) (alerts_df : DataFrame AlertRecord.t)
    (alerts_shown : list element) (df : DataFrame LogRecord.t)
    (display : DataFrame DisplayRow) (timestamps : list Timestamp) :
  call_get_statistics acc = Ok stats ->
  snd (status_metrics stats) = Ok tt ->
  call_get_alerts_log acc = Ok alerts_df ->
  alerts_section stats alerts_df = (alerts_shown, Ok tt) ->
  call_get_system_logs acc (ping_filter_arg ui) (date_filter_arg ui)
    (cpu_threshold_arg ui) = Ok df ->
  df_empty df = false ->
  (forall c, c ∈ system_log_columns -> c ∈ columns df) ->
  display_df (w_num_records ui) df = Ok display ->
  to_datetime (map LogRecord.timestamp (sort_values_id (rows df))) = Ok timestamps ->
  let chart_rows := sort_values_id (rows df) in
  let resources := {|
    chart_index := timestamps;
    chart_columns := [("CPU %", map (cell LogRecord.cpu df) chart_rows);
                      ("Memory %", map (cell LogRecord.memory df) chart_rows);
                      ("Disk %", map (cell LogRecord.disk df) chart_rows)] |} in
  chart_rows ≡ₚ rows df
  /\ StronglySorted log_id_asc chart_rows
  /\ (NoDup (map LogRecord.id (rows df)) ->
      StronglySorted log_id_strictly_asc chart_rows)
  /\ (forall f r x, r ∈ rows df -> f r = Some x -> cell f df r = Some x)
  /\ (forall r, r ∈ ping_rows chart_rows <->
                r ∈ rows df
                /\ exists x, LogRecord.ping_ms r = Some x /\ float_gt_int x 0 = true)
  /\ StronglySorted log_id_asc (ping_rows chart_rows)
  /\ head (line_charts (page acc ui)) = Some resources
  /\ (ping_rows chart_rows = [] ->
      line_charts (page acc ui) = [resources]
      /\ st_info "No successful ping data available for current filters."
           ∈ page acc ui)
  /\ (forall ping_timestamps,
        ping_rows chart_rows <> [] ->
        to_datetime (map LogRecord.timestamp (ping_rows chart_rows))
          = Ok ping_timestamps ->
        line_charts (page acc ui)
        = [resources;
           {| chart_index := ping_timestamps;
              chart_columns :=
                [("Ping (ms)", map LogRecord.ping_ms (ping_rows chart_rows))] |}]).
Proof.
  intros Hstats Hstatus Halerts Hshown Hlogs Hdf Hcs Hdisplay Hts chart_rows resources.
  assert (Hid : "id" ∈ columns df) by (apply Hcs; repeat constructor).
  set (chart_df := {| columns := columns df; rows := chart_rows |}).
  assert (Hres : resource_chart to_datetime chart_df
                 = ([st_subheader "System Resource Usage Over Time";
                     st_line_chart resources;
                     st_caption "🔴 CPU Threshold: 80%";
                     st_caption "🟠 Memory Threshold: 85%";
                     st_caption "🟡 Disk Threshold: 90%";
                     st_markdown "---"], Ok tt)).
  { unfold resources. rewrite <- !real_column_sorted. fold chart_rows. fold chart_df.
    apply resource_chart_run; [|exact Hts].
    intros c Hc. apply Hcs.
    repeat (apply elem_of_cons in Hc as [-> | Hc]); [..|by apply elem_of_nil in Hc];
      repeat constructor. }
  destruct (latency_chart_run chart_df) as [Hnone Hsome].
  { intros c Hc. apply Hcs.
    repeat (apply elem_of_cons in Hc as [-> | Hc]); [..|by apply elem_of_nil in Hc];
      repeat constructor. }
  cbn [rows chart_df] in Hnone, Hsome.
  pose proof (before_logs_elements stats alerts_df) as Hbefore.
  rewrite Hshown in Hbefore. cbn [fst] in Hbefore.
  assert (Hpage : forall shown outcome,
            latency_chart to_datetime chart_df = (shown, outcome) ->
            line_charts (page acc ui) = resources :: line_charts shown
            /\ forall e, e ∈ shown -> e ∈ page acc ui).
  { intros shown outcome Hlat.
    rewrite (page_reaches_logs acc ui stats alerts_df alerts_shown) by assumption.
    rewrite Hlogs, (logs_section_shows_table stats ui df display Hdf Hdisplay),
      render_bind_Ok.
    rewrite (charts_section_blocks df Hdf Hid). cbv zeta. fold chart_rows. fold chart_df.
    rewrite Hres, render_bind_Ok, Hlat. cbn [fst snd]. split.
    - rewrite !line_charts_app.
      destruct (not_a_view_no_tables_no_charts _ page_head_elements) as [_ ->].
      destruct (not_a_view_no_tables_no_charts _ Hbefore) as [_ ->].
      rewrite render_bind_fst, render_bind_snd. cbn [fst snd].
      assert (Htail : forall (r : result unit),
                line_charts match r with
                            | Ok _ => []
                            | Raise e => error_elements str e
                            end = []) by (by intros []).
      destruct outcome as [[]|e]; rewrite !line_charts_app, ?Htail.
      + rewrite render_bind_st. cbn [fst].
        change (line_charts (st_markdown "---" :: ?l)) with (line_charts l).
        rewrite summary_tables_no_charts, !app_nil_r. reflexivity.
      + rewrite !app_nil_r. reflexivity.
    - intros e He. rewrite !elem_of_app. right. right. left. right. right.
      rewrite render_bind_fst. cbn [fst]. rewrite !elem_of_app. by left. }
  split; [apply sort_values_id_Permutation|].
  split; [apply sort_values_id_sorted|].
  split; [apply sort_values_id_strict|].
  split; [intros f r x; apply cell_number|].
  split.
  { intros r. unfold chart_rows.
    by rewrite elem_of_ping_rows, sort_values_id_Permutation. }
  split; [apply StronglySorted_filter, sort_values_id_sorted|].
  split; [|split].
  - destruct (latency_chart to_datetime chart_df) as [shown outcome] eqn:Hlat.
    destruct (Hpage shown outcome eq_refl) as [-> _]. reflexivity.
  - intros Hnil. destruct (Hpage _ _ (Hnone Hnil)) as [-> Hin].
    split; [reflexivity|]. apply Hin. right. by left.
  - intros ping_timestamps Hrows Hpts.
    destruct (Hpage _ _ (Hsome ping_timestamps Hrows Hpts)) as [-> _]. reflexivity.
Qed.

(** The tables of a page that went through: the rows, the averages, the
    ping summary. *)
Lemma page_tables (acc : Accessors) (ui : Widgets) (stats : Statistics)
    (alerts_df : DataFrame AlertRecord.t) (alerts_shown : list element)
    (df : DataFrame LogRecord.t) (display : DataFrame DisplayRow) :
  call_get_statistics acc = Ok stats ->
  snd (status_metrics stats) = Ok tt ->
  call_get_alerts_log acc = Ok alerts_df ->
  alerts_section stats alerts_df = (alerts_shown, Ok tt) ->
  call_get_system_logs acc (ping_filter_arg ui) (date_filter_arg ui)
    (cpu_threshold_arg ui) = Ok df ->
  df_empty df = false ->
  (forall c, c ∈ system_log_columns -> c ∈ columns df) ->
  display_df (w_num_records ui) df = Ok display ->
  let chart_df := {| columns := columns df; rows := sort_values_id (rows df) |} in
  snd (resource_chart to_datetime chart_df) = Ok tt ->
  snd (latency_chart to_datetime chart_df) = Ok tt ->
  exists avg summary,
    avg_stats series_mean series_max series_min chart_df = Ok avg
    /\ ping_summary chart_df = Ok summary
    /\ tables (page acc ui) = [display_table display; avg; summary].
Proof.
  intros Hstats Hstatus Halerts Hshown Hlogs Hdf Hcs Hdisplay chart_df Hres Hlat.
  assert (Hid : "id" ∈ columns df) by (apply Hcs; repeat constructor).
  destruct (summary_tables_run chart_df) as (avg & summary & Havg & Hsum & Hrun).
  { intros c Hc. apply Hcs.
    repeat (apply elem_of_cons in Hc as [-> | Hc]); [..|by apply elem_of_nil in Hc];
      repeat constructor. }
  exists avg, summary. split; [exact Havg|]. split; [exact Hsum|].
  pose proof (before_logs_elements stats alerts_df) as Hbefore.
  rewrite Hshown in Hbefore. cbn [fst] in Hbefore.
  rewrite (page_reaches_logs acc ui stats alerts_df alerts_shown) by assumption.
  rewrite Hlogs, (logs_section_shows_table stats ui df display Hdf Hdisplay),
    render_bind_Ok.
  rewrite (charts_section_blocks df Hdf Hid). cbv zeta. fold chart_df.
  rewrite (surjective_pairing (resource_chart to_datetime chart_df)), Hres.
  rewrite render_bind_Ok.
  rewrite (surjective_pairing (latency_chart to_datetime chart_df)), Hlat.
  rewrite render_bind_Ok, render_bind_st, Hrun. cbn [fst snd].
  rewrite !tables_app, resource_chart_no_tables, latency_chart_no_tables.
  destruct (not_a_view_no_tables_no_charts _ page_head_elements) as [-> _].
  destruct (not_a_view_no_tables_no_charts _ Hbefore) as [-> _].
  reflexivity.
Qed.

(** C8. The ping summary has one row for each distinct ping status of the
    filtered frame, with the number of its rows that hold it and that
    number as a percentage of the length of that frame, written with one
    decimal.  For the statuses UP, UP, DOWN it is UP 2 (66.7%) and DOWN 1
    (33.3%).  On a page that gets that far it is the last table, computed
    over the frame of the filtered rows, whatever the store holds
    besides. *)
Theorem ping_status_frequency_table :
  (forall chart_df : DataFrame LogRecord.t,
     "ping_status" ∈ columns chart_df ->
     let column := map LogRecord.ping_status (rows chart_df) in
     let total := Z.of_nat (length (rows chart_df)) in
     exists Status Count Percentage,
       ping_summary chart_df = Ok (ping_summary_table Status Count Percentage)
       /\ NoDup Status
       /\ (forall v, v ∈ Status <-> v ∈ column)
       /\ (forall i v,
             Status !! i = Some v ->
             Count !! i = Some (count_of v column)
             /\ Percentage !! i
                = Some (format_f 1 (float_of_int (count_of v column)
                                    / float_of_int total
                                    * float_of_int 100)%float +:+ "%")))
  /\ ping_summary logs_70_85_90
     = Ok (ping_summary_table ["UP"; "DOWN"] [2; 1] ["66.7%"; "33.3%"])
  /\ (forall acc ui stats alerts_df alerts_shown df display,
        call_get_statistics acc = Ok stats ->
        snd (status_metrics stats) = Ok tt ->
        call_get_alerts_log acc = Ok alerts_df ->
        alerts_section stats alerts_df = (alerts_shown, Ok tt) ->
        call_get_system_logs acc (ping_filter_arg ui) (date_filter_arg ui)
          (cpu_threshold_arg ui) = Ok df ->
        df_empty df = false ->
        (forall c, c ∈ system_log_columns -> c ∈ columns df) ->
        display_df (w_num_records ui) df = Ok display ->
        let chart_df :=
          {| columns := columns df; rows := sort_values_id (rows df) |} in
        snd (resource_chart to_datetime chart_df) = Ok tt ->
        snd (latency_chart to_datetime chart_df) = Ok tt ->
        exists summary,
          ping_summary chart_df = Ok summary
          /\ last (tables (page acc ui)) = Some summary
          /\ length (rows chart_df) = length (rows df)).
Proof.
  split; [|split].
  - intros chart_df Hc column total.
    eexists _, _, _. split; [by apply ping_summary_Ok|].
    fold column. fold total.
    split; [apply NoDup_value_counts|]. split.
    + intros v. split.
      * intros ([v' n] & -> & Hvn)%list_elem_of_fmap.
        by apply elem_of_value_counts in Hvn as [? _].
      * intros Hv. apply list_elem_of_fmap. exists (v, count_of v column).
        split; [reflexivity|]. by apply elem_of_value_counts.
    + intros i v Hi. rewrite !list_lookup_fmap in *.
      destruct (value_counts column !! i) as [[v' n]|] eqn:Hvc; [|discriminate].
      simpl in Hi. injection Hi as ->.
      assert (Hn : n = count_of v column).
      { apply (elem_of_value_counts column v n). apply list_elem_of_lookup. eauto. }
      subst n. simpl. split; reflexivity.
  - vm_compute. reflexivity.
  - intros acc ui stats alerts_df alerts_shown df display Hstats Hstatus Halerts
      Hshown Hlogs Hdf Hcs Hdisplay chart_df Hres Hlat.
    destruct (page_tables acc ui stats alerts_df alerts_shown df display)
      as (avg & summary & _ & Hsum & ->); try assumption.
    exists summary. split; [exact Hsum|]. split; [reflexivity|].
    cbn [rows chart_df]. apply Permutation_length, sort_values_id_Permutation.
Qed.

(** The status metrics are on every page whose statistics came in. *)
Lemma page_shows_status_metrics (acc : Accessors) (ui : Widgets)
    (stats : Statistics) (e : element) :
  call_get_statistics acc = Ok stats ->
  e ∈ fst (status_metrics stats) ->
  e ∈ page acc ui.
Proof.
  intros Hstats He. rewrite dashboard_page_elements. unfold load_and_show.
  rewrite Hstats, render_bind_call_Ok, render_bind_st. cbn [fst].
  rewrite render_bind_fst. rewrite !elem_of_app, elem_of_cons, elem_of_app. tauto.
Qed.

End DashboardFacts.

(** *** The page on the example stores *)

Ltac expected_columns :=
  let c := fresh "c" in
  let Hc := fresh "Hc" in
  intros c Hc;
  repeat (apply elem_of_cons in Hc as [-> | Hc]); [..|by apply elem_of_nil in Hc];
  repeat constructor.

(** A threshold above every sample: the page ends with the warning and
    shows neither table nor chart. *)
Lemma empty_result_is_a_no_data_state_witness :
  last (example_page (store_accessors DATE_of_iso store_40_60_80) ui_cpu_95)
    = Some no_data_warning
  /\ Forall (fun e => is_data_view e = false)
            (example_page (store_accessors DATE_of_iso store_40_60_80) ui_cpu_95).
Proof.
  edestruct (empty_result_is_a_no_data_state example_str example_to_datetime
               example_mean example_max example_min
               (store_accessors DATE_of_iso store_40_60_80) ui_cpu_95)
    as (Hpage & Hviews & _);
    [vm_compute; reflexivity | vm_compute; reflexivity | vm_compute; reflexivity
    | vm_compute; reflexivity | vm_compute; reflexivity | reflexivity |].
  split; [|exact Hviews].
  unfold example_page. rewrite Hpage, !app_assoc. apply last_snoc.
Defined.

(** The three samples, the latest first, as text. *)
Lemma formatted_table_is_head_of_rows_witness :
  head (tables (example_page (store_accessors DATE_of_iso store_70_85_90) ui_default))
  = Some (display_table {|
      columns := system_log_columns;
      rows := [
        {| d_id := 3; d_timestamp := "2024-11-03 10:00:00"; d_cpu := "90.0%";
           d_memory := "50.0%"; d_disk := "50.0%"; d_ping_status := "DOWN";
           d_ping_ms := "N/A" |};
        {| d_id := 2; d_timestamp := "2024-11-02 10:00:00"; d_cpu := "85.0%";
           d_memory := "50.0%"; d_disk := "50.0%"; d_ping_status := "UP";
           d_ping_ms := "20.0ms" |};
        {| d_id := 1; d_timestamp := "2024-11-01 10:00:00"; d_cpu := "70.0%";
           d_memory := "50.0%"; d_disk := "50.0%"; d_ping_status := "UP";
           d_ping_ms := "12.5ms" |}] |}).
Proof.
  edestruct (formatted_table_is_head_of_rows example_str example_to_datetime
               example_mean example_max example_min
               (store_accessors DATE_of_iso store_70_85_90) ui_default)
    as (Htable & _);
    [vm_compute; reflexivity | vm_compute; reflexivity | vm_compute; reflexivity
    | vm_compute; reflexivity | vm_compute; reflexivity | reflexivity
    | expected_columns | by repeat split | vm_compute; discriminate |].
  unfold example_page. rewrite Htable. vm_compute. reflexivity.
Defined.

(** The two charts of the three samples: all three rows by [id]
    ascending, and the two rows with a positive ping time. *)
Lemma time_series_of_sorted_rows_witness :
  line_charts (example_page (store_accessors DATE_of_iso store_70_85_90) ui_default)
  = [{| chart_index := [20241101100000; 20241102100000; 20241103100000];
        chart_columns := [("CPU %", [Some 70; Some 85; Some 90]%float);
                          ("Memory %", [Some 50; Some 50; Some 50]%float);
                          ("Disk %", [Some 50; Some 50; Some 50]%float)] |};
     {| chart_index := [20241101100000; 20241102100000];
        chart_columns := [("Ping (ms)", [Some 12.5; Some 20]%float)] |}].
Proof.
  edestruct (time_series_of_sorted_rows example_str example_to_datetime
               example_mean example_max example_min
               (store_accessors DATE_of_iso store_70_85_90) ui_default)
    as (_ & _ & _ & _ & _ & _ & _ & _ & Hcharts);
    [vm_compute; reflexivity | vm_compute; reflexivity | vm_compute; reflexivity
    | vm_compute; reflexivity | vm_compute; reflexivity | reflexivity
    | expected_columns | vm_compute; reflexivity | vm_compute; reflexivity |].
  unfold example_page. erewrite Hcharts; [vm_compute; reflexivity | | vm_compute; reflexivity].
  vm_compute. discriminate.
Defined.

(** The summary of the three samples is the last table of their page. *)
Lemma ping_status_frequency_table_witness :
  last (tables (example_page (store_accessors DATE_of_iso store_70_85_90) ui_default))
  = Some (ping_summary_table ["UP"; "DOWN"] [2; 1] ["66.7%"; "33.3%"]).
Proof.
  destruct (ping_status_frequency_table example_str example_to_datetime
              example_mean example_max example_min) as (_ & _ & Hpage).
  edestruct (Hpage (store_accessors DATE_of_iso store_70_85_90) ui_default)
    as (summary & Hsummary & Hlast & _);
    [vm_compute; reflexivity | vm_compute; reflexivity | vm_compute; reflexivity
    | vm_compute; reflexivity | vm_compute; reflexivity | reflexivity
    | expected_columns | vm_compute; reflexivity
    | vm_compute; reflexivity | vm_compute; reflexivity |].
  unfold example_page. rewrite Hlast. f_equal.
  vm_compute in Hsummary. by injection Hsummary as <-.
Defined.

(** ** The alert view *)

Lemma alerts_loop (alerts_df : DataFrame AlertRecord.t) (l : list AlertRecord.t) :
  (forall c, c ∈ ["alert_type"; "timestamp"; "message"] -> c ∈ columns alerts_df) ->
  for_each l (fun alert =>
    _ <- call (getitem alerts_df ["alert_type"]);;
    let alert_color := alert_color (AlertRecord.alert_type alert) in
    _ <- call (getitem alerts_df ["timestamp"]);;
    _ <- call (getitem alerts_df ["message"]);;
    st (st_warning (alert_color +:+ " **" +:+ AlertRecord.timestamp alert
                    +:+ "** - " +:+ AlertRecord.message alert)))
  = (map (fun alert =>
            st_warning (alert_color (AlertRecord.alert_type alert) +:+ " **"
                        +:+ AlertRecord.timestamp alert
                        +:+ "** - " +:+ AlertRecord.message alert)) l, Ok tt).
Proof.
  intros Hcs.
  match goal with |- for_each _ ?f = _ => set (body := f) end.
  induction l as [|a l IH]; [reflexivity|].
  change (for_each (a :: l) body) with (render_bind (body a) (fun _ => for_each l body)).
  rewrite IH. unfold body.
  rewrite !getitem_Ok
    by (intros c Hc; apply list_elem_of_singleton in Hc as ->; apply Hcs;
        repeat constructor).
  reflexivity.
Qed.

(** X3. With alerts to show, the page gives the total of the statistics
    and, in an expander, one warning for each of the first twenty alerts
    of the frame, each with the glyph of its type, its timestamp and its
    message; CPU, MEMORY, DISK and PING have four different glyphs and any
    other type has a fifth; without alerts the page gives the all-clear. *)
Theorem alert_view_latest_twenty (stats : Statistics)
    (alerts_df : DataFrame AlertRecord.t) :
  (forall c, c ∈ ["alert_type"; "timestamp"; "message"] -> c ∈ columns alerts_df) ->
  (rows alerts_df <> [] ->
   alerts_section stats alerts_df
   = ([st_metric "Total Alerts" (MInt (alert_count stats)) None;
       st_expander
         ("View Latest " +:+ str_int (Z.min 20 (Z.of_nat (length (rows alerts_df))))
          +:+ " Alerts")
         (map (fun alert =>
                 st_warning (alert_color (AlertRecord.alert_type alert) +:+ " **"
                             +:+ AlertRecord.timestamp alert
                             +:+ "** - " +:+ AlertRecord.message alert))
              (take 20 (rows alerts_df)))], Ok tt))
  /\ (rows alerts_df = [] ->
      alerts_section stats alerts_df
      = ([st_success "✅ No alerts triggered! All systems operating normally."],
         Ok tt))
  /\ map alert_color ["CPU"; "MEMORY"; "DISK"; "PING"] = ["🔴"; "🟠"; "🟡"; "🔵"]
  /\ (forall alert_type, alert_type ∉ ["CPU"; "MEMORY"; "DISK"; "PING"] ->
        alert_color alert_type = "⚪")
  /\ NoDup ["🔴"; "🟠"; "🟡"; "🔵"; "⚪"].
Proof.
  intros Hcs. split; [|split; [|split; [|split]]].
  - intros Hrows. unfold alerts_section.
    rewrite df_empty_false; [|exact Hrows|].
    2:{ intros Hnil. specialize (Hcs "message"). rewrite Hnil in Hcs.
        eapply elem_of_nil, Hcs. repeat constructor. }
    cbn [negb]. rewrite (alerts_loop alerts_df _ Hcs). reflexivity.
  - intros Hrows. unfold alerts_section, df_empty. by rewrite Hrows.
  - reflexivity.
  - intros t Ht. unfold alert_color, alert_colors.
    rewrite !not_elem_of_cons in Ht. destruct Ht as (? & ? & ? & ? & _).
    by rewrite !lookup_insert_ne, lookup_singleton_ne.
  - apply NoDup_ListNoDup. repeat constructor; cbn; intuition discriminate.
Qed.

(** The alert of the example store, as the page shows it. *)
Lemma alert_view_latest_twenty_witness :
  exists stats,
    get_statistics store_70_85_90 = Ok stats
    /\ alerts_section stats one_alert
       = ([st_metric "Total Alerts" (MInt 1) None;
           st_expander "View Latest 1 Alerts"
             [st_warning "🔴 **2024-11-03 10:00:00** - CPU usage 90.0% above 80%"]],
          Ok tt).
Proof.
  eexists. split; [reflexivity|].
  match goal with |- alerts_section ?stats _ = _ =>
    destruct (alert_view_latest_twenty stats one_alert) as (Hshown & _);
      [expected_columns|]
  end.
  rewrite Hshown; [vm_compute; reflexivity | discriminate].
Defined.

(** ** What the page says about what it shows *)

Section PageFacts.

Variable str : exn -> string.
Variable to_datetime : list string -> result (list Timestamp).
Variables series_mean series_max series_min : list (option float) -> float.

Local Abbreviation page := (dashboard_page str to_datetime series_mean series_max series_min).

(** X8. On a page that got past the status and the alerts and whose table
    was made, the line above the table tells the truth: "Showing k of n
    filtered records (Total: N)" stands on the page with k the number of
    rows of the table below it and n the number of rows of the filtered
    frame; k is at most n, and, when the statistics and the frame are read
    from the same store, n is at most N. *)
Theorem showing_line_counts_the_table (acc : Accessors) (ui : Widgets)
    (stats : Statistics) (alerts_df : DataFrame AlertRecord.t)
    (alerts_shown : list element) (df : DataFrame LogRecord.t)
    (display : DataFrame DisplayRow) :
  call_get_statistics acc = Ok stats ->
  snd (status_metrics stats) = Ok tt ->
  call_get_alerts_log acc = Ok alerts_df ->
  alerts_section stats alerts_df = (alerts_shown, Ok tt) ->
  call_get_system_logs acc (ping_filter_arg ui) (date_filter_arg ui)
    (cpu_threshold_arg ui) = Ok df ->
  df_empty df = false ->
  display_df (w_num_records ui) df = Ok display ->
  0 <= w_num_records ui ->
  head (tables (page acc ui)) = Some (display_table display)
  /\ columns display = columns df
  /\ st_info ("Showing " +:+ str_int (Z.of_nat (length (rows display)))
              +:+ " of " +:+ str_int (Z.of_nat (length (rows df)))
              +:+ " filtered records (Total: " +:+ str_int (log_count stats) +:+ ")")
       ∈ page acc ui
  /\ (length (rows display) <= length (rows df))%nat
  /\ (forall sql_DATE s,
        call_get_statistics acc = get_statistics s ->
        call_get_system_logs acc = get_system_logs sql_DATE s ->
        Z.of_nat (length (rows df)) <= log_count stats).
Proof.
  intros Hstats Hstatus Halerts Hshown Hlogs Hdf Hdisplay Hn.
  destruct (display_df_shape _ _ _ Hdisplay) as [Hcolumns Hlength].
  rewrite (head_n_nonneg _ _ Hn), length_take in Hlength.
  assert (Hpage : page acc ui
    = page_head ++ before_logs stats alerts_shown
      ++ fst (logs_section to_datetime series_mean series_max series_min stats ui df)
      ++ match snd (logs_section to_datetime series_mean series_max series_min
                      stats ui df) with
         | Ok _ => []
         | Raise e => error_elements str e
         end).
  { rewrite (page_reaches_logs _ _ _ _ _ acc ui stats alerts_df alerts_shown)
      by assumption.
    by rewrite Hlogs. }
  pose proof (before_logs_elements stats alerts_df) as Hbefore.
  rewrite Hshown in Hbefore. cbn [fst] in Hbefore.
  rewrite Hpage, (logs_section_shows_table _ _ _ _ stats ui df display Hdf Hdisplay).
  rewrite render_bind_fst. cbn [fst snd].
  split; [|split; [|split; [|split]]].
  - rewrite !tables_app.
    destruct (not_a_view_no_tables_no_charts _ page_head_elements) as [-> _].
    destruct (not_a_view_no_tables_no_charts _ Hbefore) as [-> _].
    reflexivity.
  - exact Hcolumns.
  - rewrite Hlength.
    replace (Z.of_nat (Nat.min (Z.to_nat (w_num_records ui)) (length (rows df))))
      with (Z.min (w_num_records ui) (Z.of_nat (length (rows df)))) by lia.
    rewrite !elem_of_app. right. right. left. left. by left.
  - rewrite Hlength. lia.
  - intros sql_DATE s Hacc_stats Hacc_logs.
    rewrite Hacc_stats in Hstats. rewrite Hacc_logs in Hlogs.
    destruct (get_system_logs_Ok _ _ _ _ _ _ Hlogs) as (db & t & -> & Ht & _ & ->).
    destruct (get_statistics_Ok _ _ Hstats)
      as (db' & logs' & _ & [= <-] & Ht' & _ & _ & -> & _).
    rewrite Ht in Ht'. injection Ht' as <-.
    rewrite order_by_id_desc_Permutation.
    pose proof (length_filter (fun r => where_holds sql_DATE
                  (conditions (ping_filter_arg ui) (date_filter_arg ui)
                     (cpu_threshold_arg ui)) r) (rows t)). lia.
Qed.

(** X10. A page that goes through shows three tables and no more: the
    formatted rows, the averages, and the ping summary.  The averages are
    pandas' mean, maximum and minimum of the cpu, memory and disk columns
    of the filtered frame, each written with two decimals. *)
Theorem page_shows_three_tables (acc : Accessors) (ui : Widgets)
    (stats : Statistics) (alerts_df : DataFrame AlertRecord.t)
    (alerts_shown : list element) (df : DataFrame LogRecord.t)
    (display : DataFrame DisplayRow) (timestamps : list Timestamp) :
  call_get_statistics acc = Ok stats ->
  snd (status_metrics stats) = Ok tt ->
  call_get_alerts_log acc = Ok alerts_df ->
  alerts_section stats alerts_df = (alerts_shown, Ok tt) ->
  call_get_system_logs acc (ping_filter_arg ui) (date_filter_arg ui)
    (cpu_threshold_arg ui) = Ok df ->
  df_empty df = false ->
  (forall c, c ∈ system_log_columns -> c ∈ columns df) ->
  display_df (w_num_records ui) df = Ok display ->
  let chart_rows := sort_values_id (rows df) in
  to_datetime (map LogRecord.timestamp chart_rows) = Ok timestamps ->
  (ping_rows chart_rows <> [] ->
   exists ping_timestamps,
     to_datetime (map LogRecord.timestamp (ping_rows chart_rows)) = Ok ping_timestamps) ->
  let cpu := map (cell LogRecord.cpu df) chart_rows in
  let memory := map (cell LogRecord.memory df) chart_rows in
  let disk := map (cell LogRecord.disk df) chart_rows in
  let ping_counts := value_counts (map LogRecord.ping_status chart_rows) in
  tables (page acc ui)
  = [display_table display;
     avg_stats_table ["CPU"; "Memory"; "Disk"]
       [format_f 2 (series_mean cpu); format_f 2 (series_mean memory);
        format_f 2 (series_mean disk)]
       [format_f 2 (series_max cpu); format_f 2 (series_max memory);
        format_f 2 (series_max disk)]
       [format_f 2 (series_min cpu); format_f 2 (series_min memory);
        format_f 2 (series_min disk)];
     ping_summary_table (map fst ping_counts) (map snd ping_counts)
       (map (fun count => percentage count (Z.of_nat (length chart_rows)))
            (map snd ping_counts))].
Proof.
  intros Hstats Hstatus Halerts Hshown Hlogs Hdf Hcs Hdisplay chart_rows Hts Hpts
    cpu memory disk ping_counts.
  set (chart_df := {| columns := columns df; rows := chart_rows |}).
  assert (Hres : snd (resource_chart to_datetime chart_df) = Ok tt).
  { erewrite resource_chart_run; [reflexivity| |exact Hts].
    intros c Hc. apply Hcs. revert c Hc. expected_columns. }
  assert (Hlat : snd (latency_chart to_datetime chart_df) = Ok tt).
  { destruct (latency_chart_run to_datetime chart_df) as [Hnone Hsome].
    { intros c Hc. apply Hcs. revert c Hc. expected_columns. }
    cbn [rows chart_df] in Hnone, Hsome.
    destruct (decide (ping_rows chart_rows = [])) as [Hnil|Hrows].
    - by rewrite (Hnone Hnil).
    - destruct (Hpts Hrows) as [pts Hpts']. by rewrite (Hsome pts Hrows Hpts'). }
  destruct (page_tables str to_datetime series_mean series_max series_min
              acc ui stats alerts_df alerts_shown df display)
    as (avg & summary & Havg & Hsum & ->); try assumption.
  fold chart_rows in Havg, Hsum. fold chart_df in Havg, Hsum.
  unfold avg_stats in Havg. unfold ping_summary in Hsum.
  rewrite !getitem_Ok in Havg
    by (intros c Hc; apply list_elem_of_singleton in Hc as ->; apply Hcs;
        repeat constructor).
  rewrite getitem_Ok in Hsum
    by (intros c Hc; apply list_elem_of_singleton in Hc as ->; apply Hcs;
        repeat constructor).
  unfold chart_df, chart_rows in Havg. rewrite !real_column_sorted in Havg.
  simpl in Havg, Hsum. injection Havg as <-. injection Hsum as <-. reflexivity.
Qed.

End PageFacts.


(** The three samples: three of three are shown. *)
Lemma showing_line_counts_the_table_witness :
  st_info "Showing 3 of 3 filtered records (Total: 3)"
    ∈ example_page (store_accessors DATE_of_iso store_70_85_90) ui_default.
Proof.
  edestruct (showing_line_counts_the_table example_str example_to_datetime
               example_mean example_max example_min
               (store_accessors DATE_of_iso store_70_85_90) ui_default)
    as (_ & _ & Hline & _);
    [vm_compute; reflexivity | vm_compute; reflexivity | vm_compute; reflexivity
    | vm_compute; reflexivity | vm_compute; reflexivity | reflexivity
    | vm_compute; reflexivity | vm_compute; discriminate |].
  exact Hline.
Defined.

(** The averages and the ping summary of the three samples. *)
Lemma page_shows_three_tables_witness :
  exists display,
    tables (example_page (store_accessors DATE_of_iso store_70_85_90) ui_default)
    = [display_table display;
       avg_stats_table ["CPU"; "Memory"; "Disk"]
         ["81.67"; "50.00"; "50.00"] ["90.00"; "50.00"; "50.00"]
         ["70.00"; "50.00"; "50.00"];
       ping_summary_table ["UP"; "DOWN"] [2; 1] ["66.7%"; "33.3%"]].
Proof.
  eexists. unfold example_page.
  rewrite (page_shows_three_tables example_str example_to_datetime
             example_mean example_max example_min
             (store_accessors DATE_of_iso store_70_85_90) ui_default
             {| log_count := 3; alert_count := 1; threshold_violations := 2;
                latest_cpu := Some 90%float; latest_memory := Some 50%float;
                latest_disk := Some 50%float;
                latest_ping_status := "DOWN"; latest_ping_ms := Some 0%float |}
             one_alert
             [st_metric "Total Alerts" (MInt 1) None;
              st_expander "View Latest 1 Alerts"
                [st_warning "🔴 **2024-11-03 10:00:00** - CPU usage 90.0% above 80%"]]
             {| columns := system_log_columns;
                rows := [log_row 3 "2024-11-03 10:00:00" 90 "DOWN" 0;
                         log_row 2 "2024-11-02 10:00:00" 85 "UP" 20;
                         log_row 1 "2024-11-01 10:00:00" 70 "UP" 12.5] |}
             {| columns := system_log_columns;
                rows := map display_row
                          [log_row 3 "2024-11-03 10:00:00" 90 "DOWN" 0;
                           log_row 2 "2024-11-02 10:00:00" 85 "UP" 20;
                           log_row 1 "2024-11-01 10:00:00" 70 "UP" 12.5] |}
             [20241101100000; 20241102100000; 20241103100000]).
  - reflexivity.
  - vm_compute; reflexivity.
  - vm_compute; reflexivity.
  - vm_compute; reflexivity.
  - vm_compute; reflexivity.
  - vm_compute; reflexivity.
  - reflexivity.
  - expected_columns.
  - vm_compute; reflexivity.
  - vm_compute; reflexivity.
  - intros _. eexists. vm_compute. reflexivity.
Defined.


(** ** A page without error *)





Section PageOutcomes.

Variable str : exn -> string.
Variable to_datetime : list string -> result (list Timestamp).
Variables series_mean series_max series_min : list (option float) -> float.

Local Abbreviation page := (dashboard_page str to_datetime series_mean series_max series_min).
Local Abbreviation body := (load_and_show to_datetime series_mean series_max series_min).
Local Abbreviation logs := (logs_section to_datetime series_mean series_max series_min).
Local Abbreviation charts := (charts_section to_datetime series_mean series_max series_min).




(** X19. Timestamps that do not parse cost the charts, not the table: a
    page that got past the status, the alerts and the table keeps the
    count line and the table of the filtered rows, then shows the error
    message in place of the charts and the summaries. *)
Theorem unparsable_timestamps_keep_the_table (acc : Accessors) (ui : Widgets)
    (stats : Statistics) (alerts_df : DataFrame AlertRecord.t)
    (alerts_shown : list element) (df : DataFrame LogRecord.t)
    (display : DataFrame DisplayRow) (e : exn) :
  call_get_statistics acc = Ok stats ->
  snd (status_metrics stats) = Ok tt ->
  call_get_alerts_log acc = Ok alerts_df ->
  alerts_section stats alerts_df = (alerts_shown, Ok tt) ->
  call_get_system_logs acc (ping_filter_arg ui) (date_filter_arg ui)
    (cpu_threshold_arg ui) = Ok df ->
  df_empty df = false ->
  (forall c, c ∈ system_log_columns -> c ∈ columns df) ->
  display_df (w_num_records ui) df = Ok display ->
  to_datetime (map LogRecord.timestamp (sort_values_id (rows df))) = Raise e ->
  page acc ui
  = page_head ++ before_logs stats alerts_shown
    ++ [st_info ("Showing "
                 +:+ str_int (Z.min (w_num_records ui) (Z.of_nat (length (rows df))))
                 +:+ " of " +:+ str_int (Z.of_nat (length (rows df)))
                 +:+ " filtered records (Total: " +:+ str_int (log_count stats) +:+ ")");
        st_dataframe (display_table display);
        st_markdown "---";
        st_header "📊 Performance Charts"]
    ++ error_elements str e
  /\ tables (page acc ui) = [display_table display]
  /\ line_charts (page acc ui) = [].
Proof.
  intros Hstats Hstatus Halerts Hshown Hlogs Hdf Hcs Hdisplay Hraise.
  assert (Hpage : page acc ui
    = page_head ++ before_logs stats alerts_shown
      ++ [st_info ("Showing "
                   +:+ str_int (Z.min (w_num_records ui) (Z.of_nat (length (rows df))))
                   +:+ " of " +:+ str_int (Z.of_nat (length (rows df)))
                   +:+ " filtered records (Total: " +:+ str_int (log_count stats)
                   +:+ ")");
          st_dataframe (display_table display); st_markdown "---";
          st_header "📊 Performance Charts"]
      ++ error_elements str e).
  { rewrite (page_reaches_logs _ _ _ _ _ acc ui stats alerts_df alerts_shown)
      by assumption.
    rewrite Hlogs.
    rewrite (logs_section_shows_table _ _ _ _ stats ui df display Hdf Hdisplay).
    rewrite (charts_section_blocks _ _ _ _ df Hdf) by (apply Hcs; repeat constructor).
    cbv zeta. unfold resource_chart at 1 2.
    rewrite getitem_Ok
      by (intros c Hc; apply Hcs;
          repeat (apply elem_of_cons in Hc as [-> | Hc]);
          [..|by apply elem_of_nil in Hc]; repeat constructor).
    cbn [rows]. rewrite Hraise. cbn. by rewrite <- !app_assoc. }
  split; [exact Hpage|].
  pose proof (before_logs_elements stats alerts_df) as Hbefore.
  rewrite Hshown in Hbefore. cbn [fst] in Hbefore.
  rewrite Hpage, !tables_app, !line_charts_app.
  destruct (not_a_view_no_tables_no_charts _ page_head_elements) as [-> ->].
  destruct (not_a_view_no_tables_no_charts _ Hbefore) as [-> ->].
  split; reflexivity.
Qed.

End PageOutcomes.



(** The page on the store whose timestamp does not parse. *)
Lemma unparsable_timestamps_keep_the_table_witness :
  line_charts (example_page (store_accessors DATE_of_iso store_bad_timestamp) ui_default)
    = []
  /\ exists table,
       tables (example_page (store_accessors DATE_of_iso store_bad_timestamp)
                 ui_default) = [table].
Proof.
  edestruct (unparsable_timestamps_keep_the_table example_str example_to_datetime
               example_mean example_max example_min
               (store_accessors DATE_of_iso store_bad_timestamp) ui_default)
    as (_ & Htables & Hcharts);
    [vm_compute; reflexivity | vm_compute; reflexivity | vm_compute; reflexivity
    | vm_compute; reflexivity | vm_compute; reflexivity | reflexivity
    | expected_columns | vm_compute; reflexivity | vm_compute; reflexivity |].
  split; [exact Hcharts|]. eexists. exact Htables.
Defined.

(** ** NULL cells and the spelling of columns *)

Section NullCells.

Variable str : exn -> string.
Variable to_datetime : list string -> result (list Timestamp).
Variables series_mean series_max series_min : list (option float) -> float.

Local Abbreviation page := (dashboard_page str to_datetime series_mean series_max series_min).

(** X20. A NULL among the cpu, memory, disk and ping time of the latest row
    blanks the dashboard: the page is its head, the header of the status
    block, the metrics that come before the NULL one and the error
    message; it shows no alert, no table and no chart, whatever the store
    holds besides. *)
Theorem null_latest_value_blanks_the_page (acc : Accessors) (ui : Widgets)
    (stats : Statistics) :
  call_get_statistics acc = Ok stats ->
  ~ latest_numbers stats ->
  exists what,
    snd (status_metrics stats) = Raise (TypeError what)
    /\ page acc ui
       = page_head ++ [st_header "📈 Current System Status"]
         ++ fst (status_metrics stats) ++ error_elements str (TypeError what)
    /\ (length (fst (status_metrics stats)) < 6)%nat
    /\ Forall (fun e => exists label value delta, e = st_metric label value delta)
              (fst (status_metrics stats))
    /\ tables (page acc ui) = [] /\ line_charts (page acc ui) = [].
Proof.
  intros Hstats Hnot.
  destruct (snd (status_metrics stats)) as [[]|e] eqn:Hsnd.
  { by apply status_metrics_Ok_iff in Hsnd. }
  destruct (status_metrics_Raise stats e Hsnd) as [what ->].
  exists what. split; [reflexivity|].
  assert (Hpage : page acc ui
                  = page_head ++ [st_header "📈 Current System Status"]
                    ++ fst (status_metrics stats)
                    ++ error_elements str (TypeError what)).
  { rewrite dashboard_page_elements. unfold load_and_show.
    rewrite Hstats, render_bind_call_Ok, render_bind_st.
    rewrite (surjective_pairing (status_metrics stats)), Hsnd. cbn [fst snd render_bind].
    reflexivity. }
  split; [exact Hpage|].
  assert (Hshown : (length (fst (status_metrics stats)) < 6)%nat
                   /\ Forall (fun e => exists label value delta,
                                         e = st_metric label value delta)
                             (fst (status_metrics stats))).
  { clear Hpage Hstats. revert Hsnd. unfold status_metrics.
    destruct (latest_cpu stats) as [cpu|];
      [|intros _; split; [cbn; lia|constructor]].
    rewrite usage_metric_Some, render_bind_Ok. cbn [fst snd].
    destruct (latest_memory stats) as [memory|];
      [|intros _; split; [cbn; lia|repeat constructor; eauto]].
    rewrite usage_metric_Some, render_bind_Ok. cbn [fst snd].
    destruct (latest_disk stats) as [disk|];
      [|intros _; split; [cbn; lia|repeat constructor; eauto]].
    rewrite usage_metric_Some, render_bind_Ok. cbn [fst snd].
    rewrite render_bind_st. cbn [fst snd].
    destruct (latest_ping_ms stats) as [ping_ms|];
      [|intros _; split; [cbn; lia|repeat constructor; eauto]].
    rewrite ping_metric_Some, render_bind_Ok. discriminate. }
  split; [apply Hshown|]. split; [apply Hshown|].
  rewrite Hpage, !tables_app, !line_charts_app.
  destruct (not_a_view_no_tables_no_charts _ page_head_elements) as [-> ->].
  destruct (not_a_view_no_tables_no_charts _ (status_metrics_elements stats))
    as [-> ->].
  split; reflexivity.
Qed.

(** X21. A REAL column that is NULL in every row of the filtered frame
    costs the table and all that follows: with a row to show, the page
    got past the status and the alerts shows the count line and then the
    error message of a [TypeError], no table and no chart. *)
Theorem null_column_costs_the_table (acc : Accessors) (ui : Widgets)
    (stats : Statistics) (alerts_df : DataFrame AlertRecord.t)
    (alerts_shown : list element) (df : DataFrame LogRecord.t) :
  call_get_statistics acc = Ok stats ->
  snd (status_metrics stats) = Ok tt ->
  call_get_alerts_log acc = Ok alerts_df ->
  alerts_section stats alerts_df = (alerts_shown, Ok tt) ->
  call_get_system_logs acc (ping_filter_arg ui) (date_filter_arg ui)
    (cpu_threshold_arg ui) = Ok df ->
  df_empty df = false ->
  (forall c, c ∈ ["cpu"; "memory"; "disk"; "ping_ms"] -> c ∈ columns df) ->
  0 < w_num_records ui ->
  ~ numbers_in_each_column df ->
  exists what,
    page acc ui
    = page_head ++ before_logs stats alerts_shown
      ++ [st_info ("Showing "
                   +:+ str_int (Z.min (w_num_records ui) (Z.of_nat (length (rows df))))
                   +:+ " of " +:+ str_int (Z.of_nat (length (rows df)))
                   +:+ " filtered records (Total: " +:+ str_int (log_count stats)
                   +:+ ")")]
      ++ error_elements str (TypeError what)
    /\ tables (page acc ui) = [] /\ line_charts (page acc ui) = [].
Proof.
  intros Hstats Hstatus Halerts Hshown Hlogs Hdf Hcs Hn Hnot.
  destruct (display_df_None_column (w_num_records ui) df Hcs) as [what Hraise];
    [|exact Hnot|].
  { rewrite head_n_nonneg by lia. apply df_empty_false_inv in Hdf as [Hrows _].
    destruct (rows df) as [|r l]; [done|].
    destruct (Z.to_nat (w_num_records ui)) as [|k] eqn:Hk; [lia|]. done. }
  exists what.
  assert (Hpage : page acc ui
    = page_head ++ before_logs stats alerts_shown
      ++ [st_info ("Showing "
                   +:+ str_int (Z.min (w_num_records ui) (Z.of_nat (length (rows df))))
                   +:+ " of " +:+ str_int (Z.of_nat (length (rows df)))
                   +:+ " filtered records (Total: " +:+ str_int (log_count stats)
                   +:+ ")")]
      ++ error_elements str (TypeError what)).
  { rewrite (page_reaches_logs _ _ _ _ _ acc ui stats alerts_df alerts_shown)
      by assumption.
    by rewrite Hlogs, (logs_section_table_raises _ _ _ _ stats ui df _ Hdf Hraise). }
  split; [exact Hpage|].
  pose proof (before_logs_elements stats alerts_df) as Hbefore.
  rewrite Hshown in Hbefore. cbn [fst] in Hbefore.
  rewrite Hpage, !tables_app, !line_charts_app.
  destruct (not_a_view_no_tables_no_charts _ page_head_elements) as [-> ->].
  destruct (not_a_view_no_tables_no_charts _ Hbefore) as [-> ->].
  split; reflexivity.
Qed.

(** X22. The page reads the columns of the frame by their exact names: on
    a frame that has rows and lacks [cpu] under that spelling, whatever
    else it holds, the page shows the count line and then the error
    message of the [KeyError], no table and no chart. *)
Theorem column_spelling_matters_to_the_page (acc : Accessors) (ui : Widgets)
    (stats : Statistics) (alerts_df : DataFrame AlertRecord.t)
    (alerts_shown : list element) (df : DataFrame LogRecord.t) :
  call_get_statistics acc = Ok stats ->
  snd (status_metrics stats) = Ok tt ->
  call_get_alerts_log acc = Ok alerts_df ->
  alerts_section stats alerts_df = (alerts_shown, Ok tt) ->
  call_get_system_logs acc (ping_filter_arg ui) (date_filter_arg ui)
    (cpu_threshold_arg ui) = Ok df ->
  df_empty df = false ->
  "cpu" ∉ columns df ->
  page acc ui
  = page_head ++ before_logs stats alerts_shown
    ++ [st_info ("Showing "
                 +:+ str_int (Z.min (w_num_records ui) (Z.of_nat (length (rows df))))
                 +:+ " of " +:+ str_int (Z.of_nat (length (rows df)))
                 +:+ " filtered records (Total: " +:+ str_int (log_count stats) +:+ ")")]
    ++ error_elements str (KeyError ["cpu"])
  /\ tables (page acc ui) = [] /\ line_charts (page acc ui) = [].
Proof.
  intros Hstats Hstatus Halerts Hshown Hlogs Hdf Hnot.
  assert (Hraise : display_df (w_num_records ui) df = Raise (KeyError ["cpu"])).
  { assert (Hcpu : getitem df ["cpu"] = Raise (KeyError ["cpu"])).
    { unfold getitem, has_column. cbn [List.filter].
      by rewrite (bool_decide_eq_false_2 _ Hnot). }
    unfold display_df. by rewrite Hcpu. }
  assert (Hpage : page acc ui
    = page_head ++ before_logs stats alerts_shown
      ++ [st_info ("Showing "
                   +:+ str_int (Z.min (w_num_records ui) (Z.of_nat (length (rows df))))
                   +:+ " of " +:+ str_int (Z.of_nat (length (rows df)))
                   +:+ " filtered records (Total: " +:+ str_int (log_count stats)
                   +:+ ")")]
      ++ error_elements str (KeyError ["cpu"])).
  { rewrite (page_reaches_logs _ _ _ _ _ acc ui stats alerts_df alerts_shown)
      by assumption.
    by rewrite Hlogs, (logs_section_table_raises _ _ _ _ stats ui df _ Hdf Hraise). }
  split; [exact Hpage|].
  pose proof (before_logs_elements stats alerts_df) as Hbefore.
  rewrite Hshown in Hbefore. cbn [fst] in Hbefore.
  rewrite Hpage, !tables_app, !line_charts_app.
  destruct (not_a_view_no_tables_no_charts _ page_head_elements) as [-> ->].
  destruct (not_a_view_no_tables_no_charts _ Hbefore) as [-> ->].
  split; reflexivity.
Qed.

End NullCells.

(** The page on the store whose latest reading has no ping time: the
    status block stops before "Ping Time". *)
Lemma null_latest_value_blanks_the_page_witness :
  example_page (store_accessors DATE_of_iso store_null_latest_ping) ui_default
  = page_head
    ++ [st_header "📈 Current System Status";
        st_metric "CPU Usage" (MStr "85.0%") (Some "5.0%");
        st_metric "Memory Usage" (MStr "50.0%") None;
        st_metric "Disk Usage" (MStr "50.0%") None;
        st_metric "Ping Status" (MStr "🔴 DOWN") None;
        st_error "Error loading data: '>' not supported between instances of 'NoneType' and 'int'";
        st_info "Make sure 'log.db' exists in the same directory. Run your logger script first."].
Proof.
  edestruct (null_latest_value_blanks_the_page example_str example_to_datetime
               example_mean example_max example_min
               (store_accessors DATE_of_iso store_null_latest_ping) ui_default)
    as (what & Hraise & Hpage & _);
    [vm_compute; reflexivity | |].
  - intros (_ & _ & _ & [x Hx]). discriminate.
  - unfold example_page. rewrite Hpage. vm_compute in Hraise.
    injection Hraise as <-. vm_compute. reflexivity.
Defined.

(** The readings with ping status DOWN of a store whose failed ping has no
    time: the only row of the frame has NULL for its ping time. *)
Lemma null_column_costs_the_table_witness :
  tables (example_page (store_accessors DATE_of_iso store_null_older_ping)
            ui_ping_down) = []
  /\ st_info "Showing 1 of 1 filtered records (Total: 2)"
       ∈ example_page (store_accessors DATE_of_iso store_null_older_ping) ui_ping_down.
Proof.
  edestruct (null_column_costs_the_table example_str example_to_datetime
               example_mean example_max example_min
               (store_accessors DATE_of_iso store_null_older_ping) ui_ping_down)
    as (what & Hpage & Htables & _);
    [vm_compute; reflexivity | vm_compute; reflexivity | vm_compute; reflexivity
    | vm_compute; reflexivity | vm_compute; reflexivity | reflexivity
    | expected_columns | reflexivity | |].
  - intros (_ & _ & _ & Hping). vm_compute in Hping. discriminate.
  - split; [exact Htables|]. unfold example_page. rewrite Hpage.
    rewrite !elem_of_app. right. right. left. by left.
Defined.

(** The schema declared in capitals: the accessor returns the three
    samples, and the page stops at the table. *)
Lemma column_spelling_matters_to_the_page_witness :
  (exists df,
     get_system_logs DATE_of_iso store_capitals None None None = Ok df
     /\ length (rows df) = 3%nat)
  /\ tables (example_page (store_accessors DATE_of_iso store_capitals) ui_default) = []
  /\ st_error "Error loading data: [cpu] not in index"
       ∈ example_page (store_accessors DATE_of_iso store_capitals) ui_default.
Proof.
  split; [eexists; split; vm_compute; reflexivity|].
  edestruct (column_spelling_matters_to_the_page example_str example_to_datetime
               example_mean example_max example_min
               (store_accessors DATE_of_iso store_capitals) ui_default)
    as (Hpage & Htables & _);
    [vm_compute; reflexivity | vm_compute; reflexivity | vm_compute; reflexivity
    | vm_compute; reflexivity | vm_compute; reflexivity | reflexivity | |].
  - cbn. rewrite !not_elem_of_cons. repeat split; try discriminate.
    apply not_elem_of_nil.
  - split; [exact Htables|]. unfold example_page. rewrite Hpage.
    rewrite !elem_of_app. right. right. right. by left.
Defined.

(** ** The violation count *)

Lemma sql_gt_above (cell : option float) (limit : Z) :
  sql_gt cell limit = true <-> above cell limit.
Proof.
  unfold sql_gt, above. destruct cell as [x|]; split.
  - eauto.
  - by intros (? & [= <-] & ?).
  - discriminate.
  - by intros (? & ? & _).
Qed.

#[global] Instance above_dec cell limit : Decision (above cell limit).
Proof.
  refine (cast_if (decide (sql_gt cell limit = true)));
    abstract (by rewrite <- sql_gt_above).
Defined.

Lemma violates_iff (r : LogRecord.t) :
  violates r <->
  above (LogRecord.cpu r) 80 \/ above (LogRecord.memory r) 85
  \/ above (LogRecord.disk r) 90.
Proof.
  unfold violates. rewrite Is_true_true, !orb_true_iff, !sql_gt_above. tauto.
Qed.

(** C5. The violation count of the statistics is the number of rows of the
    whole [system_log] table with cpu above 80, memory above 85 or disk
    above 90.  [get_statistics] takes no filter, and the page shows this
    count, once the status block has gone through, whatever the filter
    bar is set to.  For samples with cpu 70, 85 and 90 (memory and disk at
    50) the count is 2. *)
Theorem threshold_violations_counts_all_rows :
  (forall (s : store) (stats : Statistics),
     get_statistics s = Ok stats ->
     exists db logs,
       s = Opened db /\ system_log db = Some logs
       /\ threshold_violations stats
          = Z.of_nat (length (filter
              (fun r => above (LogRecord.cpu r) 80 \/ above (LogRecord.memory r) 85
                        \/ above (LogRecord.disk r) 90)
              (rows logs)))
       /\ forall sql_DATE str to_datetime series_mean series_max series_min ui,
            snd (status_metrics stats) = Ok tt ->
            st_metric "Alert Count" (MInt (threshold_violations stats))
              (Some (if 0 <? threshold_violations stats
                     then str_int (threshold_violations stats) else "0"))
            ∈ dashboard_page str to_datetime series_mean series_max series_min
                (store_accessors sql_DATE s) ui)
  /\ threshold_violations <$> get_statistics store_70_85_90 = Ok 2.
Proof.
  split; [|reflexivity].
  intros s stats Hstats.
  destruct (get_statistics_Ok s stats Hstats)
    as (db & logs & alerts & -> & Hlogs & _ & _ & _ & _ & Hcount).
  exists db, logs. split; [reflexivity|]. split; [exact Hlogs|]. split.
  - rewrite Hcount. do 2 f_equal. apply list_filter_iff, violates_iff.
  - intros sql_DATE str to_datetime series_mean series_max series_min ui Hstatus.
    apply (page_shows_status_metrics _ _ _ _ _ _ _ stats); [exact Hstats|].
    destruct (status_metrics_run stats Hstatus) as (shown & -> & _).
    apply elem_of_app. right. by left.
Qed.

Lemma threshold_violations_counts_all_rows_witness :
  exists db logs,
    store_70_85_90 = Opened db /\ system_log db = Some logs
    /\ 2 = Z.of_nat (length (filter
             (fun r => above (LogRecord.cpu r) 80 \/ above (LogRecord.memory r) 85
                       \/ above (LogRecord.disk r) 90)
             (rows logs))).
Proof.
  destruct (proj1 threshold_violations_counts_all_rows store_70_85_90
              {| log_count := 3; alert_count := 1; threshold_violations := 2;
                 latest_cpu := Some 90%float; latest_memory := Some 50%float;
                 latest_disk := Some 50%float;
                 latest_ping_status := "DOWN"; latest_ping_ms := Some 0%float |}
              eq_refl)
    as (db & logs & Hs & Hlogs & Hcount & _).
  exists db, logs. auto.
Defined.

(** ** Failures of the store *)

Lemma sql_columns_Raise {R} (t : DataFrame R) (cs : list string) (c : string) :
  c ∈ cs -> ~ names_column t c -> exists e, sql_columns t cs = Raise e.
Proof.
  intros Hc Hnot. destruct (sql_columns t cs) as [[]|e] eqn:Hcs; [|eauto].
  destruct Hnot. by apply (sql_columns_Ok_inv t cs).
Qed.

Lemma get_alerts_log_returns (db : database) (table : DataFrame AlertRecord.t) :
  alerts_log db = Some table ->
  names_column table "id" ->
  exists df, get_alerts_log (Opened db) = Ok df /\ columns df = columns table.
Proof.
  intros Htable Hid. unfold get_alerts_log. simpl. rewrite Htable. simpl.
  rewrite (proj2 (sql_columns_Ok_iff table ["id"])); [simpl; eauto|].
  by intros c ->%list_elem_of_singleton.
Qed.

(** [dashboard_page] returns, whatever its [try] block does. *)
Lemma dashboard_page_returns (str : exn -> string)
    (to_datetime : list string -> result (list Timestamp))
    (series_mean series_max series_min : list (option float) -> float)
    (acc : Accessors) (ui : Widgets) :
  snd (dashboard_page_run str to_datetime series_mean series_max series_min acc ui)
  = Ok tt.
Proof.
  unfold dashboard_page_run. rewrite !render_bind_st. cbn [snd].
  unfold try_except.
  by destruct (load_and_show _ _ _ _ _ _ _) as [out [[]|e]].
Qed.

(** C9, as the code has it. An accessor raises when the store cannot be
    opened or is not a database, when the table it reads is missing, and
    when a column its statement names is missing under every spelling
    ([id], and for [get_system_logs] the columns of the restrictions
    present); it returns whenever the table has the columns its statement
    names, whatever other column is missing.  Whatever is raised inside
    the [try] block of [dashboard_page] is caught: the page keeps what it
    has shown, adds the error message and the hint to run the logger, and
    returns.  On a store that cannot be opened, is not a database or lacks
    a table the page is its head and these two messages, and the sidebar
    says that the database is not connected. *)
Theorem store_failure_is_caught_and_shown
    (sql_DATE : string -> option string) (str : exn -> string)
    (to_datetime : list string -> result (list Timestamp))
    (series_mean series_max series_min : list (option float) -> float)
    (ui : Widgets) :
  let page := dashboard_page str to_datetime series_mean series_max series_min in
  (forall ping_filter date_filter cpu_threshold,
     get_system_logs sql_DATE Unopenable ping_filter date_filter cpu_threshold
     = Raise (OperationalError unable_to_open))
  /\ get_alerts_log Unopenable = Raise (OperationalError unable_to_open)
  /\ (forall ping_filter date_filter cpu_threshold,
        exists query,
          get_system_logs sql_DATE NotADatabase ping_filter date_filter cpu_threshold
          = Raise (DatabaseError query sqlite3_DatabaseError))
  /\ (exists query,
        get_alerts_log NotADatabase = Raise (DatabaseError query sqlite3_DatabaseError))
  /\ (forall db ping_filter date_filter cpu_threshold,
        system_log db = None ->
        exists query,
          get_system_logs sql_DATE (Opened db) ping_filter date_filter cpu_threshold
          = Raise (DatabaseError query (OperationalError (no_such_table "system_log"))))
  /\ (forall db,
        alerts_log db = None ->
        exists query,
          get_alerts_log (Opened db)
          = Raise (DatabaseError query (OperationalError (no_such_table "alerts_log"))))
  /\ (forall db table ping_filter date_filter cpu_threshold c,
        system_log db = Some table ->
        c ∈ map cond_column (conditions ping_filter date_filter cpu_threshold) ++ ["id"] ->
        ~ names_column table c ->
        exists e,
          get_system_logs sql_DATE (Opened db) ping_filter date_filter cpu_threshold
          = Raise e)
  /\ (forall db table,
        alerts_log db = Some table ->
        ~ names_column table "id" ->
        exists e, get_alerts_log (Opened db) = Raise e)
  /\ (forall db table ping_filter date_filter cpu_threshold,
        system_log db = Some table ->
        (forall c,
           c ∈ map cond_column (conditions ping_filter date_filter cpu_threshold)
               ++ ["id"] ->
           names_column table c) ->
        (forall n, cpu_threshold = Some n -> - 2 ^ 63 <= n < 2 ^ 63) ->
        exists df,
          get_system_logs sql_DATE (Opened db) ping_filter date_filter cpu_threshold
          = Ok df
          /\ columns df = columns table)
  /\ (forall db table,
        alerts_log db = Some table ->
        names_column table "id" ->
        exists df, get_alerts_log (Opened db) = Ok df /\ columns df = columns table)
  /\ (forall acc e,
        call_get_statistics acc = Raise e ->
        page acc ui = page_head ++ error_elements str e)
  /\ (forall acc stats e,
        call_get_statistics acc = Ok stats ->
        snd (status_metrics stats) = Ok tt ->
        call_get_alerts_log acc = Raise e ->
        page acc ui
        = page_head
          ++ ([st_header "📈 Current System Status"] ++ fst (status_metrics stats)
              ++ [st_markdown "---"; st_header "🚨 Recent Alerts"])
          ++ error_elements str e)
  /\ (forall acc stats alerts_df alerts_shown e,
        call_get_statistics acc = Ok stats ->
        snd (status_metrics stats) = Ok tt ->
        call_get_alerts_log acc = Ok alerts_df ->
        alerts_section stats alerts_df = (alerts_shown, Ok tt) ->
        call_get_system_logs acc (ping_filter_arg ui) (date_filter_arg ui)
          (cpu_threshold_arg ui) = Raise e ->
        page acc ui
        = page_head ++ before_logs stats alerts_shown ++ error_elements str e)
  /\ (forall acc e,
        snd (load_and_show to_datetime series_mean series_max series_min acc ui
               (date_filter_arg ui)) = Raise e ->
        page acc ui
        = page_head
          ++ fst (load_and_show to_datetime series_mean series_max series_min acc ui
                    (date_filter_arg ui))
          ++ error_elements str e)
  /\ (forall acc,
        snd (dashboard_page_run str to_datetime series_mean series_max series_min
               acc ui) = Ok tt)
  /\ (forall s,
        s = Unopenable \/ s = NotADatabase
        \/ (exists db, s = Opened db /\ (system_log db = None \/ alerts_log db = None)) ->
        exists e, page (store_accessors sql_DATE s) ui
                  = page_head ++ error_elements str e)
  /\ (forall acc e,
        call_get_statistics acc = Raise e ->
        sidebar_database acc
        = [st_header "💾 Database"; st_warning "Database not connected"]).
Proof.
  intros page.
  split; [reflexivity|]. split; [reflexivity|].
  split; [intros; eexists; reflexivity|]. split; [eexists; reflexivity|].
  split; [|split; [|split; [|split; [|split; [|split; [|split; [|split; [|split;
    [|split; [|split; [|split]]]]]]]]]]].
  - intros db ping_filter date_filter cpu_threshold Hnone.
    unfold get_system_logs, select_system_log. simpl. rewrite Hnone. simpl. eauto.
  - intros db Hnone. unfold get_alerts_log. simpl. rewrite Hnone. simpl. eauto.
  - intros db table ping_filter date_filter cpu_threshold c Htable Hc Hnot.
    unfold get_system_logs, select_system_log. simpl. rewrite Htable. simpl.
    destruct (sql_columns_Raise table _ c Hc Hnot) as [e ->]. simpl. eauto.
  - intros db table Htable Hnot.
    unfold get_alerts_log. simpl. rewrite Htable. simpl.
    destruct (sql_columns_Raise table ["id"] "id") as [e ->];
      [repeat constructor | exact Hnot |]. simpl. eauto.
  - intros db table ping_filter date_filter cpu_threshold Htable Hcs Hn.
    destruct (proj2 (get_system_logs_Ok_iff sql_DATE (Opened db) ping_filter
                       date_filter cpu_threshold)) as [df Hdf].
    { exists db, table. auto. }
    exists df. split; [exact Hdf|].
    destruct (get_system_logs_Ok _ _ _ _ _ _ Hdf) as (? & t & [= <-] & Ht & -> & _).
    congruence.
  - apply get_alerts_log_returns.
  - intros acc e. apply page_statistics_raise.
  - intros acc stats e. apply page_alerts_raise.
  - intros acc stats alerts_df alerts_shown e. apply page_logs_raise.
  - intros acc e Hraise. unfold page.
    rewrite dashboard_page_elements, Hraise. reflexivity.
  - intros acc. apply dashboard_page_returns.
  - intros s [-> | [-> | (db & -> & Hnone)]].
    + eexists. by apply page_statistics_raise.
    + eexists. by apply page_statistics_raise.
    + assert (Hstats : exists e, get_statistics (Opened db) = Raise e).
      { unfold get_statistics. simpl.
        destruct (system_log db) as [logs|]; simpl; [|eauto].
        destruct Hnone as [|Hnone]; [discriminate|]. rewrite Hnone. simpl. eauto. }
      destruct Hstats as [e Hstats]. exists e. by apply page_statistics_raise.
  - intros acc e Hstats. unfold sidebar_database. by rewrite Hstats.
Qed.

(** A store without tables: the page is its head and the two messages. *)
Lemma store_failure_is_caught_and_shown_witness :
  example_page (store_accessors DATE_of_iso store_without_tables) ui_default
  = page_head
    ++ [st_error "Error loading data: no such table: system_log";
        st_info "Make sure 'log.db' exists in the same directory. Run your logger script first."].
Proof.
  destruct (store_failure_is_caught_and_shown DATE_of_iso example_str
              example_to_datetime example_mean example_max example_min ui_default)
    as (_ & _ & _ & _ & _ & _ & _ & _ & _ & _ & Hcaught & _).
  apply (Hcaught (store_accessors DATE_of_iso store_without_tables)
           (OperationalError (no_such_table "system_log"))).
  reflexivity.
Defined.

(** Tables that lack a column the statement does not name: both accessors
    return. *)
Lemma accessors_return_on_missing_columns :
  (exists df,
     get_system_logs DATE_of_iso store_lacking_columns None None None = Ok df
     /\ has_column df "memory" = false /\ sql_has_column df "memory" = false)
  /\ (exists df,
        get_alerts_log store_lacking_columns = Ok df
        /\ has_column df "message" = false /\ sql_has_column df "message" = false).
Proof.
  split; eexists; (split; [vm_compute; reflexivity | split; reflexivity]).
Qed.

(** ** The query cache *)

Section QueryCacheFacts.

Context {K : Type} `{Countable K} {V W : Type}.

Implicit Types (cache : gmap K (entry V)) (compute_fn : W -> V * W).

Lemma get_or_compute_miss now key ttl_seconds compute_fn cache w :
  cache_hit now key ttl_seconds cache = false ->
  get_or_compute now key ttl_seconds compute_fn cache w
  = (fst (compute_fn w),
     <[key := {| value := fst (compute_fn w); computed_at := now |}]> cache,
     snd (compute_fn w)).
Proof.
  unfold cache_hit, get_or_compute. intros Hmiss.
  destruct (cache !! key) as [e|]; [rewrite Hmiss|]; by destruct (compute_fn w).
Qed.

Lemma get_or_compute_hit now key ttl_seconds compute_fn cache w e :
  cache !! key = Some e ->
  within_ttl now ttl_seconds e = true ->
  get_or_compute now key ttl_seconds compute_fn cache w = (value e, cache, w).
Proof. unfold get_or_compute. by intros -> ->. Qed.

(** C4. After a call that had to compute, a second call with the same key
    no later than [ttl_seconds] after it returns the stored value and
    leaves the cache and the world as they are, whatever function it is
    given: the function is not run.  A second call later than that runs
    its function and stores the new value with the new time.  After
    [invalidate_all] the cache has no entry, so the next call runs its
    function however recent the dropped value was.  The accessors are
    cached for 10 seconds, and the "Clear Cache" button invalidates. *)
Theorem cached_value_is_reused_within_ttl
    (now1 now2 : Q) (key : K) (ttl_seconds : Q) (f g : W -> V * W)
    (cache : gmap K (entry V)) (w : W) :
  cache_hit now1 key ttl_seconds cache = false ->
  let first := get_or_compute now1 key ttl_seconds f cache w in
  let v1 := first.1.1 in
  let cache1 := first.1.2 in
  let w1 := first.2 in
  first = (fst (f w), <[key := {| value := fst (f w); computed_at := now1 |}]> cache,
           snd (f w))
  /\ ((now2 - now1 <= ttl_seconds)%Q ->
      get_or_compute now2 key ttl_seconds g cache1 w1 = (v1, cache1, w1))
  /\ ((ttl_seconds < now2 - now1)%Q ->
      get_or_compute now2 key ttl_seconds g cache1 w1
      = (fst (g w1),
         <[key := {| value := fst (g w1); computed_at := now2 |}]> cache1,
         snd (g w1)))
  /\ (forall key', invalidate_all cache1 !! key' = None)
  /\ get_or_compute now2 key ttl_seconds g (invalidate_all cache1) w1
     = (fst (g w1),
        <[key := {| value := fst (g w1); computed_at := now2 |}]> (invalidate_all cache1),
        snd (g w1))
  /\ (ttl == 10)%Q
  /\ clear_cache_button true cache1
     = (invalidate_all cache1, [st_success "Cache cleared successfully!"]).
Proof.
  intros Hmiss first v1 cache1 w1.
  assert (Hfirst : first = (fst (f w),
            <[key := {| value := fst (f w); computed_at := now1 |}]> cache,
            snd (f w))) by (by apply get_or_compute_miss).
  split; [exact Hfirst|].
  assert (Hentry : cache1 !! key = Some {| value := v1; computed_at := now1 |}).
  { unfold cache1, v1. rewrite Hfirst. cbn [fst snd]. apply lookup_insert_eq. }
  split; [|split; [|split; [|split; [|split]]]].
  - intros Hwithin.
    rewrite (get_or_compute_hit _ _ _ _ _ _ _ Hentry); [reflexivity|].
    unfold within_ttl. cbn [computed_at]. by apply Qle_bool_iff.
  - intros Hafter. apply get_or_compute_miss.
    unfold cache_hit. rewrite Hentry. unfold within_ttl. cbn [computed_at].
    destruct (Qle_bool (now2 - now1) ttl_seconds) eqn:Hle; [|reflexivity].
    apply Qle_bool_iff in Hle. by apply Qlt_not_le in Hafter.
  - intros key'. apply lookup_empty.
  - apply get_or_compute_miss. unfold cache_hit, invalidate_all.
    by rewrite lookup_empty.
  - reflexivity.
  - reflexivity.
Qed.

End QueryCacheFacts.

(** A cache keyed by the arguments of [get_system_logs], in a world that
    counts the runs of the body: the second call, five seconds after the
    first, returns the same frame and the count stays at one. *)
Lemma cached_value_is_reused_within_ttl_witness :
  let key : option string * option (date * date) * option Z := (None, None, Some 50) in
  let body (runs : nat) := (get_system_logs DATE_of_iso store_40_60_80 None None (Some 50),
                            S runs) in
  let first := get_or_compute 0 key ttl body ∅ O in
  first.2 = 1%nat
  /\ get_or_compute 5 key ttl body first.1.2 first.2 = (first.1.1, first.1.2, 1%nat).
Proof.
  intros key body first.
  assert (Hmiss : cache_hit 0 key ttl
                    (∅ : gmap _ (entry (result (DataFrame LogRecord.t)))) = false)
    by (unfold cache_hit; by rewrite lookup_empty).
  destruct (cached_value_is_reused_within_ttl 0 5 key ttl body body ∅ O Hmiss)
    as (Hfirst & Hwithin & _).
  fold first in Hfirst, Hwithin.
  assert (Hruns : first.2 = 1%nat) by (by rewrite Hfirst).
  split; [exact Hruns|].
  rewrite Hwithin; [by rewrite Hruns | vm_compute; discriminate].
Defined.

(** ** The run of the script *)

Lemma init_session_state_run (ss : SessionState) :
  init_session_state ss = ([], with_defaults ss, Returned tt).
Proof. by destruct ss as [[dm|] [ar|] [ri|]]. Qed.

Lemma all_keys_set_with_defaults (ss : SessionState) : all_keys_set (with_defaults ss).
Proof. unfold all_keys_set. simpl. eauto. Qed.

Lemma with_defaults_all_keys_set (ss : SessionState) :
  all_keys_set ss -> with_defaults ss = ss.
Proof.
  destruct ss as [dm ar ri]. unfold all_keys_set. simpl.
  by intros ([? ->] & [? ->] & [? ->]).
Qed.

Lemma keeps_keys_ret {A} (a : A) : keeps_keys (script_ret a).
Proof. intros ss Hss. split; [left; by exists a | exact Hss]. Qed.

Lemma keeps_keys_bind {A B} (m : script A) (k : A -> script B) :
  keeps_keys m -> (forall a, keeps_keys (k a)) -> keeps_keys (script_bind m k).
Proof.
  intros Hm Hk ss Hss. specialize (Hm ss Hss).
  unfold script_bind, how_it_ended, state_after in *.
  destruct (m ss) as [[done ss'] [a|why]]; simpl in Hm.
  - destruct Hm as [_ Hss']. specialize (Hk a ss' Hss').
    unfold how_it_ended, state_after in Hk.
    destruct (k a ss') as [[done' ss''] r]. exact Hk.
  - destruct Hm as [[[a Ha]|Hm] Hss']; [discriminate|]. injection Hm as ->. auto.
Qed.

Lemma keeps_keys_show (e : element) : keeps_keys (show e).
Proof. intros ss Hss. split; [left; by exists tt | exact Hss]. Qed.

Lemma keeps_keys_show_all (l : list element) : keeps_keys (show_all l).
Proof. intros ss Hss. split; [left; by exists tt | exact Hss]. Qed.

Lemma keeps_keys_st_rerun {A} : keeps_keys (@st_rerun A).
Proof. intros ss Hss. split; [by right | exact Hss]. Qed.

Lemma keeps_keys_st_cache_data_clear : keeps_keys st_cache_data_clear.
Proof. intros ss Hss. split; [left; by exists tt | exact Hss]. Qed.

Lemma keeps_keys_sleep (n : Z) : keeps_keys (sleep n).
Proof. intros ss Hss. split; [left; by exists tt | exact Hss]. Qed.

Lemma keeps_keys_getattr_dark_mode : keeps_keys (getattr "dark_mode" dark_mode).
Proof.
  intros ss Hss. unfold getattr, how_it_ended, state_after.
  pose proof Hss as ([b Hb] & ? & ?). rewrite Hb. simpl. split; [eauto|exact Hss].
Qed.

Lemma keeps_keys_getattr_auto_refresh :
  keeps_keys (getattr "auto_refresh" auto_refresh).
Proof.
  intros ss Hss. unfold getattr, how_it_ended, state_after.
  pose proof Hss as (? & [b Hb] & ?). rewrite Hb. simpl. split; [eauto|exact Hss].
Qed.

Lemma keeps_keys_getattr_refresh_interval :
  keeps_keys (getattr "refresh_interval" refresh_interval).
Proof.
  intros ss Hss. unfold getattr, how_it_ended, state_after.
  pose proof Hss as (? & ? & [n Hn]). rewrite Hn. simpl. split; [eauto|exact Hss].
Qed.

Lemma keeps_keys_set_dark_mode (b : bool) : keeps_keys (set_dark_mode b).
Proof. intros ss (? & ? & ?). split; [left; by exists tt|]. by repeat split. Qed.

Lemma keeps_keys_set_auto_refresh (b : bool) : keeps_keys (set_auto_refresh b).
Proof. intros ss (? & ? & ?). split; [left; by exists tt|]. by repeat split. Qed.

Lemma keeps_keys_set_refresh_interval (n : Z) : keeps_keys (set_refresh_interval n).
Proof. intros ss (? & ? & ?). split; [left; by exists tt|]. by repeat split. Qed.

Lemma keeps_keys_with_sidebar {A} (m : script A) :
  keeps_keys m -> keeps_keys (with_sidebar m).
Proof.
  intros Hm ss Hss. specialize (Hm ss Hss).
  unfold with_sidebar, how_it_ended, state_after in *.
  by destruct (m ss) as [[done ss'] r].
Qed.

Ltac keeps_keys_step :=
  first
    [ apply keeps_keys_bind; [|intros ?]
    | apply keeps_keys_ret | apply keeps_keys_show | apply keeps_keys_show_all
    | apply keeps_keys_st_rerun | apply keeps_keys_st_cache_data_clear
    | apply keeps_keys_sleep | apply keeps_keys_getattr_dark_mode
    | apply keeps_keys_getattr_auto_refresh
    | apply keeps_keys_getattr_refresh_interval
    | apply keeps_keys_set_dark_mode | apply keeps_keys_set_auto_refresh
    | apply keeps_keys_set_refresh_interval
    | apply keeps_keys_with_sidebar
    | match goal with |- keeps_keys (if ?b then _ else _) => destruct b end
    | match goal with |- keeps_keys (let _ := _ in _) => cbv zeta end ].

Lemma keeps_keys_settings_page (inp : Inputs) : keeps_keys (settings_page inp).
Proof. unfold settings_page. repeat keeps_keys_step. Qed.

Lemma keeps_keys_about_page : keeps_keys about_page.
Proof. unfold about_page. repeat keeps_keys_step. Qed.

Lemma keeps_keys_sidebar_navigation (acc : Accessors) (inp : Inputs) :
  keeps_keys (sidebar_navigation acc inp).
Proof. unfold sidebar_navigation. repeat keeps_keys_step. Qed.

Lemma keeps_keys_apply_theme : keeps_keys apply_theme.
Proof. unfold apply_theme. repeat keeps_keys_step. Qed.

#[local] Arguments sidebar_database : simpl never.
#[local] Arguments dashboard_page : simpl never.
#[local] Arguments str_int : simpl never.

Lemma main_area_app (l1 l2 : list effect) :
  main_area (l1 ++ l2) = main_area l1 ++ main_area l2.
Proof. apply omap_app. Qed.

Lemma sidebar_app (l1 l2 : list effect) : sidebar (l1 ++ l2) = sidebar l1 ++ sidebar l2.
Proof. apply omap_app. Qed.

Lemma main_area_in_main (l : list element) : main_area (map in_main l) = l.
Proof. induction l as [|e l IH]; [reflexivity|]. simpl. by rewrite IH. Qed.

Lemma main_area_in_sidebar (l : list element) : main_area (map in_sidebar l) = [].
Proof. by induction l. Qed.

Lemma sidebar_in_sidebar (l : list element) : sidebar (map in_sidebar l) = l.
Proof. induction l as [|e l IH]; [reflexivity|]. simpl. by rewrite IH. Qed.

Lemma sidebar_in_main (l : list element) : sidebar (map in_main l) = [].
Proof. by induction l. Qed.

(** The sidebar when the button is not pressed: it is drawn to its end
    and hands over the page of the radio. *)
Lemma sidebar_navigation_run (acc : Accessors) (inp : Inputs) (d a : bool) (n : Z) :
  i_refresh_data inp = false ->
  let ss := {| dark_mode := Some d; auto_refresh := Some a;
               refresh_interval := Some n |} in
  sidebar_navigation acc inp ss
  = (map in_sidebar (sidebar_shown acc ss), ss, Returned (i_page inp)).
Proof.
  intros Hrd ss. unfold sidebar_navigation, with_sidebar, script_bind, script_ret,
    show, show_all, st_rerun, st_cache_data_clear, getattr, sidebar_shown,
    auto_refresh_status.
  rewrite Hrd. subst ss.
  destruct a; cbn; rewrite !map_app, !List.map_map; reflexivity.
Qed.

Lemma script_bind_Returned {A B} (m : script A) (k : A -> script B)
    (ss ss' : SessionState) (done : list effect) (a : A) :
  m ss = (done, ss', Returned a) ->
  script_bind m k ss = (done ++ what_it_did (k a ss'), state_after (k a ss'),
                        how_it_ended (k a ss')).
Proof.
  intros Hm. unfold script_bind, what_it_did, state_after, how_it_ended. rewrite Hm.
  by destruct (k a ss') as [[done' ss''] r].
Qed.

Lemma script_bind_Stopped {A B} (m : script A) (k : A -> script B)
    (ss ss' : SessionState) (done : list effect) (why : stop) :
  m ss = (done, ss', Stopped why) ->
  script_bind m k ss = (done, ss', Stopped why).
Proof. intros Hm. unfold script_bind. by rewrite Hm. Qed.

Lemma apply_theme_run (ss : SessionState) :
  apply_theme (with_defaults ss) = ([in_main (theme ss)], with_defaults ss, Returned tt).
Proof. unfold apply_theme, theme. cbn. by destruct (default false (dark_mode ss)). Qed.

Lemma about_page_run (ss : SessionState) :
  about_page ss
  = (map in_main [st_title "ℹ️ About"; st_markdown "---"; st_markdown about_text],
     ss, Returned tt).
Proof. reflexivity. Qed.

(** The settings page when the toggle differs from the session's
    [dark_mode]: the key is written and the run stops there. *)
Lemma settings_page_dark_mode_changed (inp : Inputs) (d a : bool) (n : Z) :
  i_dark_mode inp <> d ->
  settings_page inp {| dark_mode := Some d; auto_refresh := Some a;
                       refresh_interval := Some n |}
  = (map in_main [st_title "⚙️ Settings"; st_markdown "---";
                  st_subheader "🎨 Appearance Settings"],
     {| dark_mode := Some (i_dark_mode inp); auto_refresh := Some a;
        refresh_interval := Some n |},
     Stopped RerunException).
Proof.
  intros Hd. unfold settings_page. cbn.
  destruct (i_dark_mode inp), d; try done; reflexivity.
Qed.

(** The settings page otherwise: it is drawn to its end. *)
Lemma settings_page_run (inp : Inputs) (a : bool) (n : Z) :
  settings_page inp {| dark_mode := Some (i_dark_mode inp); auto_refresh := Some a;
                       refresh_interval := Some n |}
  = (map in_main
       ([st_title "⚙️ Settings"; st_markdown "---";
         st_subheader "🎨 Appearance Settings"; st_markdown "---";
         st_subheader "🔄 Auto-Refresh Settings"]
        ++ (if i_auto_refresh inp
            then [st_info ("Dashboard will refresh every "
                           +:+ str_int (i_refresh_interval inp) +:+ " seconds")]
            else [])
        ++ [st_markdown "---"; st_subheader "🗄️ Database Settings";
            st_caption "The database file used for storing system logs and alerts";
            st_markdown "---"; st_subheader "📊 Threshold Settings";
            st_markdown threshold_text; st_markdown "---";
            st_subheader "💾 Data Management"])
     ++ (if i_clear_cache inp
         then [cache_data_clear; in_main (st_success "Cache cleared successfully!")]
         else [])
     ++ [in_main (st_caption "Clear cached data to force reload from database")],
     {| dark_mode := Some (i_dark_mode inp);
        auto_refresh := Some (i_auto_refresh inp);
        refresh_interval := Some (if i_auto_refresh inp then i_refresh_interval inp
                                  else n) |},
     Returned tt).
Proof.
  unfold settings_page. cbn. rewrite Bool.eqb_reflx. cbn.
  destruct (i_auto_refresh inp), (i_clear_cache inp); reflexivity.
Qed.

Section Only.

Variable P : effect -> Prop.

Lemma only_ret {A} (a : A) : only P (script_ret a).
Proof. intros ss. constructor. Qed.

Lemma only_bind {A B} (m : script A) (k : A -> script B) :
  only P m -> (forall a, only P (k a)) -> only P (script_bind m k).
Proof.
  intros Hm Hk ss. specialize (Hm ss). unfold script_bind, what_it_did in *.
  destruct (m ss) as [[done ss'] [a|why]]; [|exact Hm].
  specialize (Hk a ss'). destruct (k a ss') as [[done' ss''] r].
  simpl in *. by apply Forall_app.
Qed.

Lemma only_show (e : element) : P (in_main e) -> only P (show e).
Proof. intros He ss. by repeat constructor. Qed.

Lemma only_show_all (l : list element) :
  (forall e, P (in_main e)) -> only P (show_all l).
Proof.
  intros He ss. unfold show_all, what_it_did. simpl.
  apply Forall_fmap, Forall_forall. intros e _. apply He.
Qed.

Lemma only_st_rerun {A} : only P (@st_rerun A).
Proof. intros ss. constructor. Qed.

Lemma only_st_cache_data_clear : P cache_data_clear -> only P st_cache_data_clear.
Proof. intros Hc ss. by repeat constructor. Qed.

Lemma only_sleep (n : Z) : P (time_sleep n) -> only P (sleep n).
Proof. intros Hn ss. by repeat constructor. Qed.

Lemma only_getattr {A} (name : string) (field : SessionState -> option A) :
  only P (getattr name field).
Proof. intros ss. unfold getattr, what_it_did. destruct (field ss); constructor. Qed.

Lemma only_set_dark_mode (b : bool) : only P (set_dark_mode b).
Proof. intros ss. constructor. Qed.

Lemma only_set_auto_refresh (b : bool) : only P (set_auto_refresh b).
Proof. intros ss. constructor. Qed.

Lemma only_set_refresh_interval (n : Z) : only P (set_refresh_interval n).
Proof. intros ss. constructor. Qed.

End Only.

Ltac only_step :=
  first
    [ apply only_bind; [|intros ?]
    | apply only_ret | apply only_show; exact I | apply only_show_all; intros ?; exact I
    | apply only_st_rerun | apply only_st_cache_data_clear; exact I
    | apply only_sleep; exact I
    | apply only_getattr | apply only_set_dark_mode | apply only_set_auto_refresh
    | apply only_set_refresh_interval
    | match goal with |- only _ (if ?b then _ else _) => destruct b end
    | match goal with |- only _ (let _ := _ in _) => cbv zeta end ].

Section ScriptFacts.

Variable str : exn -> string.
Variable to_datetime : list string -> result (list Timestamp).
Variables series_mean series_max series_min : list (option float) -> float.

Local Abbreviation one_run := (app str to_datetime series_mean series_max series_min).
Local Abbreviation main_of_app := (main str to_datetime series_mean series_max series_min).
Local Abbreviation page := (dashboard_page str to_datetime series_mean series_max series_min).

Lemma keeps_keys_main (sidebar_acc page_acc : Accessors) (inp : Inputs) :
  keeps_keys (main_of_app sidebar_acc page_acc inp).
Proof.
  unfold main.
  apply keeps_keys_bind; [apply keeps_keys_sidebar_navigation|intros pg].
  apply keeps_keys_bind.
  { repeat match goal with
           | |- keeps_keys (if ?b then _ else _) => destruct b
           end;
      [apply keeps_keys_show_all | apply keeps_keys_settings_page
      | apply keeps_keys_about_page | apply keeps_keys_ret]. }
  intros _. repeat keeps_keys_step.
Qed.

(** A run is the theme and [main] on the session state with its defaults. *)
Lemma app_run (sidebar_acc page_acc : Accessors) (inp : Inputs) (ss : SessionState) :
  one_run sidebar_acc page_acc inp ss
  = script_bind apply_theme (fun _ => main_of_app sidebar_acc page_acc inp) (with_defaults ss).
Proof.
  unfold app. unfold script_bind at 1. rewrite init_session_state_run.
  cbv beta iota.
  by destruct (script_bind apply_theme _ (with_defaults ss)) as [[done ss'] r].
Qed.

(** X11. A run of the script never stops on a key that the session state
    lacks, whatever state Streamlit kept, whatever the widgets hold and
    whatever the cached functions do: it runs to its last line or asks for
    a rerun, and it leaves the three keys set. *)
Theorem app_returns_or_reruns (sidebar_acc page_acc : Accessors) (inp : Inputs)
    (ss : SessionState) :
  (how_it_ended (one_run sidebar_acc page_acc inp ss) = Returned tt
   \/ how_it_ended (one_run sidebar_acc page_acc inp ss) = Stopped RerunException)
  /\ all_keys_set (state_after (one_run sidebar_acc page_acc inp ss)).
Proof.
  assert (Hrest : keeps_keys (script_bind apply_theme
                                (fun _ => main_of_app sidebar_acc page_acc inp))).
  { apply keeps_keys_bind; [apply keeps_keys_apply_theme|intros _].
    apply keeps_keys_main. }
  specialize (Hrest (with_defaults ss) (all_keys_set_with_defaults ss)).
  rewrite app_run. unfold how_it_ended, state_after in *.
  destruct (script_bind apply_theme _ (with_defaults ss)) as [[done ss'] r].
  simpl in *. destruct Hrest as [[[[] ->]| ->] Hkeys]; auto.
Qed.

(** [main] past the sidebar: what the sidebar has drawn, then the rest of
    the function for the page of the radio. *)
Lemma app_past_the_sidebar (sidebar_acc page_acc : Accessors) (inp : Inputs)
    (ss : SessionState) :
  i_refresh_data inp = false ->
  let rest :=
    script_bind
      (if String.eqb (i_page inp) "Dashboard"
       then show_all (page page_acc (i_filters inp))
       else if String.eqb (i_page inp) "Settings" then settings_page inp
       else if String.eqb (i_page inp) "About" then about_page
       else script_ret tt)
      (fun _ =>
         script_bind (getattr "auto_refresh" auto_refresh) (fun auto =>
           if auto && String.eqb (i_page inp) "Dashboard"
           then script_bind (getattr "refresh_interval" refresh_interval)
                  (fun interval =>
                     script_bind (sleep interval) (fun _ =>
                       script_bind st_cache_data_clear (fun _ => st_rerun)))
           else script_ret tt))
      (with_defaults ss) in
  one_run sidebar_acc page_acc inp ss
  = ([in_main (theme ss)] ++ map in_sidebar (sidebar_shown sidebar_acc ss)
     ++ what_it_did rest,
     state_after rest, how_it_ended rest).
Proof.
  intros Hrd rest. rewrite app_run.
  rewrite (script_bind_Returned _ _ _ _ _ _ (apply_theme_run ss)).
  cbv beta. unfold main, with_defaults.
  rewrite (script_bind_Returned _ _ _ _ _ _
             (sidebar_navigation_run sidebar_acc inp _ _ _ Hrd)).
  reflexivity.
Qed.

(** Off the Dashboard page nothing after the sidebar sleeps. *)
Lemma off_dashboard_never_sleeps (page_acc : Accessors) (inp : Inputs) :
  String.eqb (i_page inp) "Dashboard" = false ->
  only not_a_sleep
    (script_bind
       (if String.eqb (i_page inp) "Dashboard"
        then show_all (page page_acc (i_filters inp))
        else if String.eqb (i_page inp) "Settings" then settings_page inp
        else if String.eqb (i_page inp) "About" then about_page
        else script_ret tt)
       (fun _ =>
          script_bind (getattr "auto_refresh" auto_refresh) (fun auto =>
            if auto && String.eqb (i_page inp) "Dashboard"
            then script_bind (getattr "refresh_interval" refresh_interval)
                   (fun interval =>
                      script_bind (sleep interval) (fun _ =>
                        script_bind st_cache_data_clear (fun _ => st_rerun)))
            else script_ret tt))).
Proof.
  intros Hpage. rewrite Hpage.
  apply only_bind; [repeat only_step|intros _].
  apply only_bind; [apply only_getattr|intros auto].
  rewrite andb_false_r. apply only_ret.
Qed.

(** The Settings page past the sidebar, by whether the toggle differs from
    the session's [dark_mode]. *)
Lemma app_settings_changed (sidebar_acc page_acc : Accessors) (inp : Inputs)
    (ss : SessionState) :
  i_refresh_data inp = false ->
  i_page inp = "Settings" ->
  i_dark_mode inp <> default false (dark_mode ss) ->
  one_run sidebar_acc page_acc inp ss
  = ([in_main (theme ss)] ++ map in_sidebar (sidebar_shown sidebar_acc ss)
     ++ map in_main [st_title "⚙️ Settings"; st_markdown "---";
                     st_subheader "🎨 Appearance Settings"],
     {| dark_mode := Some (i_dark_mode inp);
        auto_refresh := Some (default false (auto_refresh ss));
        refresh_interval := Some (default 30 (refresh_interval ss)) |},
     Stopped RerunException).
Proof.
  intros Hrd Hpage Hd. rewrite (app_past_the_sidebar _ _ _ _ Hrd), Hpage.
  cbn [String.eqb Ascii.eqb Bool.eqb]. unfold with_defaults.
  by rewrite (script_bind_Stopped _ _ _ _ _ _
                (settings_page_dark_mode_changed inp _ _ _ Hd)).
Qed.

Lemma app_settings_unchanged (sidebar_acc page_acc : Accessors) (inp : Inputs)
    (ss : SessionState) :
  i_refresh_data inp = false ->
  i_page inp = "Settings" ->
  i_dark_mode inp = default false (dark_mode ss) ->
  one_run sidebar_acc page_acc inp ss
  = ([in_main (theme ss)] ++ map in_sidebar (sidebar_shown sidebar_acc ss)
     ++ what_it_did (settings_page inp (with_defaults ss)),
     {| dark_mode := Some (i_dark_mode inp);
        auto_refresh := Some (i_auto_refresh inp);
        refresh_interval := Some (if i_auto_refresh inp then i_refresh_interval inp
                                  else default 30 (refresh_interval ss)) |},
     Returned tt).
Proof.
  intros Hrd Hpage Hd. rewrite (app_past_the_sidebar _ _ _ _ Hrd), Hpage.
  cbn [String.eqb Ascii.eqb Bool.eqb]. unfold with_defaults. rewrite <- Hd.
  rewrite (script_bind_Returned _ _ _ _ _ _ (settings_page_run inp _ _)).
  rewrite settings_page_run. cbn. rewrite andb_false_r. cbn.
  by rewrite !app_nil_r.
Qed.

(** X13. A run on the Dashboard page draws the theme, the sidebar and the
    page, whatever the page turned out to be.  With auto-refresh off it
    ends there.  With auto-refresh on it then sleeps for the interval of
    the session, clears the cache and asks for a rerun.  The session
    state is left as it was. *)
Theorem dashboard_run_and_auto_refresh (sidebar_acc page_acc : Accessors)
    (inp : Inputs) (ss : SessionState) :
  i_refresh_data inp = false ->
  i_page inp = "Dashboard" ->
  one_run sidebar_acc page_acc inp ss
  = ([in_main (theme ss)] ++ map in_sidebar (sidebar_shown sidebar_acc ss)
     ++ map in_main (page page_acc (i_filters inp))
     ++ (if default false (auto_refresh ss)
         then [time_sleep (default 30 (refresh_interval ss)); cache_data_clear]
         else []),
     with_defaults ss,
     if default false (auto_refresh ss) then Stopped RerunException else Returned tt).
Proof.
  intros Hrd Hpage. rewrite (app_past_the_sidebar _ _ _ _ Hrd). rewrite Hpage.
  cbn. destruct (default false (auto_refresh ss)); cbn; by rewrite ?app_nil_r.
Qed.

(** X14. The other pages.  The sidebar is the same on every page and shows
    the auto-refresh state the run started with.  The About page is its
    three elements; a page name the radio does not offer draws nothing.
    Off the Dashboard page a run never sleeps, auto-refresh or not. *)
Theorem other_pages_never_sleep (sidebar_acc page_acc : Accessors)
    (inp : Inputs) (ss : SessionState) :
  i_refresh_data inp = false ->
  sidebar (what_it_did (one_run sidebar_acc page_acc inp ss))
    = sidebar_shown sidebar_acc ss
  /\ (i_page inp = "About" ->
      one_run sidebar_acc page_acc inp ss
      = ([in_main (theme ss)] ++ map in_sidebar (sidebar_shown sidebar_acc ss)
         ++ map in_main [st_title "ℹ️ About"; st_markdown "---";
                         st_markdown about_text],
         with_defaults ss, Returned tt))
  /\ (i_page inp ∉ ["Dashboard"; "Settings"; "About"] ->
      one_run sidebar_acc page_acc inp ss
      = ([in_main (theme ss)] ++ map in_sidebar (sidebar_shown sidebar_acc ss),
         with_defaults ss, Returned tt))
  /\ (i_page inp <> "Dashboard" ->
      forall n, time_sleep n ∉ what_it_did (one_run sidebar_acc page_acc inp ss)).
Proof.
  intros Hrd. rewrite (app_past_the_sidebar _ _ _ _ Hrd).
  split; [|split; [|split]].
  - unfold what_it_did at 1. cbn [fst].
    rewrite !sidebar_app, sidebar_in_sidebar.
    match goal with
    | |- context [what_it_did (script_bind ?m ?k ?ss')] =>
        assert (Hrest : only not_in_sidebar (script_bind m k))
    end.
    { repeat only_step. }
    specialize (Hrest (with_defaults ss)).
    match type of Hrest with Forall _ ?l => revert Hrest; generalize l end.
    intros done Hdone.
    replace (sidebar done) with (@nil element); [cbn; by rewrite app_nil_r|].
    induction Hdone as [|eff done Heff _ IH]; [reflexivity|].
    by destruct eff.
  - intros Hpage. rewrite Hpage. cbn. by destruct (default false (auto_refresh ss)).
  - intros Hpage. rewrite !not_elem_of_cons in Hpage.
    destruct Hpage as (H1 & H2 & H3 & _).
    apply String.eqb_neq in H1, H2, H3. rewrite H1, H2, H3. cbn.
    destruct (default false (auto_refresh ss)); by rewrite app_nil_r.
  - intros Hpage n. apply String.eqb_neq in Hpage.
    pose proof (off_dashboard_never_sleeps page_acc inp Hpage (with_defaults ss))
      as Hrest.
    unfold what_it_did at 1. cbn [fst].
    rewrite !not_elem_of_app. split; [|split].
    + rewrite list_elem_of_singleton. discriminate.
    + rewrite list_elem_of_fmap. by intros (? & ? & _).
    + intros Hin. rewrite Forall_forall in Hrest. exact (Hrest _ Hin).
Qed.

(** X15. Changing the theme on the Settings page: the run writes the new
    [dark_mode] and asks for a rerun at once, so nothing else of the page
    takes effect in that run: the auto-refresh keys are not written and the
    cache is not cleared, whatever the other widgets hold.  The rerun, on
    the same widgets, draws the new theme and goes to its end. *)
Theorem dark_mode_change_reruns_once (sidebar_acc page_acc : Accessors)
    (inp : Inputs) (ss : SessionState) :
  i_refresh_data inp = false ->
  i_page inp = "Settings" ->
  i_dark_mode inp <> default false (dark_mode ss) ->
  one_run sidebar_acc page_acc inp ss
  = ([in_main (theme ss)] ++ map in_sidebar (sidebar_shown sidebar_acc ss)
     ++ map in_main [st_title "⚙️ Settings"; st_markdown "---";
                     st_subheader "🎨 Appearance Settings"],
     {| dark_mode := Some (i_dark_mode inp);
        auto_refresh := Some (default false (auto_refresh ss));
        refresh_interval := Some (default 30 (refresh_interval ss)) |},
     Stopped RerunException)
  /\ (forall sidebar_acc' page_acc',
        let rerun := one_run sidebar_acc' page_acc' inp
                       (state_after (one_run sidebar_acc page_acc inp ss)) in
        how_it_ended rerun = Returned tt
        /\ head (what_it_did rerun)
           = Some (in_main (st_markdown (if i_dark_mode inp
                                         then dark_css else light_css)))
        /\ dark_mode (state_after rerun) = Some (i_dark_mode inp)
        /\ auto_refresh (state_after rerun) = Some (i_auto_refresh inp)).
Proof.
  intros Hrd Hpage Hd.
  rewrite (app_settings_changed _ _ _ _ Hrd Hpage Hd).
  split; [reflexivity|]. intros sidebar_acc' page_acc'. cbv zeta.
  unfold how_it_ended, state_after, what_it_did. cbn [fst snd].
  rewrite app_settings_unchanged by done. by repeat split.
Qed.

(** X16. Saving the settings: when the theme toggle agrees with the
    session, the Settings page goes to its end; the session then holds the
    auto-refresh toggle, and the slider's interval when the toggle is on
    (the old interval is kept when it is off).  The cache is cleared
    exactly when "Clear Cache" was pressed, and then the page says so.
    The sidebar of that run was drawn before the page wrote the session:
    it still shows the auto-refresh state the run started with. *)
Theorem settings_page_saves_auto_refresh (sidebar_acc page_acc : Accessors)
    (inp : Inputs) (ss : SessionState) :
  i_refresh_data inp = false ->
  i_page inp = "Settings" ->
  i_dark_mode inp = default false (dark_mode ss) ->
  let run := one_run sidebar_acc page_acc inp ss in
  how_it_ended run = Returned tt
  /\ state_after run
     = {| dark_mode := Some (i_dark_mode inp);
          auto_refresh := Some (i_auto_refresh inp);
          refresh_interval := Some (if i_auto_refresh inp
                                    then i_refresh_interval inp
                                    else default 30 (refresh_interval ss)) |}
  /\ (cache_data_clear ∈ what_it_did run <-> i_clear_cache inp = true)
  /\ (st_success "Cache cleared successfully!" ∈ main_area (what_it_did run)
      <-> i_clear_cache inp = true)
  /\ sidebar (what_it_did run) = sidebar_shown sidebar_acc ss.
Proof.
  intros Hrd Hpage Hd run. subst run.
  rewrite (app_settings_unchanged _ _ _ _ Hrd Hpage Hd).
  unfold how_it_ended, state_after, what_it_did. cbn [fst snd].
  split; [reflexivity|]. split; [reflexivity|].
  unfold with_defaults. rewrite <- Hd, settings_page_run. cbn [fst].
  rewrite !main_area_app, !sidebar_app, !main_area_in_sidebar, !main_area_in_main,
    !sidebar_in_sidebar, !sidebar_in_main.
  split; [|split].
  - rewrite !elem_of_app, !list_elem_of_fmap.
    destruct (i_clear_cache inp); split; try done.
    + intros _. right. right. right. left. by left.
    + intros [Hin|[(? & ? & _)|[(? & ? & _)|[Hin|Hin]]]]; try done.
      * by apply list_elem_of_singleton in Hin.
      * by apply elem_of_nil in Hin.
      * by apply list_elem_of_singleton in Hin.
  - destruct (i_clear_cache inp).
    + split; [done|]. intros _. rewrite !elem_of_app.
      right. right. right. left. by left.
    + split; [|done]. intros Hin. exfalso. revert Hin.
      apply Forall_ne_not_elem_of. unfold theme.
      destruct (i_auto_refresh inp); cbn [app main_area omap];
        repeat constructor; discriminate.
  - destruct (i_clear_cache inp); cbn; by rewrite ?app_nil_r.
Qed.

(** X17. The refresh interval stays within the slider's bounds: if the
    interval the session holds (when it holds one) and the slider's value
    are between 10 and 300 seconds, then so is the interval the session
    holds after the run, and so is every sleep of the run. *)
Theorem refresh_interval_stays_in_range (sidebar_acc page_acc : Accessors)
    (inp : Inputs) (ss : SessionState) :
  (forall n, refresh_interval ss = Some n -> 10 <= n <= 300) ->
  10 <= i_refresh_interval inp <= 300 ->
  let run := one_run sidebar_acc page_acc inp ss in
  (exists n, refresh_interval (state_after run) = Some n /\ 10 <= n <= 300)
  /\ (forall n, time_sleep n ∈ what_it_did run -> 10 <= n <= 300).
Proof.
  intros Hss Hslider run. subst run.
  assert (Hdefault : 10 <= default 30 (refresh_interval ss) <= 300).
  { destruct (refresh_interval ss) as [n|]; [by apply Hss | simpl; lia]. }
  assert (Hhead : forall n (rest : list effect),
            time_sleep n ∈ [in_main (theme ss)]
                           ++ map in_sidebar (sidebar_shown sidebar_acc ss) ++ rest ->
            time_sleep n ∈ rest).
  { intros n rest. rewrite !elem_of_app, list_elem_of_singleton, list_elem_of_fmap.
    intros [Hn|[(? & ? & _)|Hn]]; done. }
  destruct (i_refresh_data inp) eqn:Hrd.
  { rewrite app_run, (script_bind_Returned _ _ _ _ _ _ (apply_theme_run ss)).
    unfold state_after, what_it_did.
    unfold main, sidebar_navigation, with_sidebar, script_bind,
      script_ret, show, st_rerun, st_cache_data_clear, getattr.
    rewrite Hrd. cbn. split; [eauto|]. intros n. rewrite !elem_of_cons, elem_of_nil.
    intros Hn. repeat (destruct Hn as [Hn|Hn]; try discriminate). done. }
  rewrite (app_past_the_sidebar _ _ _ _ Hrd). cbv zeta.
  unfold state_after at 1. unfold what_it_did at 1. cbn [fst snd].
  destruct (String.eqb (i_page inp) "Dashboard") eqn:Hdashboard.
  { cbn. destruct (default false (auto_refresh ss)); cbn.
    - split; [eauto|]. intros n Hn. apply Hhead in Hn.
      rewrite elem_of_app, !elem_of_cons, elem_of_nil, list_elem_of_fmap in Hn.
      destruct Hn as [(? & ? & _)|[[= ->]|[?|[]]]]; done.
    - split; [eauto|]. intros n Hn. apply Hhead in Hn.
      rewrite elem_of_app, elem_of_nil, list_elem_of_fmap in Hn.
      destruct Hn as [(? & ? & _)|[]]; done. }
  split.
  - destruct (String.eqb (i_page inp) "Settings").
    { destruct (decide (i_dark_mode inp = default false (dark_mode ss))) as [Hd|Hd].
      - unfold with_defaults. rewrite <- Hd.
        rewrite (script_bind_Returned _ _ _ _ _ _ (settings_page_run inp _ _)).
        cbn. rewrite andb_false_r. cbn.
        destruct (i_auto_refresh inp); eauto.
      - unfold with_defaults.
        rewrite (script_bind_Stopped _ _ _ _ _ _
                   (settings_page_dark_mode_changed inp _ _ _ Hd)).
        cbn. eauto. }
    destruct (String.eqb (i_page inp) "About"); cbn;
      destruct (default false (auto_refresh ss)); cbn; eauto.
  - intros n Hn. apply Hhead in Hn.
    pose proof (off_dashboard_never_sleeps page_acc inp Hdashboard (with_defaults ss))
      as Hrest.
    rewrite Hdashboard in Hrest. rewrite Forall_forall in Hrest.
    by destruct (Hrest _ Hn).
Qed.

Ltac run_script :=
  unfold script_bind, main, sidebar_navigation, settings_page, about_page,
    apply_theme, with_sidebar, script_bind, script_ret, show, show_all, st_rerun,
    st_cache_data_clear, sleep, getattr, set_dark_mode, set_auto_refresh,
    set_refresh_interval, with_defaults;
  cbn [dark_mode auto_refresh refresh_interval fst snd app map omap negb andb
       Bool.eqb default from_option i_page i_refresh_data i_filters i_dark_mode
       i_auto_refresh i_refresh_interval i_clear_cache].

(** X12. "Refresh Data": the run clears the cache and asks for a rerun
    right there.  Nothing below the button is drawn or read in that run:
    no statistics in the sidebar, no page, no change of the session
    state. *)
Theorem refresh_data_clears_cache_and_reruns (sidebar_acc page_acc : Accessors)
    (inp : Inputs) (ss : SessionState) :
  i_refresh_data inp = true ->
  one_run sidebar_acc page_acc inp ss
  = ([in_main (st_markdown (if default false (dark_mode ss)
                            then dark_css else light_css));
      in_sidebar (st_markdown sidebar_logo);
      in_sidebar (st_markdown "---");
      in_sidebar (st_header "📋 Navigation");
      in_sidebar (st_markdown "---");
      in_sidebar (st_header "⚡ Quick Actions");
      cache_data_clear],
     with_defaults ss, Stopped RerunException).
Proof.
  intros Hpressed. rewrite app_run.
  destruct inp as [pg rd fl idm iar iri icc]. simpl in Hpressed. subst rd.
  destruct ss as [dm ar ri].
  run_script.
  by destruct (default false dm).
Qed.

End ScriptFacts.

(** *** Runs on the example store *)

(** "Refresh Data" on a session that has just started. *)
Lemma refresh_data_clears_cache_and_reruns_witness :
  example_app store_70_85_90 refresh_pressed fresh_session
  = ([in_main (st_markdown light_css);
      in_sidebar (st_markdown sidebar_logo);
      in_sidebar (st_markdown "---");
      in_sidebar (st_header "📋 Navigation");
      in_sidebar (st_markdown "---");
      in_sidebar (st_header "⚡ Quick Actions");
      cache_data_clear],
     {| dark_mode := Some false; auto_refresh := Some false;
        refresh_interval := Some 30 |},
     Stopped RerunException).
Proof.
  exact (refresh_data_clears_cache_and_reruns example_str example_to_datetime
           example_mean example_max example_min _ _ refresh_pressed fresh_session
           eq_refl).
Defined.

(** The Dashboard page with auto-refresh every minute. *)
Lemma dashboard_run_and_auto_refresh_witness :
  how_it_ended (example_app store_70_85_90 on_dashboard session_auto_60)
    = Stopped RerunException
  /\ exists shown,
       what_it_did (example_app store_70_85_90 on_dashboard session_auto_60)
       = shown ++ [time_sleep 60; cache_data_clear].
Proof.
  unfold example_app.
  rewrite (dashboard_run_and_auto_refresh example_str example_to_datetime
             example_mean example_max example_min _ _ on_dashboard session_auto_60
             eq_refl eq_refl).
  split; [reflexivity|]. eexists. unfold what_it_did.
  cbn [fst default from_option auto_refresh refresh_interval session_auto_60].
  rewrite !app_assoc. reflexivity.
Defined.

(** The About page of a session that has just started. *)
Lemma other_pages_never_sleep_witness :
  example_app store_70_85_90 on_about fresh_session
  = ([in_main (theme fresh_session)]
     ++ map in_sidebar (sidebar_shown (store_accessors DATE_of_iso store_70_85_90)
                          fresh_session)
     ++ map in_main [st_title "ℹ️ About"; st_markdown "---"; st_markdown about_text],
     with_defaults fresh_session, Returned tt).
Proof.
  destruct (other_pages_never_sleep example_str example_to_datetime
              example_mean example_max example_min
              (store_accessors DATE_of_iso store_70_85_90)
              (store_accessors DATE_of_iso store_70_85_90)
              on_about fresh_session eq_refl) as (_ & Habout & _).
  exact (Habout eq_refl).
Defined.

(** Switching to the dark theme while also asking for auto-refresh: only
    the theme is written. *)
Lemma dark_mode_change_reruns_once_witness :
  how_it_ended (example_app store_70_85_90 on_settings_dark fresh_session)
    = Stopped RerunException
  /\ state_after (example_app store_70_85_90 on_settings_dark fresh_session)
     = {| dark_mode := Some true; auto_refresh := Some false;
          refresh_interval := Some 30 |}.
Proof.
  destruct (dark_mode_change_reruns_once example_str example_to_datetime
              example_mean example_max example_min
              (store_accessors DATE_of_iso store_70_85_90)
              (store_accessors DATE_of_iso store_70_85_90)
              on_settings_dark fresh_session eq_refl eq_refl) as [Hrun _];
    [discriminate|].
  unfold example_app. rewrite Hrun. split; reflexivity.
Defined.

(** Auto-refresh switched on at 60 seconds, and the cache cleared. *)
Lemma settings_page_saves_auto_refresh_witness :
  state_after (example_app store_70_85_90 on_settings fresh_session)
    = {| dark_mode := Some false; auto_refresh := Some true;
         refresh_interval := Some 60 |}
  /\ cache_data_clear ∈ what_it_did (example_app store_70_85_90 on_settings
                                       fresh_session).
Proof.
  destruct (settings_page_saves_auto_refresh example_str example_to_datetime
              example_mean example_max example_min
              (store_accessors DATE_of_iso store_70_85_90)
              (store_accessors DATE_of_iso store_70_85_90)
              on_settings fresh_session eq_refl eq_refl eq_refl)
    as (_ & Hstate & Hclear & _).
  split; [exact Hstate | by apply Hclear].
Defined.

Lemma refresh_interval_stays_in_range_witness :
  exists n,
    refresh_interval (state_after (example_app store_70_85_90 on_settings
                                     fresh_session)) = Some n
    /\ 10 <= n <= 300.
Proof.
  apply (refresh_interval_stays_in_range example_str example_to_datetime
           example_mean example_max example_min
           (store_accessors DATE_of_iso store_70_85_90)
           (store_accessors DATE_of_iso store_70_85_90)
           on_settings fresh_session); [discriminate | simpl; lia].
Defined.
